(** * PlanGenie orchestrator: date normalisation, missing-field check,
      plan editor and agent supervisor

    A shallow embedding of the parts of the orchestrator (class
    [Orchestrator], file [factory.py] of the sources; the line numbers in
    the comments are those of that file) that the specification's
    testable properties talk about, followed by the theorems that settle
    them. Around these, the file also covers the travel and edit
    classifiers, the component selector, the clarification question, the
    summary writer, the answer to questions that are not about travel,
    the Gemini key manager with its rotating call, and the retry loop of
    the flight search.

    Modelling conventions
    - Python [str] is [string] (bytes, so [\d] is the ASCII digits and
      [str.strip] strips the ASCII white space of [str.isspace]).
    - Python [int] is [Z]; [datetime] is a record of seven [Z] fields
      compared lexicographically, as CPython's [datetime._cmp] does.
    - [datetime.now()] is an explicit argument [now].
    - A caught [ValueError]/[TypeError] is [None]; exceptions that cross a
      function boundary are the [inr] side of a sum carrying [str(e)].
    - Python dictionaries are association lists in insertion order
      ([dict.items()] iterates in that order).
    - Objects mutated in place (the existing plan handed to the editor) are
      the state of a state-and-exception monad in which the state survives
      a raise, as the heap does. *)

From Stdlib Require Import ZArith String Ascii List Bool Lia.
From stdpp Require Import base option list strings pretty finite.

Import ListNotations.
Local Open Scope string_scope.
Local Open Scope list_scope.
Local Open Scope Z_scope.

Set Warnings "-register-all".

Ltac Zify.zify_post_hook ::= Z.to_euclidean_division_equations.

(** ** Python values and dictionaries *)

Module Py.

(** The loosely typed values the agents exchange ([Dict[str, Any]]). *)
Inductive pyval : Type :=
| PNone
| PBool (b : bool)
| PInt (z : Z)
| PStr (s : string)
| PList (l : list pyval)
| PDict (d : list (string * pyval)).

Definition dict : Type := list (string * pyval).

(** [d.get(k)] on an insertion-ordered dictionary whose keys are unique. *)
Fixpoint dict_get {V : Type} (d : list (string * V)) (k : string) : option V :=
  match d with
  | [] => None
  | (k', v) :: r => if String.eqb k' k then Some v else dict_get r k
  end.

(** [k in d]. *)
Definition dict_has {V : Type} (d : list (string * V)) (k : string) : bool :=
  match dict_get d k with Some _ => true | None => false end.

(** [d[k] = v]: update in place when the key exists, append otherwise. *)
Fixpoint dict_set {V : Type} (d : list (string * V)) (k : string) (v : V)
  : list (string * V) :=
  match d with
  | [] => [(k, v)]
  | (k', v') :: r =>
      if String.eqb k' k then (k, v) :: r else (k', v') :: dict_set r k v
  end.

(** Truth value of a string: [bool(s)]. *)
Definition truthy (s : string) : bool :=
  match s with EmptyString => false | String _ _ => true end.

(** Truth value of an arbitrary value. *)
Definition truthy_val (v : pyval) : bool :=
  match v with
  | PNone => false
  | PBool b => b
  | PInt z => negb (z =? 0)
  | PStr s => truthy s
  | PList l => match l with [] => false | _ => true end
  | PDict d => match d with [] => false | _ => true end
  end.

(** [c.isspace()] on the ASCII range: TAB..CR, FS..US and SPACE. *)
Definition is_space (c : ascii) : bool :=
  let n := nat_of_ascii c in
  ((9 <=? n)%nat && (n <=? 13)%nat) || ((28 <=? n)%nat && (n <=? 32)%nat).

Fixpoint lstrip (s : string) : string :=
  match s with
  | EmptyString => EmptyString
  | String c r => if is_space c then lstrip r else s
  end.

(** [rstrip] keeps a character when it is not white space or when
    something survives to its right. *)
Fixpoint rstrip (s : string) : string :=
  match s with
  | EmptyString => EmptyString
  | String c r =>
      match rstrip r with
      | EmptyString => if is_space c then EmptyString else String c EmptyString
      | r' => String c r'
      end
  end.

(** [s.strip()]. *)
Definition strip (s : string) : string := rstrip (lstrip s).

(** [list.index]-free membership test [x in xs] on a list of strings. *)
Definition str_in (x : string) (xs : list string) : bool :=
  existsb (String.eqb x) xs.

(** ASCII decimal digits, the [\d] of the regular expressions used. *)
Definition is_digit (c : ascii) : bool :=
  let n := nat_of_ascii c in (48 <=? n)%nat && (n <=? 57)%nat.

Definition digit_val (c : ascii) : Z := Z.of_nat (nat_of_ascii c) - 48.

Definition digit_char (z : Z) : ascii := ascii_of_nat (Z.to_nat (z + 48)).

(** [f"{n:02d}"] and the four-digit [%Y] of [strftime], for [0 <= n]. *)
Definition pad2 (n : Z) : string :=
  if n <? 100
  then String (digit_char (n / 10)) (String (digit_char (n mod 10)) EmptyString)
  else pretty n.

Definition pad4 (n : Z) : string :=
  if n <? 10000
  then String (digit_char (n / 1000))
         (String (digit_char (n / 100 mod 10))
            (String (digit_char (n / 10 mod 10))
               (String (digit_char (n mod 10)) EmptyString)))
  else pretty n.

End Py.

(** ** [datetime]: construction, comparison, [strptime], [strftime] *)

Module Dates.
Import Py.

Record datetime : Type := mk_datetime {
  year : Z; month : Z; day : Z;
  hour : Z; minute : Z; second : Z; microsecond : Z
}.

Definition is_leap (y : Z) : bool :=
  (y mod 4 =? 0) && (negb (y mod 100 =? 0) || (y mod 400 =? 0)).

Definition days_in_month (y m : Z) : Z :=
  if m =? 2 then (if is_leap y then 29 else 28)
  else if (m =? 4) || (m =? 6) || (m =? 9) || (m =? 11) then 30
  else 31.

(** The range check of [datetime.date.__new__]; outside it the
    constructor raises [ValueError]. *)
Definition valid_date (y m d : Z) : bool :=
  (1 <=? y) && (y <=? 9999) && (1 <=? m) && (m <=? 12)
  && (1 <=? d) && (d <=? days_in_month y m).

(** [datetime(y, m, d)]: midnight of that day. *)
Definition datetime_ymd (y m d : Z) : option datetime :=
  if valid_date y m d then Some (mk_datetime y m d 0 0 0 0) else None.

(** [dt.replace(year=y)]; raises [ValueError] for 29 February in a
    common year. *)
Definition replace_year (dt : datetime) (y : Z) : option datetime :=
  if valid_date y (month dt) (day dt)
  then Some (mk_datetime y (month dt) (day dt)
               (hour dt) (minute dt) (second dt) (microsecond dt))
  else None.

Definition dt_key (dt : datetime) : list Z :=
  [year dt; month dt; day dt; hour dt; minute dt; second dt; microsecond dt].

Fixpoint lex_compare (a b : list Z) : comparison :=
  match a, b with
  | [], [] => Eq
  | [], _ :: _ => Lt
  | _ :: _, [] => Gt
  | x :: a', y :: b' =>
      match x ?= y with
      | Eq => lex_compare a' b'
      | c => c
      end
  end.

Definition dt_compare (a b : datetime) : comparison :=
  lex_compare (dt_key a) (dt_key b).

(** [a < b], [a <= b], [a > b] on naive datetimes. *)
Definition dt_ltb (a b : datetime) : bool :=
  match dt_compare a b with Lt => true | _ => false end.
Definition dt_leb (a b : datetime) : bool :=
  match dt_compare a b with Gt => false | _ => true end.
Definition dt_gtb (a b : datetime) : bool := dt_ltb b a.

(** The date part of an instant, at midnight ([now.date()]). *)
Definition date_of (dt : datetime) : datetime :=
  mk_datetime (year dt) (month dt) (day dt) 0 0 0 0.

(** *** [datetime.strptime(s, "%Y-%m-%d")]

    CPython compiles the format to the regular expression
    [(?P<Y>\d\d\d\d)-(?P<m>1[0-2]|0[1-9]|[1-9])-(?P<d>3[01]|[12]\d|0[1-9]|[1-9]| [1-9])],
    matches it at the start of the string, rejects unconverted trailing
    data, and then builds the date (range-checked). *)

Definition in_range (lo hi : nat) (c : ascii) : bool :=
  let n := nat_of_ascii c in (lo <=? n)%nat && (n <=? hi)%nat.

Definition take_year (s : string) : option (Z * string) :=
  match s with
  | String a (String b (String c (String d r))) =>
      if is_digit a && is_digit b && is_digit c && is_digit d
      then Some (1000 * digit_val a + 100 * digit_val b
                 + 10 * digit_val c + digit_val d, r)
      else None
  | _ => None
  end.

Definition take_dash (s : string) : option string :=
  match s with
  | String "-"%char r => Some r
  | _ => None
  end.

(** [1[0-2]|0[1-9]|[1-9]], alternatives tried in this order. The literal
    [-] that follows can never make a longer alternative backtrack into
    a shorter successful one, because the shorter one would then be
    followed by a digit. *)
Definition take_month (s : string) : option (Z * string) :=
  match s with
  | String a r =>
      let two :=
        match r with
        | String b r' =>
            if Ascii.eqb a "1" && in_range 48 50 b then Some (10 + digit_val b, r')
            else if Ascii.eqb a "0" && in_range 49 57 b then Some (digit_val b, r')
            else None
        | EmptyString => None
        end in
      match two with
      | Some res => Some res
      | None => if in_range 49 57 a then Some (digit_val a, r) else None
      end
  | EmptyString => None
  end.

(** [3[01]|[12]\d|0[1-9]|[1-9]| [1-9]], first matching alternative. *)
Definition take_day (s : string) : option (Z * string) :=
  match s with
  | String a r =>
      let two :=
        match r with
        | String b r' =>
            if Ascii.eqb a "3" && in_range 48 49 b then Some (30 + digit_val b, r')
            else if in_range 49 50 a && is_digit b
                 then Some (10 * digit_val a + digit_val b, r')
            else if Ascii.eqb a "0" && in_range 49 57 b then Some (digit_val b, r')
            else None
        | EmptyString => None
        end in
      match two with
      | Some res => Some res
      | None =>
          if in_range 49 57 a then Some (digit_val a, r)
          else match r with
               | String b r' =>
                   if Ascii.eqb a " " && in_range 49 57 b
                   then Some (digit_val b, r') else None
               | EmptyString => None
               end
      end
  | EmptyString => None
  end.

Definition strptime (s : string) : option datetime :=
  match take_year s with
  | None => None
  | Some (y, s1) =>
      match take_dash s1 with
      | None => None
      | Some s2 =>
          match take_month s2 with
          | None => None
          | Some (m, s3) =>
              match take_dash s3 with
              | None => None
              | Some s4 =>
                  match take_day s4 with
                  | Some (d, EmptyString) => datetime_ymd y m d
                  | _ => None
                  end
              end
          end
      end
  end.

(** [dt.strftime("%Y-%m-%d")], years zero-padded to four digits. *)
Definition strftime (dt : datetime) : string :=
  pad4 (year dt) +:+ "-" +:+ pad2 (month dt) +:+ "-" +:+ pad2 (day dt).

(** [re.match(r'\d{4}-\d{2}-\d{2}', s)]: the pattern matches a prefix. *)
Definition iso_prefix (s : string) : bool :=
  match s with
  | String a (String b (String c (String d (String e (String f
      (String g (String h (String i (String j _))))))))) =>
      is_digit a && is_digit b && is_digit c && is_digit d
      && Ascii.eqb e "-" && is_digit f && is_digit g
      && Ascii.eqb h "-" && is_digit i && is_digit j
  | _ => false
  end.

(** A string that is exactly one [YYYY-MM-DD] token. *)
Definition canonical (s : string) : bool :=
  iso_prefix s && (String.length s =? 10)%nat.

(** [re.findall(r"\d{4}-\d{2}-\d{2}", text)]: leftmost, non-overlapping
    matches. [skip] counts the characters of the last match still to be
    stepped over. *)
Fixpoint findall_iso_from (skip : nat) (s : string) : list string :=
  match s with
  | EmptyString => []
  | String _ r =>
      match skip with
      | S k => findall_iso_from k r
      | O =>
          if iso_prefix s
          then String.substring 0 10 s :: findall_iso_from 9 r
          else findall_iso_from 0 r
      end
  end.

Definition findall_iso (text : string) : list string :=
  findall_iso_from 0 text.

(** A date at midnight: what [strptime] and [datetime(y, m, d)] build. *)
Definition midnight (dt : datetime) : Prop :=
  hour dt = 0 /\ minute dt = 0 /\ second dt = 0 /\ microsecond dt = 0.

(** The fields of a [datetime] object that exists: a real calendar day
    and a time of day within its ranges. *)
Definition well_formed (dt : datetime) : Prop :=
  valid_date (year dt) (month dt) (day dt) = true.

Definition time_in_range (dt : datetime) : Prop :=
  0 <= hour dt < 24 /\ 0 <= minute dt < 60 /\ 0 <= second dt < 60
  /\ 0 <= microsecond dt < 1000000.

End Dates.

(** ** Trip parameter normaliser *)

Module Normalizer.
Import Py Dates.

(** The two date entries of the [intent_data] dictionary handed to
    [_validate_and_normalize_intent]; [None] is a missing key or JSON
    [null]. The remaining entries (origin, destination, adults, children,
    budget, preferences) are normalised independently of the dates and
    are not part of this record. *)
Record intent_dates : Type := mk_intent_dates {
  depart_date : option string;
  return_date : option string
}.

(** Lines 1417-1442: the [depart_date] block. Any [ValueError] (from
    [strptime] or from [replace]) empties the field. *)
Definition normalize_depart (now : datetime) (depart : option string) : string :=
  match depart with
  | None => ""
  | Some s =>
      if truthy s then
        match strptime s with
        | None => ""
        | Some date_obj =>
            match replace_year date_obj (year now) with
            | None => ""
            | Some current_year_date =>
                if dt_ltb current_year_date now then
                  match replace_year date_obj (year now + 1) with
                  | None => ""
                  | Some fixed_date => strftime fixed_date
                  end
                else
                  if year date_obj =? year now then s
                  else strftime current_year_date
            end
        end
      else ""
  end.

(** Lines 1456-1468: the inner [try] that anchors the return date on the
    departure date. It yields the pair ([intent_data["return_date"]],
    [return_date_obj]) as it stands afterwards; a [ValueError] inside
    leaves both as they were ([except ValueError: pass]). *)
Definition anchor_return (ret : string) (return_date_obj : datetime)
    (depart : string) : string * datetime :=
  if truthy depart then
    match strptime depart with
    | None => (ret, return_date_obj)
    | Some depart_obj =>
        if dt_ltb return_date_obj depart_obj then
          match replace_year return_date_obj (year depart_obj) with
          | None => (ret, return_date_obj)
          | Some fixed_return =>
              if dt_leb fixed_return depart_obj then
                match replace_year return_date_obj (year depart_obj + 1) with
                | None => (ret, return_date_obj)
                | Some fixed_return' => (strftime fixed_return', fixed_return')
                end
              else (strftime fixed_return, fixed_return)
          end
        else (ret, return_date_obj)
    end
  else (ret, return_date_obj).

(** Lines 1444-1480: the [return_date] block, given the already
    normalised [depart_date]. *)
Definition normalize_return (now : datetime) (ret : option string)
    (depart : string) : option string :=
  match ret with
  | None => None
  | Some s =>
      if truthy s then
        if str_in s [""; "null"; "None"] then None
        else
          match strptime s with
          | None => None
          | Some return_date_obj =>
              let '(s1, obj1) := anchor_return s return_date_obj depart in
              if dt_ltb obj1 now then
                match replace_year obj1 (year now + 1) with
                | None => None
                | Some fixed_return =>
                    if dt_gtb fixed_return now
                    then Some (strftime fixed_return) else Some s1
                end
              else Some s1
          end
      else None
  end.

(** [_validate_and_normalize_intent], restricted to the date fields.
    The result always has a string in [depart_date]. *)
Definition _validate_and_normalize_intent (now : datetime)
    (intent_data : intent_dates) : intent_dates :=
  let depart := normalize_depart now (depart_date intent_data) in
  mk_intent_dates (Some depart)
    (normalize_return now (return_date intent_data) depart).

(** Lines 1543-1561 of [_extract_intent_fallback]: as above, except that
    a [ValueError] keeps the string ([except ValueError: pass]). *)
Definition fallback_depart (now : datetime) (depart : string) : string :=
  if truthy depart then
    match strptime depart with
    | None => depart
    | Some date_obj =>
        match replace_year date_obj (year now) with
        | None => depart
        | Some current_year_date =>
            if dt_ltb current_year_date now then
              match replace_year date_obj (year now + 1) with
              | None => depart
              | Some fixed_date => strftime fixed_date
              end
            else
              if negb (year date_obj =? year now)
              then strftime current_year_date else depart
        end
    end
  else depart.

(** Lines 1563-1591 of [_extract_intent_fallback]. *)
Definition fallback_return (now : datetime) (ret : option string)
    (depart : string) : option string :=
  match ret with
  | None => None
  | Some s =>
      if truthy s then
        match strptime s with
        | None => Some s
        | Some return_date_obj =>
            let '(s1, obj1) := anchor_return s return_date_obj depart in
            if dt_ltb obj1 now then
              match replace_year obj1 (year now + 1) with
              | None => Some s1
              | Some fixed_return =>
                  if dt_gtb fixed_return now
                  then Some (strftime fixed_return) else Some s1
              end
            else Some s1
        end
      else Some s
  end.

(** Lines 1715-1734 of [_extract_dates]: the year chosen for a month
    found in the month table and a day number read from the text.
    [None] is the [continue] taken when the day fails the range test or
    the date does not exist in the current year. *)
Definition extract_day_month (now : datetime) (month day : Z) : option string :=
  if negb (month =? 0) && (1 <=? day) && (day <=? 31) then
    match datetime_ymd (year now) month day with
    | None => None
    | Some test_date =>
        let y := if dt_ltb test_date now then year now + 1 else year now in
        Some (pretty y +:+ "-" +:+ pad2 month +:+ "-" +:+ pad2 day)
    end
  else None.

(** The year-disambiguation rule as the specification words it, on
    calendar days, to be compared with what [normalize_depart] computes:
    the day and month are placed in the current year; when that day
    lies strictly before today the next year is picked, and otherwise,
    today included, the current year. Nothing is picked when the current
    year has no such day. *)
Definition documented_year (now date_obj : datetime) : option Z :=
  if valid_date (year now) (month date_obj) (day date_obj) then
    Some (if (month date_obj <? month now)
             || ((month date_obj =? month now) && (day date_obj <? day now))
          then year now + 1 else year now)
  else None.

(** [_extract_dates]: explicit [YYYY-MM-DD] tokens win (lines 1636-1640);
    otherwise the natural-language patterns are tried. The pattern
    matching of that second tier is the argument [natural_dates]; the
    year it gives each match is [extract_day_month]. *)
Definition _extract_dates (natural_dates : string -> list string)
    (text : string) : list string :=
  match findall_iso text with
  | [] => natural_dates text
  | dates => dates
  end.

End Normalizer.

(** ** The plan document ([models.plan]) *)

Module Plan.
Import Py.

(** Modelled from the spec: the declarations of [models/plan.py]
    ([TripRequest], [ItineraryDay], [ErrorItem], [Meta], [ChatPlan]) are
    not part of the sources at hand; the fields are those of section 3 of
    the specification under the names the orchestrator uses. A Pydantic
    model is represented by its fields, so building it from a dictionary
    of the same fields and [model_dump] are the identity. [Flight] and
    [Hotel] stay the dictionaries the agents deliver. *)
Record TripRequest : Type := mk_TripRequest {
  origin : string;
  destination : string;
  depart_date : string;
  return_date : option string;
  adults : Z;
  children : Z;
  budget : option string;
  preferences : dict
}.

Definition Flight : Type := dict.
Definition Hotel : Type := dict.

Record ItineraryDay : Type := mk_ItineraryDay {
  date : string;
  blocks : pyval
}.

Record ErrorItem : Type := mk_ErrorItem {
  agent : string;
  message : string
}.

Record Meta : Type := mk_Meta {
  generated_at : string;
  sources : list string
}.

Record ChatPlan : Type := mk_ChatPlan {
  request : TripRequest;
  flights : list Flight;
  hotels : list Hotel;
  itinerary_days : list ItineraryDay;
  summary : string;
  notes : string;
  errors : list ErrorItem;
  meta : Meta
}.

(** [TripRequest()] with every field at its default. *)
Definition empty_request : TripRequest :=
  mk_TripRequest "" "" "" None 1 0 None [].

(** [ChatPlan(request=..., summary=..., notes=...)]. *)
Definition new_plan (r : TripRequest) (s n : string) : ChatPlan :=
  mk_ChatPlan r [] [] [] s n [] (mk_Meta "" []).

Definition set_request (p : ChatPlan) (r : TripRequest) : ChatPlan :=
  mk_ChatPlan r (flights p) (hotels p) (itinerary_days p)
    (summary p) (notes p) (errors p) (meta p).
Definition set_flights (p : ChatPlan) (f : list Flight) : ChatPlan :=
  mk_ChatPlan (request p) f (hotels p) (itinerary_days p)
    (summary p) (notes p) (errors p) (meta p).
Definition set_hotels (p : ChatPlan) (h : list Hotel) : ChatPlan :=
  mk_ChatPlan (request p) (flights p) h (itinerary_days p)
    (summary p) (notes p) (errors p) (meta p).
Definition set_days (p : ChatPlan) (d : list ItineraryDay) : ChatPlan :=
  mk_ChatPlan (request p) (flights p) (hotels p) d
    (summary p) (notes p) (errors p) (meta p).
Definition set_summary (p : ChatPlan) (s : string) : ChatPlan :=
  mk_ChatPlan (request p) (flights p) (hotels p) (itinerary_days p)
    s (notes p) (errors p) (meta p).
Definition add_error (p : ChatPlan) (e : ErrorItem) : ChatPlan :=
  mk_ChatPlan (request p) (flights p) (hotels p) (itinerary_days p)
    (summary p) (notes p) (errors p ++ [e]) (meta p).
Definition set_meta (p : ChatPlan) (m : Meta) : ChatPlan :=
  mk_ChatPlan (request p) (flights p) (hotels p) (itinerary_days p)
    (summary p) (notes p) (errors p) m.

Definition with_origin (r : TripRequest) (v : string) : TripRequest :=
  mk_TripRequest v (destination r) (depart_date r) (return_date r)
    (adults r) (children r) (budget r) (preferences r).
Definition with_destination (r : TripRequest) (v : string) : TripRequest :=
  mk_TripRequest (origin r) v (depart_date r) (return_date r)
    (adults r) (children r) (budget r) (preferences r).
Definition with_depart_date (r : TripRequest) (v : string) : TripRequest :=
  mk_TripRequest (origin r) (destination r) v (return_date r)
    (adults r) (children r) (budget r) (preferences r).
Definition with_return_date (r : TripRequest) (v : option string) : TripRequest :=
  mk_TripRequest (origin r) (destination r) (depart_date r) v
    (adults r) (children r) (budget r) (preferences r).
Definition with_adults (r : TripRequest) (v : Z) : TripRequest :=
  mk_TripRequest (origin r) (destination r) (depart_date r) (return_date r)
    v (children r) (budget r) (preferences r).
Definition with_budget (r : TripRequest) (v : option string) : TripRequest :=
  mk_TripRequest (origin r) (destination r) (depart_date r) (return_date r)
    (adults r) (children r) v (preferences r).

(** What a call that may raise delivers. *)
Inductive outcome (A : Type) : Type :=
| Returns (a : A)
| Raises (msg : string).
Arguments Returns {A} a.
Arguments Raises {A} msg.

End Plan.

(** ** Component selector: the missing-field check *)

Module Missing.
Import Py Plan.

(** [not s or not s.strip()]. *)
Definition blank (s : string) : bool :=
  negb (truthy s) || negb (truthy (strip s)).

(** [bool(intent.return_date)]. *)
Definition has_return (r : TripRequest) : bool :=
  match return_date r with Some s => truthy s | None => false end.

(** Lines 1798-1801 followed by [bool(trip_length)]. An empty
    [preferences] is falsy and leaves [trip_length] at [None]. *)
Definition has_trip_length (r : TripRequest) : bool :=
  match preferences r with
  | [] => false
  | prefs =>
      match dict_get prefs "trip_length" with
      | Some v => truthy_val v
      | None => false
      end
  end.

(** [if f not in missing: missing.append(f)]. *)
Definition append_new (missing : list string) (f : string) : list string :=
  if str_in f missing then missing else missing ++ [f].

Definition flights_block (intent : TripRequest) (missing : list string)
  : list string :=
  let m1 := if blank (destination intent)
            then missing ++ ["destination"] else missing in
  let m2 := if blank (depart_date intent)
            then m1 ++ ["depart_date"] else m1 in
  if blank (origin intent) then m2 ++ ["origin"] else m2.

Definition hotels_block (intent : TripRequest) (missing : list string)
  : list string :=
  let m1 := if blank (destination intent)
            then append_new missing "destination" else missing in
  if truthy (destination intent) && blank (depart_date intent)
  then append_new m1 "depart_date" else m1.

Definition itinerary_block (intent : TripRequest) (missing : list string)
  : list string :=
  let m1 := if blank (destination intent)
            then append_new missing "destination" else missing in
  let m2 := if truthy (destination intent) && blank (depart_date intent)
            then append_new m1 "depart_date" else m1 in
  if truthy (destination intent) && truthy (depart_date intent)
  then (if negb (has_return intent) && negb (has_trip_length intent)
        then m2 ++ ["trip_length"] else m2)
  else m2.

(** [_check_missing_information] (lines 1780-1849). *)
Definition _check_missing_information (intent : TripRequest)
    (requested_components : list string) : list string :=
  let m0 : list string := [] in
  let m1 := if str_in "FLIGHTS" requested_components
            then flights_block intent m0 else m0 in
  let m2 := if str_in "HOTELS" requested_components
            then hotels_block intent m1 else m1 in
  if str_in "ITINERARY" requested_components
  then itinerary_block intent m2 else m2.

End Missing.

(** ** Streamed segments and agent results *)

Module Sse.
Import Py Plan.

(** Modelled from the spec: [utils/sse.py] is not part of the sources at
    hand. A segment is kept as the constructor call that produced it
    ([create_text_chunk(text, seq)], [create_summary_segment(...)], ...)
    rather than as its serialised text. *)
Inductive segment : Type :=
| TextChunk (text : string) (seq : Z)
| FlightsSegment (flights : pyval) (seq : Z) (final : bool)
| HotelsSegment (hotels : pyval) (seq : Z) (final : bool)
| ItinerarySegment (itinerary_days : pyval) (seq : Z) (final : bool)
| SummarySegment (summary notes : string) (final : bool)
| ErrorSegment (message agent : string).

Definition type_name (v : pyval) : string :=
  match v with
  | PNone => "NoneType"
  | PBool _ => "bool"
  | PInt _ => "int"
  | PStr _ => "str"
  | PList _ => "list"
  | PDict _ => "dict"
  end.

Definition no_get (v : pyval) : string :=
  "'" +:+ type_name v +:+ "' object has no attribute 'get'".

(** The list comprehension that builds one model per element of
    [d.get(key, [])], unpacking the element as keyword arguments: every
    element has to be a mapping. The entries the agents deliver are
    taken to pass the models' field validation. *)
Fixpoint all_dicts (l : list pyval) : outcome (list dict) :=
  match l with
  | [] => Returns []
  | PDict d :: r =>
      match all_dicts r with
      | Returns ds => Returns (d :: ds)
      | Raises m => Raises m
      end
  | v :: _ => Raises ("argument after ** must be a mapping, not " +:+ type_name v)
  end.

Definition models_of (data : option pyval) : outcome (list dict) :=
  match data with
  | None => Returns []
  | Some (PList l) => all_dicts l
  | Some (PDict []) => Returns []
  | Some (PStr EmptyString) => Returns []
  | Some (PDict (_ :: _)) | Some (PStr (String _ _)) =>
      Raises "argument after ** must be a mapping, not str"
  | Some v => Raises ("'" +:+ type_name v +:+ "' object is not iterable")
  end.

(** An [ItineraryDay] built from the keyword arguments [d]. *)
Definition day_of_dict (d : dict) : ItineraryDay :=
  mk_ItineraryDay
    (match dict_get d "date" with Some (PStr s) => s | _ => "" end)
    (match dict_get d "blocks" with Some b => b | None => PList [] end).

Definition days_of (data : option pyval) : outcome (list ItineraryDay) :=
  match models_of data with
  | Returns ds => Returns (map day_of_dict ds)
  | Raises m => Raises m
  end.

(** [result.get("itinerary", {}).get("days", [])]: the inner [get]
    exists on dictionaries only. [None] stands for the default [[]]. *)
Definition itinerary_days_data (result : dict) : outcome (option pyval) :=
  match dict_get result "itinerary" with
  | None => Returns None
  | Some (PDict d) => Returns (dict_get d "days")
  | Some v => Raises (no_get v)
  end.

(** [len(v)]. *)
Definition py_len (v : pyval) : outcome Z :=
  match v with
  | PList l => Returns (Z.of_nat (length l))
  | PDict d => Returns (Z.of_nat (length d))
  | PStr s => Returns (Z.of_nat (String.length s))
  | _ => Raises ("object of type '" +:+ type_name v +:+ "' has no len()")
  end.

(** [s.lower()] on ASCII letters. *)
Definition lower_char (c : ascii) : ascii :=
  let n := nat_of_ascii c in
  if (65 <=? n)%nat && (n <=? 90)%nat then ascii_of_nat (n + 32) else c.

Fixpoint lower (s : string) : string :=
  match s with
  | EmptyString => EmptyString
  | String c r => String (lower_char c) (lower r)
  end.

End Sse.

(** ** Plan editor: [_handle_incremental_edit] *)

Module Editor.
Import Py Dates Plan Sse.

(** The plan object and the output channel. [updated_plan =
    existing_plan] binds a second name to the same object, so there is
    one plan in the heap and every assignment through either name lands
    in it. *)
Record heap : Type := mk_heap {
  plan : ChatPlan;
  sent : list segment
}.

(** Computations over the heap that may raise; the heap as it stands at
    the raise is what the handler sees. *)
Definition M (A : Type) : Type := heap -> outcome A * heap.

Definition ret {A : Type} (a : A) : M A := fun h => (Returns a, h).

Definition bind {A B : Type} (c : M A) (k : A -> M B) : M B :=
  fun h =>
    match c h with
    | (Returns a, h') => k a h'
    | (Raises m, h') => (Raises m, h')
    end.

Notation "x <- c ;; k" := (bind c (fun x => k))
  (at level 100, c at next level, right associativity).
Notation "c ;;; k" := (bind c (fun _ => k))
  (at level 100, right associativity).

Definition get_plan : M ChatPlan := fun h => (Returns (plan h), h).

Definition modify_plan (f : ChatPlan -> ChatPlan) : M unit :=
  fun h => (Returns tt, mk_heap (f (plan h)) (sent h)).

(** [intent = existing_plan.request] aliases the request inside the
    plan: a field assignment on [intent] changes the plan. *)
Definition modify_request (f : TripRequest -> TripRequest) : M unit :=
  modify_plan (fun p => set_request p (f (request p))).

Definition segment_callback (s : segment) : M unit :=
  fun h => (Returns tt, mk_heap (plan h) (sent h ++ [s])).

(** The result of a collaborator call, an exception included. *)
Definition call {A : Type} (o : outcome A) : M A := fun h => (o, h).

Definition when (b : bool) (c : M unit) : M unit := if b then c else ret tt.

(** The [edit_intent] dictionary: the keys read by the branches below. *)
Record EditIntent : Type := mk_EditIntent {
  edit_type : string;
  day_number : option Z;
  target_date : option string
}.

(** The collaborators of the editor. [understand_intent] is the first
    component of [_understand_intent]; the three agent fields are
    [_run_flight_agent], [_run_hotel_agent] and [_run_itinerary_agent]
    seen from their caller; [natural_dates] is the natural-language tier
    of [_extract_dates]; [other_edit] stands for the branches
    [itinerary_day], [itinerary_activity] and [itinerary_swap], and
    answers [false] when the branch returns early. *)
Record collaborators : Type := mk_collaborators {
  understand_intent : string -> outcome TripRequest;
  flight_agent : TripRequest -> outcome dict;
  hotel_agent : TripRequest -> outcome dict;
  itinerary_agent : TripRequest -> outcome dict;
  natural_dates : string -> list string;
  generate_summary : ChatPlan -> outcome (list (string * string));
  save_to_supabase : string -> ChatPlan -> outcome unit;
  other_edit : string -> EditIntent -> M bool
}.

Definition nl : string := String (ascii_of_nat 10) EmptyString.

(** Lines 517-525. *)
Definition context_message (r : TripRequest) (user_message : string) : string :=
  "You are updating an existing travel plan. The current plan is:" +:+ nl
  +:+ "- Origin: " +:+ origin r +:+ nl
  +:+ "- Destination: " +:+ destination r +:+ nl
  +:+ "- Departure date: " +:+ depart_date r +:+ nl
  +:+ "- Return date: "
  +:+ (match return_date r with
       | Some s => if truthy s then s else "N/A"
       | None => "N/A"
       end) +:+ nl +:+ nl
  +:+ "User request: " +:+ user_message +:+ nl +:+ nl
  +:+ "Extract ONLY the changed information. You MUST preserve the origin and destination from the existing trip unless the user explicitly changes them. If the user only mentions a date change, keep the origin and destination the same.".

Definition truthy_opt (o : option string) : bool :=
  match o with Some s => truthy s | None => false end.

(** Lines 510-576: [edit_type == "dates"]. *)
Definition edit_dates (c : collaborators) (user_message : string) : M bool :=
  p <- get_plan ;;
  new_intent <- call (understand_intent c
                        (context_message (request p) user_message)) ;;
  when (truthy (depart_date new_intent))
    (modify_request (fun r => with_depart_date r (depart_date new_intent))) ;;;
  when (match return_date new_intent with Some _ => true | None => false end)
    (modify_request (fun r => with_return_date r (return_date new_intent))) ;;;
  p1 <- get_plan ;;
  when (truthy (origin new_intent) && truthy (strip (origin new_intent))
        && negb (String.eqb (origin new_intent) (origin (request p1))))
    (modify_request (fun r => with_origin r (origin new_intent))) ;;;
  p2 <- get_plan ;;
  when (truthy (destination new_intent) && truthy (strip (destination new_intent))
        && negb (String.eqb (destination new_intent) (destination (request p2))))
    (modify_request (fun r => with_destination r (destination new_intent))) ;;;
  (* lines 542-545 assign [existing_plan.request]'s own fields to
     [intent], which is the same object *)
  when (negb (adults new_intent =? 0))
    (modify_request (fun r => with_adults r (adults new_intent))) ;;;
  when (truthy_opt (budget new_intent))
    (modify_request (fun r => with_budget r (budget new_intent))) ;;;
  segment_callback (TextChunk "Updating flights for new dates..." 1) ;;;
  p3 <- get_plan ;;
  flight_result <- call (flight_agent c (request p3)) ;;
  fs <- call (models_of (dict_get flight_result "flights")) ;;
  modify_plan (fun q => set_flights q fs) ;;;
  segment_callback (TextChunk "Updating hotels for new dates..." 2) ;;;
  hotel_result <- call (hotel_agent c (request p3)) ;;
  hs <- call (models_of (dict_get hotel_result "hotels")) ;;
  modify_plan (fun q => set_hotels q hs) ;;;
  (if truthy_opt (return_date (request p3)) then
     segment_callback (TextChunk "Updating itinerary for new dates..." 3) ;;;
     itinerary_result <- call (itinerary_agent c (request p3)) ;;
     data <- call (itinerary_days_data itinerary_result) ;;
     ds <- call (days_of data) ;;
     modify_plan (fun q => set_days q ds)
   else modify_plan (fun q => set_days q [])) ;;;
  ret true.

(** Lines 578-594: [edit_type == "flights"]. *)
Definition edit_flights (c : collaborators) (user_message : string) : M bool :=
  new_intent <- call (understand_intent c user_message) ;;
  when (truthy (origin new_intent))
    (modify_request (fun r => with_origin r (origin new_intent))) ;;;
  when (truthy (destination new_intent))
    (modify_request (fun r => with_destination r (destination new_intent))) ;;;
  when (truthy (depart_date new_intent))
    (modify_request (fun r => with_depart_date r (depart_date new_intent))) ;;;
  when (truthy_opt (return_date new_intent))
    (modify_request (fun r => with_return_date r (return_date new_intent))) ;;;
  segment_callback (TextChunk "Updating flights..." 1) ;;;
  p <- get_plan ;;
  flight_result <- call (flight_agent c (request p)) ;;
  fs <- call (models_of (dict_get flight_result "flights")) ;;
  modify_plan (fun q => set_flights q fs) ;;;
  ret true.

(** Lines 596-607: [edit_type == "hotels"]. *)
Definition edit_hotels (c : collaborators) (user_message : string) : M bool :=
  new_intent <- call (understand_intent c user_message) ;;
  when (truthy (destination new_intent))
    (modify_request (fun r => with_destination r (destination new_intent))) ;;;
  when (truthy (depart_date new_intent))
    (modify_request (fun r => with_depart_date r (depart_date new_intent))) ;;;
  segment_callback (TextChunk "Updating hotels..." 1) ;;;
  p <- get_plan ;;
  hotel_result <- call (hotel_agent c (request p)) ;;
  hs <- call (models_of (dict_get hotel_result "hotels")) ;;
  modify_plan (fun q => set_hotels q hs) ;;;
  ret true.

(** Lines 626-642: the dates found in the message take the year of the
    trip. Each inner failure is swallowed by a bare [except]. *)
Definition fix_year (depart_year : Z) (date_str : string) : string :=
  match strptime date_str with
  | None => date_str
  | Some date_obj =>
      if negb (year date_obj =? depart_year) then
        match replace_year date_obj depart_year with
        | Some fixed_date => strftime fixed_date
        | None => date_str
        end
      else date_str
  end.

Definition fix_extracted (depart : string) (extracted_dates : list string)
  : list string :=
  match extracted_dates with
  | [] => []
  | _ =>
      if truthy depart then
        match strptime depart with
        | Some d => map (fix_year (year d)) extracted_dates
        | None => extracted_dates
        end
      else extracted_dates
  end.

(** Lines 644-655: which date is looked for. *)
Definition effective_target (target : option string)
    (extracted_dates : list string) : option string :=
  match extracted_dates with
  | [] => target
  | first :: _ =>
      if truthy_opt target then
        (if truthy first && iso_prefix first then Some first else target)
      else Some first
  end.

(** Lines 660-675. *)
Definition normalize_target (target : string) : string :=
  if iso_prefix target then target
  else match strptime target with
       | Some parsed => strftime parsed
       | None => target
       end.

(** Lines 689-700: index of the first day carrying the date. *)
Definition find_day (days : list ItineraryDay) (normalized_target : string)
  : option nat :=
  fst <$> list_find (fun d => date d = normalized_target) days.

(** Lines 657-708: [day_to_remove]. The day number is consulted in the
    [elif] only, that is when no target date is at hand. *)
Definition day_to_remove (days : list ItineraryDay) (target : option string)
    (number : option Z) : option nat :=
  if truthy_opt target then
    match target with
    | Some t => find_day days (normalize_target t)
    | None => None
    end
  else
    match number with
    | Some n =>
        if negb (n =? 0) && (1 <=? n) && (n <=? Z.of_nat (length days))
        then Some (Z.to_nat (n - 1)) else None
    | None => None
    end.

Definition not_found_text : string :=
  "Could not find the specified day to remove. Please check the date or day number.".

(** Lines 609-732: [edit_type == "itinerary_remove"]. [days.pop]
    changes the list held by the plan, and the rebuilt list assigned to
    [updated_plan.itinerary["days"]] has the same members. *)
Definition edit_itinerary_remove (c : collaborators) (user_message : string)
    (edit_intent : EditIntent) : M bool :=
  p <- get_plan ;;
  let days := itinerary_days p in
  let extracted_dates :=
    fix_extracted (depart_date (request p))
      (Normalizer._extract_dates (natural_dates c) user_message) in
  let target := effective_target (target_date edit_intent) extracted_dates in
  match day_to_remove days target (day_number edit_intent) with
  | Some idx =>
      segment_callback (TextChunk "Removing day from itinerary..." 1) ;;;
      modify_plan (fun q => set_days q (delete idx (itinerary_days q))) ;;;
      ret true
  | None =>
      segment_callback (TextChunk not_found_text 1) ;;;
      ret true
  end.

(** Lines 1069-1092: the summary is regenerated, streamed and the plan
    saved. *)
Definition finish_edit (c : collaborators) (user_message : string) : M unit :=
  p <- get_plan ;;
  summary_dict <- call (generate_summary c p) ;;
  modify_plan (fun q =>
    set_summary q (match dict_get summary_dict "summary" with
                   | Some s => s
                   | None => summary q
                   end)) ;;;
  p' <- get_plan ;;
  segment_callback (SummarySegment (summary p') (notes p') true) ;;;
  call (save_to_supabase c user_message p').

(** The body of the [try] (lines 509-1092). *)
Definition edit_body (c : collaborators) (user_message : string)
    (edit_intent : EditIntent) : M unit :=
  let et := edit_type edit_intent in
  let number_truthy :=
    match day_number edit_intent with
    | Some n => negb (n =? 0)
    | None => false
    end in
  go_on <-
    (if String.eqb et "dates" then edit_dates c user_message
     else if String.eqb et "flights" then edit_flights c user_message
     else if String.eqb et "hotels" then edit_hotels c user_message
     else if String.eqb et "itinerary_remove"
          then edit_itinerary_remove c user_message edit_intent
     else if (String.eqb et "itinerary_day" && number_truthy)
             || String.eqb et "itinerary_activity"
             || String.eqb et "itinerary_swap"
          then other_edit c user_message edit_intent
     else ret true) ;;
  if go_on then finish_edit c user_message else ret tt.

(** What a run of the editor leaves behind: whether the [try] body
    raised (and with what), the plan it returns, and what was streamed. *)
Record edit_result : Type := mk_edit_result {
  raised : option string;
  returned : ChatPlan;
  streamed : list segment
}.

(** [_handle_incremental_edit] (lines 485-1097). Every exit returns the
    one plan object: [updated_plan] on success, [existing_plan] from an
    early return or from the handler. *)
Definition _handle_incremental_edit (c : collaborators) (user_message : string)
    (edit_intent : EditIntent) (existing_plan : ChatPlan) : edit_result :=
  let h0 := mk_heap existing_plan
              [TextChunk ("Updating " +:+ edit_type edit_intent +:+ "...") 0] in
  match edit_body c user_message edit_intent h0 with
  | (Returns _, h) => mk_edit_result None (plan h) (sent h)
  | (Raises m, h) => mk_edit_result (Some m) (plan h) (sent h)
  end.

End Editor.

(** ** Agent supervisor and plan assembler *)

Module Supervisor.
Import Py Plan Sse.

(** What an observer of the event loop sees of a task: a suspension
    point reached inside the code of agent [who] (a network or model
    call is awaited there and other ready tasks may run), or a segment
    pushed to the output channel. *)
Inductive event : Type :=
| Suspend (who : string)
| Send (s : segment).

(** A coroutine: it finishes with a value, raises, or performs one
    observable step and goes on. A coroutine object does nothing until
    it is awaited; [await c] on a coroutine object runs [c] inside the
    awaiting task, which is [bind]. *)
Inductive coro (A : Type) : Type :=
| Done (a : A)
| Fail (msg : string)
| Step (e : event) (k : coro A).
Arguments Done {A} a.
Arguments Fail {A} msg.
Arguments Step {A} e k.

Fixpoint bind {A B : Type} (c : coro A) (k : A -> coro B) : coro B :=
  match c with
  | Done a => k a
  | Fail m => Fail m
  | Step e c' => Step e (bind c' k)
  end.

(** [try: c except Exception as e: h(str(e))]. *)
Fixpoint try_except {A : Type} (c : coro A) (h : string -> coro A) : coro A :=
  match c with
  | Done a => Done a
  | Fail m => h m
  | Step e c' => Step e (try_except c' h)
  end.

Notation "x <- c ;; k" := (bind c (fun x => k))
  (at level 100, c at next level, right associativity).
Notation "c ;;; k" := (bind c (fun _ => k))
  (at level 100, right associativity).

Fixpoint trace {A : Type} (c : coro A) : list event :=
  match c with
  | Done _ | Fail _ => []
  | Step e c' => e :: trace c'
  end.

Fixpoint result {A : Type} (c : coro A) : outcome A :=
  match c with
  | Done a => Returns a
  | Fail m => Raises m
  | Step _ c' => result c'
  end.

Definition lift {A : Type} (o : outcome A) : coro A :=
  match o with Returns a => Done a | Raises m => Fail m end.

Definition segment_callback (s : segment) : coro unit :=
  Step (Send s) (Done tt).

(** The collaborators of a fresh request: the three search agents,
    [_generate_summary], [memory.save_to_supabase] and the clock read by
    [_build_plan]. *)
Record environment : Type := mk_environment {
  search_flights_agent : TripRequest -> coro dict;
  search_hotels_agent : TripRequest -> coro dict;
  plan_itinerary_agent : TripRequest -> coro dict;
  _generate_summary :
    TripRequest -> list (string * dict) -> list string ->
    coro (list (string * string));
  save_to_supabase : ChatPlan -> outcome unit;
  utcnow_isoformat : string
}.

Definition is_dict (v : pyval) : bool :=
  match v with PDict _ => true | _ => false end.

Definition or_empty_list (o : option pyval) : pyval :=
  match o with Some v => v | None => PList [] end.

(** The log statements of [_run_flight_agent] (lines 2071-2083) touch
    the flights: [len(flights)], [flights[0]] and [flight.get] on the
    first three. *)
Definition log_flights (flights : pyval) : outcome unit :=
  match py_len flights with
  | Raises m => Raises m
  | Returns _ =>
      match flights with
      | PList l =>
          match List.find (fun v => negb (is_dict v)) (take 3 l) with
          | Some v => Raises (no_get v)
          | None => Returns tt
          end
      | PStr (String _ _) => Raises (no_get (PStr ""))
      | PDict (_ :: _) => Raises "0"
      | _ => Returns tt
      end
  end.

(** The dictionary substituted when the flight search raises. *)
Definition flight_fallback (e : string) : dict :=
  [("flights", PList []); ("reasoning", PStr ("Error searching flights: " +:+ e))].

(** [_run_flight_agent] (lines 2055-2093). *)
Definition _run_flight_agent (env : environment) (intent : TripRequest)
  : coro dict :=
  res <- try_except (search_flights_agent env intent)
           (fun e => Done (flight_fallback e)) ;;
  let flights := or_empty_list (dict_get res "flights") in
  lift (log_flights flights) ;;;
  segment_callback (FlightsSegment flights 0 false) ;;;
  Done res.

(** [_run_hotel_agent] (lines 2095-2111). *)
Definition _run_hotel_agent (env : environment) (intent : TripRequest)
  : coro dict :=
  res <- search_hotels_agent env intent ;;
  segment_callback
    (HotelsSegment (or_empty_list (dict_get res "hotels")) 0 false) ;;;
  Done res.

(** [_run_itinerary_agent] (lines 2113-2152); the per-day callback
    belongs to the steps of [plan_itinerary_agent]. *)
Definition _run_itinerary_agent (env : environment) (intent : TripRequest)
  : coro dict :=
  res <- plan_itinerary_agent env intent ;;
  data <- lift (itinerary_days_data res) ;;
  let days := or_empty_list data in
  (if truthy_val days then
     n <- lift (py_len days) ;;
     segment_callback (ItinerarySegment days (n - 1) false)
   else Done tt) ;;;
  Done res.

(** The entry recorded for an agent whose task raised (lines
    2047-2050). *)
Definition error_wrapper (agent_name e : string) : dict :=
  [("error", PStr e); (lower agent_name, PList [])].

(** What the loop of lines 2038-2050 stores for a task, by its
    outcome. *)
Definition recorded (agent_name : string) (o : outcome dict) : dict :=
  match o with
  | Returns res => res
  | Raises e => error_wrapper agent_name e
  end.

(** Lines 2025-2035: the coroutine objects, in this order. *)
Definition tasks_for (env : environment) (intent : TripRequest)
    (agents_needed : list string) : list (string * coro dict) :=
  (if str_in "FLIGHTS" agents_needed
   then [("FLIGHTS", _run_flight_agent env intent)] else [])
  ++ (if str_in "HOTELS" agents_needed
      then [("HOTELS", _run_hotel_agent env intent)] else [])
  ++ (if str_in "ITINERARY" agents_needed
      then [("ITINERARY", _run_itinerary_agent env intent)] else []).

(** Lines 2037-2050: the loop that awaits the coroutine objects one
    after the other. *)
Fixpoint await_each (tasks : list (string * coro dict))
    (results : list (string * dict)) : coro (list (string * dict)) :=
  match tasks with
  | [] => Done results
  | (agent_name, task) :: rest =>
      results' <-
        try_except
          (res <- task ;; Done (dict_set results agent_name res))
          (fun e => Done (dict_set results agent_name
                            (error_wrapper agent_name e))) ;;
      await_each rest results'
  end.

(** [_run_agents_parallel] (lines 2017-2053). *)
Definition _run_agents_parallel (env : environment) (intent : TripRequest)
    (agents_needed : list string) : coro (list (string * dict)) :=
  await_each (tasks_for env intent agents_needed) [].

(** [results.get(name, {})]. *)
Definition result_for (results : list (string * dict)) (name : string) : dict :=
  match dict_get results name with Some d => d | None => [] end.

Definition default_components : list string :=
  ["FLIGHTS"; "HOTELS"; "ITINERARY"].

Definition str_or (o : option string) (d : string) : string :=
  match o with Some s => s | None => d end.

(** Lines 2404-2410: one [ErrorItem] per result with an [error] key. The
    message field of the model is a string. *)
Fixpoint collect_errors (results : list (string * dict))
  : outcome (list ErrorItem) :=
  match results with
  | [] => Returns []
  | (agent_name, res) :: rest =>
      match dict_get res "error" with
      | None => collect_errors rest
      | Some (PStr m) =>
          match collect_errors rest with
          | Returns es => Returns (mk_ErrorItem agent_name m :: es)
          | Raises x => Raises x
          end
      | Some v => Raises ("message: Input should be a valid string, not " +:+ type_name v)
      end
  end.

Definition obind {A B : Type} (o : outcome A) (k : A -> outcome B) : outcome B :=
  match o with Returns a => k a | Raises m => Raises m end.

(** [_build_plan] (lines 2359-2416). *)
Definition _build_plan (env : environment) (intent : TripRequest)
    (results : list (string * dict)) (summary : list (string * string))
    (requested_components : list string) : outcome ChatPlan :=
  let requested :=
    match requested_components with
    | [] => default_components
    | _ => requested_components
    end in
  let plan0 :=
    new_plan intent (str_or (dict_get summary "summary") "")
      (str_or (dict_get summary "notes") "") in
  obind
    (if str_in "FLIGHTS" requested then
       let flights_data := dict_get (result_for results "FLIGHTS") "flights" in
       obind (py_len (or_empty_list flights_data))
         (fun _ => models_of flights_data)
     else Returns [])
    (fun fs =>
  obind
    (if str_in "HOTELS" requested
     then models_of (dict_get (result_for results "HOTELS") "hotels")
     else Returns [])
    (fun hs =>
  obind
    (if str_in "ITINERARY" requested
     then obind (itinerary_days_data (result_for results "ITINERARY")) days_of
     else Returns [])
    (fun ds =>
  obind (collect_errors results)
    (fun es =>
  Returns
    (mk_ChatPlan intent fs hs ds (Plan.summary plan0) (notes plan0) es
       (mk_Meta (utcnow_isoformat env) ["SerpAPI"; "Tavily"])))))).

(** Lines 174-182 of [process_request_stream]: the counts written to
    the log after the supervisor returns. *)
Fixpoint log_results (results : list (string * dict)) : outcome unit :=
  match results with
  | [] => Returns tt
  | (agent_name, res) :: rest =>
      obind
        (if String.eqb agent_name "FLIGHTS"
         then obind (py_len (or_empty_list (dict_get res "flights")))
                (fun _ => Returns tt)
         else if String.eqb agent_name "HOTELS"
         then obind (py_len (or_empty_list (dict_get res "hotels")))
                (fun _ => Returns tt)
         else if String.eqb agent_name "ITINERARY"
         then obind (itinerary_days_data res)
                (fun d => obind (py_len (or_empty_list d)) (fun _ => Returns tt))
         else Returns tt)
        (fun _ => log_results rest)
  end.

(** The plan returned by the handler of [process_request_stream]
    (lines 231-246). *)
Definition orchestrator_failure (e : string) : ChatPlan :=
  let user_message := "Error processing request: " +:+ String.substring 0 200 e in
  mk_ChatPlan empty_request [] [] [] "" ""
    [mk_ErrorItem "ORCHESTRATOR" user_message] (mk_Meta "" []).

(** [process_request_stream] from the launch of the agents to the
    returned plan (lines 170-246), the progress reporter left out. *)
Definition run_and_assemble (env : environment) (intent : TripRequest)
    (requested_components agents_needed : list string) : coro ChatPlan :=
  try_except
    (results <- _run_agents_parallel env intent agents_needed ;;
     lift (log_results results) ;;;
     segment_callback (TextChunk "Finalizing your plan..." 999) ;;;
     summary <- _generate_summary env intent results requested_components ;;
     plan <- lift (_build_plan env intent results summary requested_components) ;;
     segment_callback
       (SummarySegment (str_or (dict_get summary "summary") "") (notes plan) true) ;;;
     lift (save_to_supabase env plan) ;;;
     Done plan)
    (fun e =>
       segment_callback
         (ErrorSegment ("Error processing request: " +:+ String.substring 0 200 e)
            "ORCHESTRATOR") ;;;
       Done (orchestrator_failure e)).

End Supervisor.

(** ** Concrete scenarios used by the examples and counterexamples *)

Module Scenario.
Import Py Dates Plan.

(** 15 June 2025, half past ten in the morning. *)
Definition morning_of_15_june_2025 : datetime := mk_datetime 2025 6 15 10 30 0 0.

(** New Year's Day 2028 (a leap year), nine o'clock. *)
Definition new_year_2028 : datetime := mk_datetime 2028 1 1 9 0 0 0.

(** New Year's Day 2025, nine o'clock. *)
Definition new_year_2025 : datetime := mk_datetime 2025 1 1 9 0 0 0.

(** 1 June 2024, nine o'clock: a clock for scenario D. *)
Definition june_2024 : datetime := mk_datetime 2024 6 1 9 0 0 0.

(** A stored plan: New York to Paris, 1 to 8 July 2025, one flight, one
    hotel, and the five days of scenario B. *)
Definition paris_request : TripRequest :=
  mk_TripRequest "New York" "Paris" "2025-07-01" (Some "2025-07-08")
    2 0 None [].

Definition old_flight : Flight := [("id", PStr "AF007"); ("price", PInt 640)].
Definition new_flight : Flight := [("id", PStr "DL264"); ("price", PInt 710)].
Definition old_hotel : Hotel := [("name", PStr "Hotel du Nord")].

Definition day_on (d : string) : ItineraryDay := mk_ItineraryDay d (PList []).

Definition five_days : list ItineraryDay :=
  [day_on "2024-12-20"; day_on "2024-12-21"; day_on "2024-12-22";
   day_on "2024-12-23"; day_on "2024-12-24"].

Definition stored_plan : ChatPlan :=
  mk_ChatPlan paris_request [old_flight] [old_hotel] five_days
    "Your trip to Paris" "" [] (mk_Meta "2025-05-01T08:00:00" ["SerpAPI"; "Tavily"]).

(** The request understood from "move the trip to august". *)
Definition august_request : TripRequest :=
  mk_TripRequest "" "" "2025-08-01" (Some "2025-08-08") 1 0 None [].

(** Collaborators for a date change in which the flight search answers
    and the hotel search raises. *)
Definition hotels_down : Editor.collaborators :=
  Editor.mk_collaborators
    (fun _ => Returns august_request)
    (fun _ => Returns [("flights", PList [PDict new_flight])])
    (fun _ => Raises "hotel search timed out")
    (fun _ => Returns [("itinerary", PDict [("days", PList [])])])
    (fun _ => [])
    (fun _ => Returns [("summary", "Updated plan"); ("notes", "")])
    (fun _ _ => Returns tt)
    (fun _ _ => Editor.ret true).

(** Collaborators that all answer; the natural-language tier of the
    date extractor finds nothing. *)
Definition all_up : Editor.collaborators :=
  Editor.mk_collaborators
    (fun _ => Returns august_request)
    (fun _ => Returns [("flights", PList [PDict new_flight])])
    (fun _ => Returns [("hotels", PList [])])
    (fun _ => Returns [("itinerary", PDict [("days", PList [])])])
    (fun _ => [])
    (fun _ => Returns [("summary", "Updated plan"); ("notes", "")])
    (fun _ _ => Returns tt)
    (fun _ _ => Editor.ret true).

Definition change_dates : Editor.EditIntent :=
  Editor.mk_EditIntent "dates" None None.


(** "Block december 22" (scenario B). *)
Definition remove_22_december : Editor.EditIntent :=
  Editor.mk_EditIntent "itinerary_remove" None (Some "2024-12-22").

(** Search agents for a fresh request. Each reaches its suspension
    points (two for flights, one for hotels and itinerary) before it
    answers or raises. *)
Import Supervisor.

Definition flights_answer : dict :=
  [("flights", PList [PDict new_flight]); ("reasoning", PStr "1 flight found")].
Definition hotels_answer : dict :=
  [("hotels", PList [PDict old_hotel]); ("reasoning", PStr "1 hotel found")].
Definition itinerary_answer : dict :=
  [("itinerary",
    PDict [("days", PList [PDict [("date", PStr "2025-07-01");
                                  ("blocks", PList [])]])])].

Definition flights_ok (_ : TripRequest) : coro dict :=
  Step (Suspend "FLIGHTS") (Step (Suspend "FLIGHTS") (Done flights_answer)).
Definition flights_raise (_ : TripRequest) : coro dict :=
  Step (Suspend "FLIGHTS") (Fail "SerpAPI unreachable").
Definition hotels_ok (_ : TripRequest) : coro dict :=
  Step (Suspend "HOTELS") (Done hotels_answer).
Definition hotels_raise (_ : TripRequest) : coro dict :=
  Step (Suspend "HOTELS") (Fail "hotel search timed out").
Definition itinerary_ok (_ : TripRequest) : coro dict :=
  Step (Suspend "ITINERARY") (Done itinerary_answer).
Definition itinerary_raise (_ : TripRequest) : coro dict :=
  Step (Suspend "ITINERARY") (Fail "model overloaded").

Definition fixed_summary : list (string * string) :=
  [("summary", "Here is your plan."); ("notes", "")].

Definition environment_with
    (f h i : TripRequest -> coro dict) : environment :=
  mk_environment f h i (fun _ _ _ => Done fixed_summary)
    (fun _ => Returns tt) "2025-05-01T08:00:00".

(** Everything answers. *)
Definition all_agents_up : environment :=
  environment_with flights_ok hotels_ok itinerary_ok.
(** Scenario E: the hotel search raises. *)
Definition hotel_agent_down : environment :=
  environment_with flights_ok hotels_raise itinerary_ok.
(** The itinerary planner raises. *)
Definition itinerary_agent_down : environment :=
  environment_with flights_ok hotels_ok itinerary_raise.
(** The flight search raises. *)
Definition flight_agent_down : environment :=
  environment_with flights_raise hotels_ok itinerary_ok.

End Scenario.

(** ** Text search and case *)

Module Text.
Import Py Sse.

(** [sub in s]: [sub] occurs in [s] as a contiguous substring. *)
Fixpoint contains (sub s : string) : bool :=
  String.prefix sub s
  || match s with
     | EmptyString => false
     | String _ r => contains sub r
     end.

(** [any(keyword in s for keyword in keywords)]. *)
Definition any_in (keywords : list string) (s : string) : bool :=
  existsb (fun keyword => contains keyword s) keywords.

(** [s.upper()] on ASCII letters. *)
Definition upper_char (c : ascii) : ascii :=
  let n := nat_of_ascii c in
  if (97 <=? n)%nat && (n <=? 122)%nat then ascii_of_nat (n - 32) else c.

Fixpoint upper (s : string) : string :=
  match s with
  | EmptyString => EmptyString
  | String c r => String (upper_char c) (upper r)
  end.

End Text.

(** ** Component selector: requested components and agents to run *)

Module Components.
Import Py Plan Sse Missing Text.

Definition flight_keywords : list string :=
  ["flight"; "flights"; "airline"; "airlines"; "fly"; "flying"; "airport";
   "book flight"; "find flight"; "search flight"; "show flight"; "get flight";
   "flight options"; "tickets"; "ticket"; "how to get there by air"; "air travel"].

Definition hotel_keywords : list string :=
  ["hotel"; "hotels"; "accommodation"; "accommodations"; "stay"; "staying";
   "lodging"; "resort"; "book hotel"; "find hotel"; "search hotel"; "show hotel";
   "get hotel"; "hotel options"; "where to stay"; "place to stay"].

Definition itinerary_keywords : list string :=
  ["itinerary"; "itineraries"; "places to visit"; "places to see"; "attractions";
   "sightseeing"; "things to do"; "activities"; "day by day"; "what to do";
   "where to go"; "places to explore"; "where to eat"; "restaurants"; "dining";
   "places to eat"; "things to see"; "sights"; "tourist spots"; "must see"].

Definition full_plan_keywords : list string :=
  ["plan a trip"; "plan trip"; "planning a trip"; "plan everything";
   "full plan"; "make a trip plan"; "create a trip plan"; "trip plan";
   "complete plan"; "entire plan"; "whole plan"].

Definition all_components : list string := ["FLIGHTS"; "HOTELS"; "ITINERARY"].

(** Lines 1167-1182: what is made of the model's one-word answer.
    [None] stands for falling out of the [try] without a [return]. *)
Definition read_component_answer (content : string) : option (list string) :=
  let response := upper (strip content) in
  if contains "FLIGHT" response && negb (contains "HOTEL" response)
     && negb (contains "ITINERARY" response)
  then Some ["FLIGHTS"]
  else if contains "HOTEL" response && negb (contains "FLIGHT" response)
          && negb (contains "ITINERARY" response)
  then Some ["HOTELS"]
  else if contains "ITINERARY" response || contains "PLACES" response
          || contains "VISIT" response
  then Some ["ITINERARY"]
  else None.

(** Lines 1208-1230: the keyword rules without "only": an explicit pair,
    a single component, or everything. *)
Definition by_keywords (has_flight has_hotel has_itinerary : bool) : list string :=
  if has_flight && has_hotel && negb has_itinerary then ["FLIGHTS"; "HOTELS"]
  else if has_hotel && has_itinerary && negb has_flight then ["HOTELS"; "ITINERARY"]
  else if has_flight && has_itinerary && negb has_hotel then ["FLIGHTS"; "ITINERARY"]
  else if has_flight && negb has_hotel && negb has_itinerary then ["FLIGHTS"]
  else if has_hotel && negb has_flight && negb has_itinerary then ["HOTELS"]
  else if has_itinerary && negb has_flight && negb has_hotel then ["ITINERARY"]
  else all_components.

(** [_detect_requested_components] (lines 1099-1226). [classify] is the
    model call of lines 1162-1165: the text of its answer, or the
    exception it raises. *)
Definition _detect_requested_components (classify : string -> outcome string)
    (user_message : string) : list string :=
  let message_lower := lower user_message in
  if any_in full_plan_keywords message_lower then all_components
  else
    let has_only := contains "only" message_lower || contains "just" message_lower in
    let has_flight := any_in flight_keywords message_lower in
    let has_hotel := any_in hotel_keywords message_lower in
    let has_itinerary := any_in itinerary_keywords message_lower in
    let early : option (list string) :=
      if has_only then
        if has_flight && negb has_hotel && negb has_itinerary then Some ["FLIGHTS"]
        else if has_hotel && negb has_flight && negb has_itinerary then Some ["HOTELS"]
        else if has_itinerary && negb has_flight && negb has_hotel then Some ["ITINERARY"]
        else if has_flight || has_hotel || has_itinerary then
          match classify user_message with
          | Returns content => read_component_answer content
          | Raises _ => None
          end
        else None
      else None in
    match early with
    | Some components => components
    | None => by_keywords has_flight has_hotel has_itinerary
    end.

(** The seven non-empty selections of the three components, in the
    order the code lists them. *)
Definition seven_selections : list (list string) :=
  [["FLIGHTS"]; ["HOTELS"]; ["ITINERARY"]; ["FLIGHTS"; "HOTELS"];
   ["HOTELS"; "ITINERARY"]; ["FLIGHTS"; "ITINERARY"];
   ["FLIGHTS"; "HOTELS"; "ITINERARY"]].

(** The keyword groups a message mentions, in the fixed order. *)
Definition mentioned (user_message : string) : list string :=
  let message_lower := lower user_message in
  (if any_in flight_keywords message_lower then ["FLIGHTS"] else [])
  ++ (if any_in hotel_keywords message_lower then ["HOTELS"] else [])
  ++ (if any_in itinerary_keywords message_lower then ["ITINERARY"] else []).

(** [_determine_agents_needed] (lines 1942-2015). Both arms of the test
    on the return date or trip length add the itinerary agent. *)
Definition _determine_agents_needed (intent : TripRequest)
    (requested_components : list string) : list string :=
  let a0 : list string := [] in
  let a1 :=
    if str_in "FLIGHTS" requested_components then
      if truthy (destination intent) && truthy (depart_date intent)
      then a0 ++ ["FLIGHTS"] else a0
    else a0 in
  let a2 :=
    if str_in "HOTELS" requested_components then
      if truthy (destination intent) then a1 ++ ["HOTELS"] else a1
    else a1 in
  let a3 :=
    if str_in "ITINERARY" requested_components then
      if truthy (destination intent) then
        if truthy (depart_date intent) then
          if has_return intent || has_trip_length intent
          then a2 ++ ["ITINERARY"] else a2 ++ ["ITINERARY"]
        else a2
      else a2
    else a2 in
  match a3, requested_components with
  | [], [] =>
      let b1 :=
        if truthy (origin intent) && truthy (destination intent)
           && truthy (depart_date intent)
        then ["FLIGHTS"] else [] in
      let b2 := if truthy (destination intent) then b1 ++ ["HOTELS"] else b1 in
      if truthy (destination intent) && has_return intent
      then b2 ++ ["ITINERARY"] else b2
  | _, _ => a3
  end.

End Components.

(** ** Intent classifier: travel relevance and edit detection *)

Module Classifier.
Import Py Dates Plan Sse Text.

Definition strong_travel_keywords : list string :=
  ["travel"; "trip"; "flight"; "hotel"; "vacation"; "holiday"; "journey";
   "destination"; "visit"; "tour"; "itinerary"; "booking"; "reservation";
   "airport"; "airline"; "accommodation"; "stay"; "lodging"; "resort";
   "attraction"; "sightseeing"; "restaurant"; "dining"; "cuisine";
   "go to"; "going to"; "plan a trip"; "plan trip"; "planning a trip";
   "schedule"; "depart"; "arrive"; "round trip"; "one way"; "return";
   "departure"; "arrival"; "book flight"; "book hotel"; "find flight";
   "find hotel"; "search flight"; "search hotel"].

(** [_is_travel_related] (lines 248-308). [classify] is the yes/no model
    call: the text of its answer, or the exception it raises. *)
Definition _is_travel_related (classify : string -> outcome string)
    (user_message : string) : bool :=
  let message_lower := strip (lower user_message) in
  if any_in strong_travel_keywords message_lower then true
  else
    match classify user_message with
    | Returns content =>
        let response := lower (strip content) in
        contains "yes" response && negb (contains "no" response)
    | Raises _ => false
    end.

Definition edit_keywords : list string :=
  ["change"; "edit"; "update"; "modify"; "replace"; "swap"; "remove"; "delete";
   "redo"; "regenerate"; "different"; "instead"; "instead of"; "rather than";
   "block"; "skip"; "cancel"].

(** [s.find(c)]: position of the first [c]. *)
Fixpoint find_char (c : ascii) (s : string) : option nat :=
  match s with
  | EmptyString => None
  | String a r =>
      if Ascii.eqb a c then Some O
      else match find_char c r with
           | Some n => Some (S n)
           | None => None
           end
  end.

(** [s.rfind(c) + 1]: one past the position of the last [c], and [0]
    when there is none. *)
Fixpoint rfind_end (c : ascii) (s : string) : nat :=
  match s with
  | EmptyString => O
  | String a r =>
      match rfind_end c r with
      | S n => S (S n)
      | O => if Ascii.eqb a c then 1%nat else O
      end
  end.

(** [s[a:b]] for non-negative bounds. *)
Definition slice (a b : nat) (s : string) : string :=
  String.substring a (b - a) s.

(** Lines 470-473: the span from the first opening brace to the last
    closing brace. *)
Definition json_span (response_text : string) : option string :=
  match find_char "{" response_text with
  | Some json_start =>
      Some (slice json_start (rfind_end "}" response_text) response_text)
  | None => None
  end.

(** Line 432. *)
Definition plan_summary (p : ChatPlan) : string :=
  "Plan has " +:+ pretty (length (flights p)) +:+ " flights, "
  +:+ pretty (length (hotels p)) +:+ " hotels, "
  +:+ pretty (length (itinerary_days p)) +:+ " itinerary days".

Definition truthy_entry (d : dict) (k : string) : bool :=
  match dict_get d k with Some v => truthy_val v | None => false end.

(** [_detect_edit_intent] (lines 388-483). [analyse] is the model call
    on the plan summary and the message, [json_loads] the JSON decoder;
    a value that is not a dictionary has no [get] and ends in the
    handler like any other failure. *)
Definition _detect_edit_intent
    (analyse : string -> string -> outcome string)
    (json_loads : string -> outcome pyval)
    (user_message : string) (existing_plan : option ChatPlan) : option dict :=
  match existing_plan with
  | None => None
  | Some p =>
      let message_lower := lower user_message in
      if any_in edit_keywords message_lower then
        match analyse (plan_summary p) user_message with
        | Raises _ => None
        | Returns content =>
            match json_span (strip content) with
            | None => None
            | Some json_str =>
                match json_loads json_str with
                | Returns (PDict edit_intent) =>
                    if truthy_entry edit_intent "is_edit"
                       && truthy_entry edit_intent "edit_type"
                    then Some edit_intent else None
                | _ => None
                end
            end
        end
      else None
  end.

Definition removal_keywords : list string :=
  ["block"; "remove"; "delete"; "skip"; "cancel"].

Definition date_keywords : list string :=
  ["december"; "january"; "february"; "march"; "april"; "may"; "june";
   "july"; "august"; "september"; "october"; "november"; "dec"; "jan"; "feb";
   "mar"; "apr"; "jun"; "jul"; "aug"; "sep"; "oct"; "nov"].

(** Lines 70-112 of [process_request_stream]: the intent synthesised
    when the detector found none, a plan exists, and the message has a
    removal word and a month name. The dates of the message take the year
    of the trip, as in the editor. *)
Definition removal_fallback (natural_dates : string -> list string)
    (user_message : string) (existing_plan : ChatPlan) : option Editor.EditIntent :=
  let message_lower := lower user_message in
  if any_in removal_keywords message_lower && any_in date_keywords message_lower
  then
    match Editor.fix_extracted (depart_date (request existing_plan))
            (Normalizer._extract_dates natural_dates user_message) with
    | [] => None
    | first :: _ =>
        Some (Editor.mk_EditIntent "itinerary_remove" None (Some first))
    end
  else None.

(** A keyword that is not empty and neither starts nor ends with white
    space: stripping a text cannot cut into it. *)
Fixpoint last_not_space (keyword : string) : bool :=
  match keyword with
  | EmptyString => false
  | String c EmptyString => negb (is_space c)
  | String _ r => last_not_space r
  end.

Definition solid (keyword : string) : bool :=
  match keyword with
  | EmptyString => false
  | String c _ => negb (is_space c) && last_not_space keyword
  end.

End Classifier.

(** ** Gemini keys: the key manager and the rotating call *)

Module Keys.
Import Py Plan Sse Text.

(** The fields of [KeyManager]; [_key_pool] is the deque, leftmost
    element first, and [_assignments] the dictionary from role to key. *)
Record KeyManager : Type := mk_KeyManager {
  _keys : list string;
  _key_pool : list string;
  _assignments : list (string * string)
}.

(** [s.split(",")]. *)
Fixpoint split_comma (s : string) : list string :=
  match s with
  | EmptyString => [EmptyString]
  | String c r =>
      if Ascii.eqb c ","%char then EmptyString :: split_comma r
      else match split_comma r with
           | piece :: pieces => String c piece :: pieces
           | [] => [String c EmptyString]
           end
  end.

(** Lines 270-284: the keys collected before deduplication.
    [gemini_keys_env] is the value of [GEMINI_KEYS] (empty when unset) and
    [numbered] the values of [GEMINI_KEY_1], [GEMINI_KEY_2], ... read
    before the first one that is unset or empty. *)
Definition collected_keys (gemini_keys_env : string) (numbered : list string)
  : list string :=
  (if truthy gemini_keys_env
   then List.filter truthy (map strip (split_comma gemini_keys_env))
   else [])
  ++ List.filter truthy (map strip numbered).

(** Lines 287-291: the loop that keeps the first occurrence of each
    non-empty key; [seen] is the set of keys already kept. *)
Fixpoint keep_first (seen : list string) (keys : list string) : list string :=
  match keys with
  | [] => []
  | key :: rest =>
      if truthy key && negb (str_in key seen)
      then key :: keep_first (key :: seen) rest
      else keep_first seen rest
  end.

(** [_load_keys]: the value of [_keys] (and of [_key_pool]), or the
    [ValueError]. *)
Definition _load_keys (gemini_keys_env : string) (numbered : list string)
  : outcome (list string) :=
  match keep_first [] (collected_keys gemini_keys_env numbered) with
  | [] =>
      Raises "No Gemini API keys found. Set GEMINI_KEYS or GEMINI_KEY_1, GEMINI_KEY_2, etc."
  | keys => Returns keys
  end.

Definition roles : list string :=
  ["ORCHESTRATOR"; "FLIGHTS"; "HOTELS"; "ITINERARY"; "SUMMARY"].

(** [enumerate(xs)] from a starting index. *)
Fixpoint enumerate_from {X : Type} (i : nat) (xs : list X) : list (nat * X) :=
  match xs with
  | [] => []
  | x :: r => (i, x) :: enumerate_from (S i) r
  end.

(** [_assign_roles]: the dictionary of assignments; the modulo raises
    [ZeroDivisionError] when there is no key. *)
Definition _assign_roles (keys : list string) : outcome (list (string * string)) :=
  match keys with
  | [] => Raises "integer modulo by zero"
  | first :: _ =>
      Returns
        (fold_left
           (fun assignments '(i, role) =>
              dict_set assignments role (nth (i mod length keys) keys first))
           (enumerate_from 0 roles) [])
  end.

(** [KeyManager()]. *)
Definition __init__ (gemini_keys_env : string) (numbered : list string)
  : outcome KeyManager :=
  match _load_keys gemini_keys_env numbered with
  | Raises e => Raises e
  | Returns keys =>
      match _assign_roles keys with
      | Raises e => Raises e
      | Returns assignments => Returns (mk_KeyManager keys keys assignments)
      end
  end.

(** [get_key_for_role]: the default [self._keys[0]] is evaluated before
    the lookup. *)
Definition get_key_for_role (km : KeyManager) (role : string) : outcome string :=
  match _keys km with
  | [] => Raises "list index out of range"
  | first :: _ =>
      Returns (match dict_get (_assignments km) role with
               | Some key => key
               | None => first
               end)
  end.

(** [next_key]: the key returned and the manager afterwards. *)
Definition next_key (km : KeyManager) : outcome string * KeyManager :=
  let pool := match _key_pool km with [] => _keys km | pool => pool end in
  match pool with
  | [] => (Raises "pop from an empty deque",
           mk_KeyManager (_keys km) pool (_assignments km))
  | key :: rest =>
      (Returns key, mk_KeyManager (_keys km) (rest ++ [key]) (_assignments km))
  end.

(** [count] calls of [next_key] in a row: the answers in order. *)
Fixpoint next_keys (count : nat) (km : KeyManager)
  : list (outcome string) * KeyManager :=
  match count with
  | O => ([], km)
  | S count' =>
      let '(answer, km') := next_key km in
      let '(answers, km'') := next_keys count' km' in
      (answer :: answers, km'')
  end.

Definition get_all_keys (km : KeyManager) : list string := _keys km.

Definition rate_limit_keywords : list string :=
  ["429"; "rate limit"; "quota"; "exceeded your current quota";
   "generativelanguage.googleapis.com"].

(** [is_rate_limit_error]; an exception is its message. *)
Definition is_rate_limit_error (exception : string) : bool :=
  any_in rate_limit_keywords (lower exception).

(** [xs.index(x)]; nothing stands for the [ValueError]. *)
Fixpoint index (x : string) (xs : list string) : option nat :=
  match xs with
  | [] => None
  | y :: r =>
      if String.eqb y x then Some O
      else match index x r with Some i => Some (S i) | None => None end
  end.

(** Lines 69-75: the first key, going round from [start], that has not
    been tried, with its index. *)
Definition next_untried (all_keys : list string) (start : nat)
    (keys_tried : list string) : option (nat * string) :=
  List.find (fun candidate => negb (str_in (snd candidate) keys_tried))
    (map (fun offset =>
            let candidate_index := ((start + offset) mod length all_keys)%nat in
            (candidate_index, nth candidate_index all_keys EmptyString))
       (seq 0 (length all_keys))).

Section Rotation.
Context {A : Type}.

(** The call made with a key: [llm_call attempt key] is what building
    the client for [key] and awaiting [llm_call(llm)] gives at the
    iteration [attempt] of the loop. *)
Variable llm_call : nat -> string -> outcome A.
Variable agent_name : string.
Variable all_keys : list string.
Variable current_key_index : nat.
Variable max_keys_to_try : Z.

(** Lines 135-144: after the loop. *)
Definition exhausted (last_rate_limit_error : option string) : outcome A :=
  match last_rate_limit_error with
  | Some e => Raises e
  | None =>
      Raises ("Failed to call LLM for " +:+ agent_name +:+ " after trying "
              +:+ pretty max_keys_to_try +:+ " keys")
  end.

(** Lines 63-133: the loop over the attempts still to make. The first
    component is [keys_tried] in the order the keys were used, which is
    also the succession of values of [GOOGLE_API_KEY]. The pause before
    the next key changes no value and is left out. *)
Fixpoint attempts (todo : list nat) (keys_tried : list string)
    (last_rate_limit_error : option string) : list string * outcome A :=
  match todo with
  | [] => (keys_tried, exhausted last_rate_limit_error)
  | attempt :: rest =>
      match next_untried all_keys (current_key_index + attempt) keys_tried with
      | None => (keys_tried, exhausted last_rate_limit_error)
      | Some (key_index, key) =>
          let keys_tried := keys_tried ++ [key] in
          match llm_call attempt key with
          | Returns result => (keys_tried, Returns result)
          | Raises e =>
              if is_rate_limit_error e
              then attempts rest keys_tried (Some e)
              else (keys_tried, Raises e)
          end
      end
  end.

End Rotation.

(** [call_with_key_rotation]: the keys used, in order, and the result. *)
Definition call_with_key_rotation {A : Type} (key_manager : KeyManager)
    (agent_name : string) (llm_call : nat -> string -> outcome A)
    (max_keys_to_try : option Z) : list string * outcome A :=
  let all_keys := get_all_keys key_manager in
  let max_keys_to_try :=
    match max_keys_to_try with
    | None => Z.of_nat (length all_keys)
    | Some m => Z.min m (Z.of_nat (length all_keys))
    end in
  match get_key_for_role key_manager agent_name with
  | Raises e => ([], Raises e)
  | Returns assigned_key =>
      let current_key_index :=
        match index assigned_key all_keys with
        | Some assigned_index => assigned_index
        | None => O
        end in
      attempts llm_call agent_name all_keys current_key_index max_keys_to_try
        (seq 0 (Z.to_nat max_keys_to_try)) [] None
  end.

(** An outcome that makes the loop go on to the next key. *)
Definition rate_limited {A : Type} (o : outcome A) : bool :=
  match o with
  | Raises e => is_rate_limit_error e
  | Returns _ => false
  end.

(** The key at position [j] of the round that starts at [start]. *)
Definition key_at (all_keys : list string) (start j : nat) : string :=
  nth ((start + j) mod length all_keys)%nat all_keys EmptyString.

End Keys.

(** ** Plan summary: [call_ollama] and [_generate_summary] *)

Module Summary.
Import Py Plan Sse Text Supervisor.

(** [call_ollama] (llm/ollama_wrapper.py): the client is built, the
    call awaited, and whatever either raises is logged and raised again. *)
Definition call_ollama {L A : Type} (make_ollama : string -> outcome L)
    (agent_name : string) (llm_call : L -> outcome A) : outcome A :=
  match make_ollama agent_name with
  | Raises e => Raises e
  | Returns llm =>
      match llm_call llm with
      | Returns result => Returns result
      | Raises e => Raises e
      end
  end.

(** [d.get("reasoning", default)] followed by [.lower()], which only a
    string has. *)
Definition reasoning_of (result : dict) (default : string) : outcome string :=
  match dict_get result "reasoning" with
  | None => Returns default
  | Some (PStr s) => Returns s
  | Some v => Raises ("'" +:+ type_name v +:+ "' object has no attribute 'lower'")
  end.

(** ["error" in reasoning.lower() or "failed" in reasoning.lower()]. *)
Definition has_error_word (reasoning : string) : bool :=
  contains "error" (lower reasoning) || contains "failed" (lower reasoning).

(** [v == 0.0] for the values at hand (numbers are integers here). *)
Definition equals_zero (v : pyval) : bool :=
  match v with
  | PInt z => z =? 0
  | PBool b => negb b
  | _ => false
  end.

(** [len(flights) == 1 and flights[0].get('price', 0) == 0.0]. *)
Definition single_free_flight (flights : pyval) : outcome bool :=
  obind (py_len flights) (fun n =>
    if n =? 1 then
      match flights with
      | PList (PDict flight :: _) =>
          Returns (equals_zero (match dict_get flight "price" with
                                | Some price => price
                                | None => PInt 0
                                end))
      | PList (v :: _) => Raises (no_get v)
      | PStr _ => Raises (no_get (PStr EmptyString))
      | _ => Raises "0"
      end
    else Returns false).

(** Lines 2263-2275. *)
Definition flights_part (flight_result : dict) : outcome string :=
  let flights := or_empty_list (dict_get flight_result "flights") in
  obind (reasoning_of flight_result "No flight information.") (fun reasoning =>
    if has_error_word reasoning
    then Returns ("Flights: I encountered an error. (" +:+ reasoning +:+ ")")
    else if negb (truthy_val flights)
    then Returns ("Flights: " +:+ reasoning)
    else
      obind (single_free_flight flights) (fun fallback =>
        if fallback then Returns ("Flights: " +:+ reasoning)
        else obind (py_len flights) (fun n =>
               Returns ("Found " +:+ pretty n +:+ " flight options")))).

(** Lines 2277-2289. *)
Definition hotels_part (hotel_result : dict) : outcome string :=
  let hotels := or_empty_list (dict_get hotel_result "hotels") in
  obind (reasoning_of hotel_result "No hotel information.") (fun reasoning =>
    if has_error_word reasoning
    then Returns ("Hotels: I encountered an error. (" +:+ reasoning +:+ ")")
    else if negb (truthy_val hotels)
    then Returns ("Hotels: " +:+ reasoning)
    else obind (py_len hotels) (fun n =>
           Returns ("Found " +:+ pretty n +:+ " hotel options"))).

(** Lines 2291-2301. [py_str] is [str] on the values that are not
    strings. *)
Definition itinerary_part (py_str : pyval -> string) (itinerary_result : dict)
  : outcome string :=
  match dict_get itinerary_result "error" with
  | Some error =>
      Returns ("Itinerary: An error occurred ("
               +:+ match error with PStr s => s | v => py_str v end +:+ ")")
  | None =>
      obind (itinerary_days_data itinerary_result) (fun data =>
        let itinerary_days := or_empty_list data in
        if truthy_val itinerary_days
        then obind (py_len itinerary_days) (fun n =>
               Returns ("Created " +:+ pretty n +:+ "-day itinerary"))
        else Returns "Could not generate an itinerary.")
  end.

(** Lines 2261-2301: [summary_parts]. *)
Definition summary_parts (py_str : pyval -> string)
    (results : list (string * dict)) (requested_components : list string)
  : outcome (list string) :=
  obind (if str_in "FLIGHTS" requested_components
         then obind (flights_part (result_for results "FLIGHTS"))
                (fun part => Returns [part])
         else Returns []) (fun flights =>
  obind (if str_in "HOTELS" requested_components
         then obind (hotels_part (result_for results "HOTELS"))
                (fun part => Returns [part])
         else Returns []) (fun hotels =>
  obind (if str_in "ITINERARY" requested_components
         then obind (itinerary_part py_str (result_for results "ITINERARY"))
                (fun part => Returns [part])
         else Returns []) (fun itinerary =>
  Returns (flights ++ hotels ++ itinerary)))).

(** Lines 2305-2315. *)
Definition scope_description (requested_components : list string) : string :=
  if (length requested_components =? 1)%nat then
    if str_in "FLIGHTS" requested_components then "flight search results"
    else if str_in "HOTELS" requested_components then "hotel search results"
    else if str_in "ITINERARY" requested_components then "itinerary plan"
    else EmptyString
  else "trip plan".

(** [s.capitalize()]. *)
Definition capitalize (s : string) : string :=
  match s with
  | EmptyString => EmptyString
  | String c r => String (upper_char c) (lower r)
  end.

(** [x or default] on strings. *)
Definition or_text (x default : string) : string :=
  if truthy x then x else default.

(** The summary of the [except] branch (lines 2350-2357). *)
Definition fallback_summary (intent : TripRequest)
    (requested_components : list string) (parts : list string) : string :=
  capitalize (scope_description requested_components) +:+ " for "
  +:+ or_text (origin intent) "origin" +:+ " to "
  +:+ or_text (destination intent) "destination" +:+ ": "
  +:+ match parts with
      | [] => "Planning completed."
      | _ => String.concat "; " parts
      end.

(** [_generate_summary] (lines 2246-2357). The function handed to
    [call_ollama] at line 2338 reads the name [llM], which nothing
    binds: calling it raises [NameError] before the model is asked. *)
Definition _generate_summary {L : Type} (make_ollama : string -> outcome L)
    (py_str : pyval -> string) (intent : TripRequest)
    (results : list (string * dict))
    (requested_components : option (list string))
  : outcome (list (string * string)) :=
  let requested_components :=
    match requested_components with
    | Some (c :: r) => c :: r
    | _ => default_components
    end in
  obind (summary_parts py_str results requested_components) (fun parts =>
    match call_ollama make_ollama "SUMMARY"
            (fun _ => @Raises string "name 'llM' is not defined") with
    | Returns content =>
        Returns [("summary", strip content); ("notes", EmptyString)]
    | Raises _ =>
        Returns [("summary", fallback_summary intent requested_components parts);
                 ("notes", "Summary generated without AI enhancement.")]
    end).

End Summary.

(** ** Clarification question: [_format_clarification_question] *)

Module Clarify.
Import Py Plan Sse Text Missing.

(** Lines 1866-1873: what is known so far. *)
Definition context_str (intent : TripRequest) : string :=
  let context_parts :=
    (if truthy (destination intent)
     then ["Destination: " +:+ destination intent] else [])
    ++ (if truthy (depart_date intent)
        then ["Departure date: " +:+ depart_date intent] else [])
    ++ (if truthy (origin intent)
        then ["Origin: " +:+ origin intent] else []) in
  match context_parts with
  | [] => "No information provided yet"
  | _ => String.concat ", " context_parts
  end.

(** Line 1879. *)
Definition requested_str (requested_components : list string) : string :=
  match requested_components with
  | [] => "full plan"
  | _ => String.concat ", " requested_components
  end.

Definition startswith (c : ascii) (s : string) : bool :=
  match s with
  | EmptyString => false
  | String a _ => Ascii.eqb a c
  end.

Fixpoint endswith (c : ascii) (s : string) : bool :=
  match s with
  | EmptyString => false
  | String a EmptyString => Ascii.eqb a c
  | String _ r => endswith c r
  end.

(** [s[:-1]]. *)
Fixpoint drop_last (s : string) : string :=
  match s with
  | EmptyString => EmptyString
  | String _ EmptyString => EmptyString
  | String a r => String a (drop_last r)
  end.

(** [s[1:-1]]. *)
Definition inner (s : string) : string :=
  match s with
  | EmptyString => EmptyString
  | String _ r => drop_last r
  end.

(** Lines 1911-1914, for one kind of quote. *)
Definition unquote (quote : ascii) (question : string) : string :=
  if startswith quote question && endswith quote question
  then inner question else question.

(** Lines 1918-1940: the questions of the [except] branch. *)
Definition fallback_question (missing_fields : list string)
    (intent : TripRequest) : string :=
  if str_in "destination" missing_fields then
    "I'd be happy to help! To get started, which city or destination would you like to visit?"
  else if str_in "depart_date" missing_fields then
    (if truthy (destination intent)
     then "Great! I can help you plan a trip to " +:+ destination intent
          +:+ ". When would you like to travel? Please provide a departure date."
     else "When would you like to travel? Please provide a departure date.")
  else if str_in "origin" missing_fields
          && truthy (destination intent) && truthy (depart_date intent) then
    "Perfect! I'll help you plan a trip to " +:+ destination intent
    +:+ " starting " +:+ depart_date intent
    +:+ ". From which city or airport are you departing?"
  else if str_in "trip_length" missing_fields
          && truthy (destination intent) && truthy (depart_date intent) then
    "Great! I can create an itinerary for " +:+ destination intent
    +:+ " starting " +:+ depart_date intent
    +:+ ". How many days will your trip be? (e.g., 5 days, a week, 10 days)"
  else
    "To complete your request, I need a bit more information: "
    +:+ String.concat ", " missing_fields
    +:+ ". Could you please provide these details?".

(** [_format_clarification_question] (lines 1851-1940). [ask] is the
    model behind the prompt, given the three texts the prompt is filled
    with. *)
Definition _format_clarification_question
    (ask : string -> string -> string -> outcome string)
    (missing_fields : list string) (intent : TripRequest)
    (requested_components : list string) : string :=
  match ask (requested_str requested_components) (context_str intent)
          (String.concat ", " missing_fields) with
  | Returns content =>
      unquote "'"%char (unquote "034"%char (strip content))
  | Raises _ => fallback_question missing_fields intent
  end.

End Clarify.

(** ** Questions that are not about travel: [_handle_non_travel_query] *)

Module NonTravel.
Import Py Plan Sse Text Supervisor.

Definition newline : ascii := "010"%char.

Definition redirect : string :=
  "I'm a travel planning assistant, so I can help you much better with travel-related queries like planning trips, finding flights, booking hotels, or creating itineraries. How can I assist you with your travel plans?".

Definition fallback_message : string :=
  "I'm a travel planning assistant. I can help you with planning trips, finding flights, booking hotels, or creating itineraries. How can I assist you with your travel plans?".

(** Lines 331-339: the answer of the model, or the stock opening when
    the call raises. *)
Definition basic_answer (answer : string -> outcome string)
    (user_message : string) : string :=
  match answer user_message with
  | Returns content => strip content
  | Raises _ => "I can provide some information, but"
  end.

(** Line 342. *)
Definition response_message (answer : string -> outcome string)
    (user_message : string) : string :=
  basic_answer answer user_message
  +:+ String newline (String newline redirect).

(** [_handle_non_travel_query] (lines 310-386). [answer] is the model
    behind the prompt and [save] is [memory.save_to_supabase] with the
    message and the response. *)
Definition _handle_non_travel_query (answer : string -> outcome string)
    (save : string -> string -> outcome unit) (user_message : string)
  : coro ChatPlan :=
  try_except
    (let response_message := response_message answer user_message in
     bind (segment_callback (TextChunk response_message 0)) (fun _ =>
     bind (segment_callback (SummarySegment response_message EmptyString true))
       (fun _ =>
     bind (lift (save user_message response_message)) (fun _ =>
     Done (new_plan empty_request response_message EmptyString)))))
    (fun _ =>
     bind (segment_callback (TextChunk fallback_message 0)) (fun _ =>
     bind (segment_callback (SummarySegment fallback_message EmptyString true))
       (fun _ =>
     Done (new_plan empty_request fallback_message EmptyString)))).

End NonTravel.

(** ** Flight search: the retry loop of [search_flights] *)

Module FlightSearch.
Import Py Plan.

(** What one pass through the [try] block of lines 57-128 comes to: a
    [return] with a dictionary, one of the four network exceptions of
    line 130, or another exception. *)
Inductive attempt_outcome : Type :=
| Returned (d : dict)
| NetworkError (e : string)
| OtherError (e : string).

Definition retries : Z := 3.

Definition error_dict (message : string) : dict :=
  [("status", PStr "error"); ("message", PStr message)].

(** Lines 56-147: the loop. The first component is the list of the
    pauses taken, in seconds. *)
Fixpoint retry_loop (attempt_body : Z -> attempt_outcome) (attempts : list Z)
    (slept : list Z) : list Z * dict :=
  match attempts with
  | [] => (slept, error_dict "Flight search failed after all retries.")
  | attempt :: rest =>
      match attempt_body attempt with
      | Returned d => (slept, d)
      | NetworkError e =>
          if attempt + 1 =? retries
          then (slept, error_dict ("Network error: " +:+ e))
          else retry_loop attempt_body rest (slept ++ [2 ^ attempt])
      | OtherError e =>
          (slept, error_dict ("A critical error occurred: " +:+ e))
      end
  end.

(** [search_flights] (lines 20-147). [serpapi_key] is the module
    constant [SERPAPI_KEY], nothing when the variable is unset. *)
Definition search_flights (serpapi_key : option string)
    (attempt_body : Z -> attempt_outcome) : list Z * dict :=
  match serpapi_key with
  | Some (String _ _) => retry_loop attempt_body [0; 1; 2] []
  | _ => ([], error_dict "SERPAPI_API_KEY is not set in .env")
  end.

End FlightSearch.

(** ** More scenario data *)

Module Examples.
Import Py Plan Scenario.

(** The five December days of [five_days] under a request that departs
    on the first of them. *)
Definition december_request : TripRequest :=
  mk_TripRequest "New York" "Paris" "2024-12-20" (Some "2024-12-24")
    2 0 None [].

Definition december_plan : ChatPlan :=
  mk_ChatPlan december_request [old_flight] [old_hotel] five_days
    "Your trip to Paris" "" [] (mk_Meta "2024-11-01T08:00:00" ["SerpAPI"; "Tavily"]).

(** A removal request that writes the date out, with next year's number. *)
Definition block_message : string := "Please block December 2025-12-22".

(** A manager with three keys, as [KeyManager()] builds it. *)
Definition three_keys : Keys.KeyManager :=
  Keys.mk_KeyManager ["k1"; "k2"; "k3"] ["k1"; "k2"; "k3"]
    [("ORCHESTRATOR", "k1"); ("FLIGHTS", "k2"); ("HOTELS", "k3");
     ("ITINERARY", "k1"); ("SUMMARY", "k2")].

(** A model that is over quota on its first call and answers the
    number of the attempt afterwards. *)
Definition second_call_answers (attempt : nat) (key : string) : outcome nat :=
  match attempt with
  | O => Raises "429 Too Many Requests"
  | _ => Returns attempt
  end.

Definition always_over_quota (attempt : nat) (key : string) : outcome nat :=
  Raises "429 quota exceeded".


(** A network that fails twice and then delivers one flight. *)
Definition flaky_network (attempt : Z) : FlightSearch.attempt_outcome :=
  if attempt <? 2 then FlightSearch.NetworkError "connection reset"
  else FlightSearch.Returned
         [("status", PStr "success"); ("data", PList [PDict new_flight])].

End Examples.

(** * Theorems *)

(** ** Digits and the [strptime]/[strftime] round trip *)

Section DateFacts.
Import Py Dates.

Lemma is_digit_cases (c : ascii) :
  is_digit c = true ->
  In c ["0"; "1"; "2"; "3"; "4"; "5"; "6"; "7"; "8"; "9"]%char.
Proof.
  destruct c as [[] [] [] [] [] [] [] []]; intros H;
    try discriminate H; simpl; tauto.
Qed.

Lemma digit_char_val (k : Z) :
  0 <= k <= 9 -> is_digit (digit_char k) = true /\ digit_val (digit_char k) = k.
Proof.
  intros H.
  assert (Hk : In k [0; 1; 2; 3; 4; 5; 6; 7; 8; 9]) by (simpl; lia).
  simpl in Hk.
  repeat (destruct Hk as [<- | Hk]; [split; reflexivity |]).
  destruct Hk.
Qed.

Lemma is_digit_val (c : ascii) :
  is_digit c = true -> 0 <= digit_val c <= 9 /\ digit_char (digit_val c) = c.
Proof.
  intros H. apply is_digit_cases in H. simpl in H.
  repeat (destruct H as [<- | H]; [split; [vm_compute; split; discriminate | reflexivity] |]).
  destruct H.
Qed.

(** The four digits of a year below 10000 are read back as that year. *)
Lemma take_year_pad4 (y : Z) (r : string) :
  0 <= y <= 9999 -> take_year (pad4 y +:+ r) = Some (y, r).
Proof.
  intros Hy. unfold pad4.
  replace (y <? 10000) with true by (symmetry; apply Z.ltb_lt; lia).
  cbv [String.append]. cbn [take_year].
  destruct (digit_char_val (y / 1000)) as [-> ->]; [lia |].
  destruct (digit_char_val (y / 100 mod 10)) as [-> ->]; [lia |].
  destruct (digit_char_val (y / 10 mod 10)) as [-> ->]; [lia |].
  destruct (digit_char_val (y mod 10)) as [-> ->]; [lia |].
  cbn [andb]. do 2 f_equal. lia.
Qed.

Lemma take_month_pad2 (m : Z) (r : string) :
  1 <= m <= 12 ->
  take_month (pad2 m +:+ String "-" r) = Some (m, String "-" r).
Proof.
  intros Hm.
  assert (H : In m [1; 2; 3; 4; 5; 6; 7; 8; 9; 10; 11; 12]) by (simpl; lia).
  simpl in H.
  repeat (destruct H as [<- | H]; [reflexivity |]).
  destruct H.
Qed.

Lemma take_day_pad2 (d : Z) :
  1 <= d <= 31 -> take_day (pad2 d) = Some (d, EmptyString).
Proof.
  intros Hd.
  assert (H : In d [1; 2; 3; 4; 5; 6; 7; 8; 9; 10; 11; 12; 13; 14; 15; 16;
                    17; 18; 19; 20; 21; 22; 23; 24; 25; 26; 27; 28; 29; 30; 31])
    by (simpl; lia).
  simpl in H.
  repeat (destruct H as [<- | H]; [reflexivity |]).
  destruct H.
Qed.

Lemma days_in_month_le (y m : Z) : days_in_month y m <= 31.
Proof.
  unfold days_in_month.
  repeat match goal with |- context [if ?b then _ else _] => destruct b end; lia.
Qed.

Lemma valid_date_bounds (y m d : Z) :
  valid_date y m d = true ->
  1 <= y <= 9999 /\ 1 <= m <= 12 /\ 1 <= d <= days_in_month y m.
Proof.
  unfold valid_date. rewrite !andb_true_iff, !Z.leb_le. tauto.
Qed.

(** Formatting a valid date and parsing it again gives the date back. *)
Lemma strptime_strftime (dt : datetime) :
  well_formed dt -> midnight dt -> strptime (strftime dt) = Some dt.
Proof.
  intros Hv Hm. pose proof (valid_date_bounds _ _ _ Hv) as (Hy & Hmo & Hd).
  pose proof (days_in_month_le (year dt) (month dt)).
  unfold strptime, strftime.
  rewrite take_year_pad4 by lia.
  change ("-" +:+ pad2 (month dt) +:+ "-" +:+ pad2 (day dt))
    with (String "-" (pad2 (month dt) +:+ String "-" (pad2 (day dt)))).
  cbn [take_dash].
  rewrite take_month_pad2 by lia.
  cbn [take_dash]. rewrite take_day_pad2 by lia.
  unfold datetime_ymd. unfold well_formed in Hv. rewrite Hv.
  destruct dt as [y m d h mi s us]. destruct Hm as (? & ? & ? & ?).
  simpl in *. subst. reflexivity.
Qed.

End DateFacts.

Section ParseFacts.
Import Py Dates.

Lemma strptime_inv (s : string) (dt : datetime) :
  strptime s = Some dt ->
  exists y m d, dt = mk_datetime y m d 0 0 0 0 /\ valid_date y m d = true.
Proof.
  unfold strptime, datetime_ymd. intros H.
  destruct (take_year s) as [[y s1] |]; [| discriminate].
  destruct (take_dash s1) as [s2 |]; [| discriminate].
  destruct (take_month s2) as [[m s3] |]; [| discriminate].
  destruct (take_dash s3) as [s4 |]; [| discriminate].
  destruct (take_day s4) as [[d [| ? ?]] |]; try discriminate.
  destruct (valid_date y m d) eqn:Hv; [| discriminate].
  exists y, m, d. split; [congruence | assumption].
Qed.

Lemma strptime_well_formed (s : string) (dt : datetime) :
  strptime s = Some dt -> well_formed dt /\ midnight dt.
Proof.
  intros H. destruct (strptime_inv _ _ H) as (y & m & d & -> & Hv).
  split; [exact Hv | repeat split].
Qed.

Lemma pad4_digits (a b c d : ascii) :
  is_digit a = true -> is_digit b = true ->
  is_digit c = true -> is_digit d = true ->
  pad4 (1000 * digit_val a + 100 * digit_val b + 10 * digit_val c + digit_val d)
  = String a (String b (String c (String d EmptyString))).
Proof.
  intros Ha Hb Hc Hd.
  destruct (is_digit_val a Ha) as [Ba Ea], (is_digit_val b Hb) as [Bb Eb],
    (is_digit_val c Hc) as [Bc Ec], (is_digit_val d Hd) as [Bd Ed].
  unfold pad4.
  set (y := 1000 * digit_val a + 100 * digit_val b + 10 * digit_val c + digit_val d).
  replace (y <? 10000) with true by (symmetry; apply Z.ltb_lt; lia).
  replace (y / 1000) with (digit_val a) by lia.
  replace (y / 100 mod 10) with (digit_val b) by lia.
  replace (y / 10 mod 10) with (digit_val c) by lia.
  replace (y mod 10) with (digit_val d) by lia.
  congruence.
Qed.

Ltac each_digit H :=
  apply is_digit_cases in H; simpl in H;
  repeat (destruct H as [<- | H]); [.. | destruct H].

(** A two-digit month followed by the dash. *)
Lemma take_month_two (f g : ascii) (r r' r'' : string) (m : Z) :
  is_digit f = true -> is_digit g = true ->
  take_month (String f (String g (String "-" r))) = Some (m, r') ->
  take_dash r' = Some r'' ->
  r'' = r /\ pad2 m = String f (String g EmptyString).
Proof.
  intros Hf Hg Hm Hd.
  each_digit Hf; each_digit Hg; vm_compute in Hm;
    try discriminate Hm; injection Hm as <- <-;
    try discriminate Hd; injection Hd as <-; split; reflexivity.
Qed.

Lemma take_day_two (i j : ascii) (d : Z) :
  is_digit i = true -> is_digit j = true ->
  take_day (String i (String j EmptyString)) = Some (d, EmptyString) ->
  pad2 d = String i (String j EmptyString).
Proof.
  intros Hi Hj Hd.
  each_digit Hi; each_digit Hj; vm_compute in Hd;
    try discriminate Hd; injection Hd as <-; reflexivity.
Qed.

(** Parsing a [YYYY-MM-DD] string and formatting the date gives the
    string back. *)
Lemma strftime_strptime (s : string) (dt : datetime) :
  canonical s = true -> strptime s = Some dt -> strftime dt = s.
Proof.
  unfold canonical. intros Hc Hp. apply andb_true_iff in Hc as [Hi Hl].
  destruct s as [| a [| b [| c [| d [| e [| f [| g [| h [| i [| j r]]]]]]]]]];
    try discriminate Hi.
  destruct r; [| discriminate Hl]. clear Hl.
  cbn [iso_prefix] in Hi. rewrite !andb_true_iff in Hi.
  destruct Hi as (((((((((Ha & Hb) & Hc) & Hd) & He) & Hf) & Hg) & Hh) & Hi) & Hj).
  apply Ascii.eqb_eq in He, Hh. subst e h.
  unfold strptime in Hp. cbn [take_year] in Hp.
  rewrite Ha, Hb, Hc, Hd in Hp. cbn [andb take_dash] in Hp.
  destruct (take_month _) as [[m s3] |] eqn:Hm; [| discriminate].
  destruct (take_dash s3) as [s4 |] eqn:Hs4; [| discriminate].
  destruct (take_month_two _ _ _ _ _ _ Hf Hg Hm Hs4) as [-> Em].
  destruct (take_day _) as [[dd [| ? ?]] |] eqn:Hdd; try discriminate.
  pose proof (take_day_two _ _ _ Hi Hj Hdd) as Ed.
  unfold datetime_ymd in Hp.
  destruct (valid_date _ m dd); [| discriminate]. injection Hp as <-.
  unfold strftime. cbn [year month day].
  rewrite pad4_digits, Em, Ed by assumption. reflexivity.
Qed.

(** A text that is one [YYYY-MM-DD] token is found as such. *)
Lemma findall_iso_canonical (s : string) :
  canonical s = true -> findall_iso s = [s].
Proof.
  unfold canonical. intros Hc. apply andb_true_iff in Hc as [Hi Hl].
  destruct s as [| a [| b [| c [| d [| e [| f [| g [| h [| i [| j r]]]]]]]]]];
    try discriminate Hi.
  destruct r; [| discriminate Hl].
  unfold findall_iso. cbn [findall_iso_from]. rewrite Hi. reflexivity.
Qed.

Lemma canonical_truthy (s : string) : canonical s = true -> truthy s = true.
Proof. destruct s; [discriminate | reflexivity]. Qed.

End ParseFacts.

(** ** Comparing a calendar day with the clock *)

Section CompareFacts.
Import Py Dates.

Lemma replace_year_inv (dt dt' : datetime) (y : Z) :
  replace_year dt y = Some dt' ->
  dt' = mk_datetime y (month dt) (day dt)
          (hour dt) (minute dt) (second dt) (microsecond dt)
  /\ valid_date y (month dt) (day dt) = true.
Proof.
  unfold replace_year. destruct (valid_date y (month dt) (day dt));
    [intros [= <-]; split; reflexivity | discriminate].
Qed.

Lemma replace_year_same (dt : datetime) :
  well_formed dt -> replace_year dt (year dt) = Some dt.
Proof.
  unfold well_formed, replace_year. intros ->. destruct dt; reflexivity.
Qed.

Lemma replace_year_midnight (dt dt' : datetime) (y : Z) :
  replace_year dt y = Some dt' -> midnight dt ->
  well_formed dt' /\ midnight dt' /\ year dt' = y
  /\ month dt' = month dt /\ day dt' = day dt.
Proof.
  intros H Hm. apply replace_year_inv in H as [-> Hv].
  unfold well_formed, midnight in *. cbn. tauto.
Qed.

Ltac by_fields :=
  unfold dt_ltb, dt_leb, dt_gtb, dt_compare, dt_key, midnight, time_in_range in *;
  cbn [lex_compare year month day hour minute second microsecond] in *;
  repeat match goal with
         | |- context [?a ?= ?b] => destruct (Z.compare_spec a b)
         | H : context [?a ?= ?b] |- _ => destruct (Z.compare_spec a b)
         end;
  try discriminate; try lia; try tauto.

(** [t < now] for a midnight [t] of the current year: its day comes
    earlier in the year than today, or it is today and the clock has
    left midnight. *)
Lemma midnight_ltb_now (t now : datetime) :
  midnight t -> time_in_range now -> year t = year now ->
  (dt_ltb t now = true <->
     month t < month now
     \/ (month t = month now /\ day t < day now)
     \/ (month t = month now /\ day t = day now /\ ~ midnight now)).
Proof.
  intros Hm Hr Hy. destruct t, now. split; intros H; by_fields.
Qed.

Lemma dt_ltb_irrefl (a : datetime) : dt_ltb a a = false.
Proof. destruct a. by_fields. Qed.

Lemma dt_leb_ltb (a b : datetime) : dt_leb a b = negb (dt_ltb b a).
Proof. destruct a, b. by_fields; reflexivity. Qed.

Lemma dt_ltb_trans (a b c : datetime) :
  dt_ltb a b = true -> dt_ltb b c = true -> dt_ltb a c = true.
Proof. destruct a, b, c. intros H1 H2. by_fields. Qed.

Lemma dt_ltb_year (a b : datetime) : year a < year b -> dt_ltb a b = true.
Proof. destruct a, b. intros H. by_fields. Qed.

Lemma dt_ltb_year_le (a b : datetime) : dt_ltb a b = true -> year a <= year b.
Proof. destruct a, b. intros H. by_fields. Qed.

End CompareFacts.

(** ** Year disambiguation and date normalisation (C1, C2, C7) *)

Section NormalizerFacts.
Import Py Dates Normalizer Scenario.

(** C1. The year rule is meant to keep a departure on today's date in
    the current year. The code compares midnight of that day with the
    clock, so during the day the date counts as passed: on 15 June 2025
    at 10:30 a departure on 15 June is moved to 2026 by the intent
    normaliser, by the regular-expression fallback and by the
    natural-language extractor alike. *)
Theorem C1_departure_today_moves_to_next_year :
  Normalizer.depart_date
    (_validate_and_normalize_intent morning_of_15_june_2025
       (mk_intent_dates (Some "2025-06-15") None)) = Some "2026-06-15"
  /\ fallback_depart morning_of_15_june_2025 "2025-06-15" = "2026-06-15"
  /\ extract_day_month morning_of_15_june_2025 6 15 = Some "2026-06-15".
Proof. repeat split; vm_compute; reflexivity. Qed.

(** The rule as the code applies it to a day and month read from the
    text: the year after the current one exactly when the day lies
    earlier in the year than today, or is today and the clock has left
    midnight. *)
Lemma extract_day_month_year (now : datetime) (m d : Z) :
  time_in_range now -> valid_date (year now) m d = true ->
  extract_day_month now m d =
    Some (pretty (if dt_ltb (mk_datetime (year now) m d 0 0 0 0) now
                  then year now + 1 else year now)
          +:+ "-" +:+ pad2 m +:+ "-" +:+ pad2 d).
Proof.
  intros Hr Hv. unfold extract_day_month, datetime_ymd. rewrite Hv.
  pose proof (valid_date_bounds _ _ _ Hv) as (_ & Hm & Hd).
  pose proof (days_in_month_le (year now) m).
  replace (negb (m =? 0)) with true
    by (symmetry; apply negb_true_iff, Z.eqb_neq; lia).
  replace (1 <=? d) with true by (symmetry; apply Z.leb_le; lia).
  replace (d <=? 31) with true by (symmetry; apply Z.leb_le; lia).
  reflexivity.
Qed.

Lemma passed_iff (now : datetime) (m d : Z) :
  time_in_range now ->
  (dt_ltb (mk_datetime (year now) m d 0 0 0 0) now = true <->
     m < month now \/ (m = month now /\ d < day now)
     \/ (m = month now /\ d = day now /\ ~ midnight now)).
Proof.
  intros Hr.
  apply (midnight_ltb_now (mk_datetime (year now) m d 0 0 0 0) now);
    [repeat split | exact Hr | reflexivity].
Qed.

(** Today's own day and month go to next year whenever the clock is
    past midnight: the deviation behind C1, for every such clock. *)
Lemma extract_day_month_today (now : datetime) :
  well_formed now -> time_in_range now -> ~ midnight now ->
  extract_day_month now (month now) (day now) =
    Some (pretty (year now + 1) +:+ "-" +:+ pad2 (month now)
          +:+ "-" +:+ pad2 (day now)).
Proof.
  intros Hw Hr Hn. rewrite extract_day_month_year by assumption.
  replace (dt_ltb _ now) with true; [reflexivity |].
  symmetry. apply passed_iff; [assumption |]. right. right. tauto.
Qed.

(** A day later in the year than today stays in the current year. *)
Lemma extract_day_month_later (now : datetime) (m d : Z) :
  time_in_range now -> valid_date (year now) m d = true ->
  month now < m \/ (month now = m /\ day now < d) ->
  extract_day_month now m d =
    Some (pretty (year now) +:+ "-" +:+ pad2 m +:+ "-" +:+ pad2 d).
Proof.
  intros Hr Hv Hl. rewrite extract_day_month_year by assumption.
  destruct (dt_ltb _ now) eqn:E; [| reflexivity].
  apply passed_iff in E; [lia | assumption].
Qed.

(** A day earlier in the year than today goes to next year. *)
Lemma extract_day_month_earlier (now : datetime) (m d : Z) :
  time_in_range now -> valid_date (year now) m d = true ->
  m < month now \/ (m = month now /\ d < day now) ->
  extract_day_month now m d =
    Some (pretty (year now + 1) +:+ "-" +:+ pad2 m +:+ "-" +:+ pad2 d).
Proof.
  intros Hr Hv Hl. rewrite extract_day_month_year by assumption.
  replace (dt_ltb _ now) with true; [reflexivity |].
  symmetry. apply passed_iff; [assumption | tauto].
Qed.

(** The intent normaliser shows the same deviation for every clock past
    midnight: a departure on today's day and month, whatever year it was
    written with, comes back in next year. *)
Lemma normalize_depart_today (now : datetime) (s : string) (date_obj : datetime) :
  strptime s = Some date_obj -> time_in_range now -> ~ midnight now ->
  month date_obj = month now -> day date_obj = day now ->
  valid_date (year now) (month now) (day now) = true ->
  valid_date (year now + 1) (month now) (day now) = true ->
  normalize_depart now (Some s)
  = strftime (mk_datetime (year now + 1) (month now) (day now) 0 0 0 0).
Proof.
  intros Hp Hr Hn Hm Hd Hv Hv'.
  destruct (strptime_inv _ _ Hp) as (y & m & d & -> & _).
  cbn [month day] in Hm, Hd. subst m d.
  unfold normalize_depart.
  replace (truthy s) with true by (destruct s; [discriminate Hp | reflexivity]).
  rewrite Hp. unfold replace_year. cbn [month day hour minute second microsecond].
  rewrite Hv, Hv'.
  replace (dt_ltb _ now) with true; [reflexivity |].
  symmetry. apply passed_iff; [assumption |]. right. right. tauto.
Qed.

(** The same input and the same clock give the same answer: the
    normaliser is a function of the two. *)
Lemma normalize_deterministic (now : datetime) (i j : intent_dates) :
  i = j ->
  _validate_and_normalize_intent now i = _validate_and_normalize_intent now j.
Proof. intros ->. reflexivity. Qed.

(** C2. The return date is meant to end up on or after the departure.
    For a return on 29 February the rewrite of the year raises
    [ValueError] in a common year, the handler swallows it, and the
    return date is left before the departure: with the clock at 1
    January 2028, departure 2028-12-12 and return 2028-02-29 come back
    unchanged from the intent normaliser and from the fallback. *)
Theorem C2_leap_day_return_stays_before_departure :
  _validate_and_normalize_intent new_year_2028
    (mk_intent_dates (Some "2028-12-12") (Some "2028-02-29"))
  = mk_intent_dates (Some "2028-12-12") (Some "2028-02-29")
  /\ fallback_return new_year_2028 (Some "2028-02-29")
       (fallback_depart new_year_2028 "2028-12-12") = Some "2028-02-29"
  /\ (exists r d, strptime "2028-02-29" = Some r
                  /\ strptime "2028-12-12" = Some d /\ dt_ltb r d = true).
Proof.
  split; [vm_compute; reflexivity |].
  split; [vm_compute; reflexivity |].
  eexists _, _. repeat split; vm_compute; reflexivity.
Qed.

(** Scenario D under a clock of 2024 that leaves the departure alone. *)
Lemma scenario_D :
  _validate_and_normalize_intent june_2024
    (mk_intent_dates (Some "2024-12-12") (Some "2024-01-05"))
  = mk_intent_dates (Some "2024-12-12") (Some "2025-01-05")
  /\ fallback_return june_2024 (Some "2024-01-05")
       (fallback_depart june_2024 "2024-12-12") = Some "2025-01-05".
Proof. split; vm_compute; reflexivity. Qed.

Lemma valid_date_other_year (y y' m d : Z) :
  valid_date y m d = true -> ~ (m = 2 /\ d = 29) -> 1 <= y' <= 9999 ->
  valid_date y' m d = true.
Proof.
  unfold valid_date, days_in_month. intros H Hn Hy.
  rewrite !andb_true_iff, !Z.leb_le in *.
  destruct (m =? 2) eqn:E; [| tauto].
  apply Z.eqb_eq in E. destruct (is_leap y), (is_leap y'); lia.
Qed.

(** Away from 29 February the anchoring does what C2 says: a return
    date before the departure is moved to the departure's year, or to
    the year after when that is still not later, and ends up strictly
    after the departure with its day and month kept. *)
Lemma anchor_return_after_depart (ret depart : string)
    (return_date_obj depart_obj : datetime) :
  strptime depart = Some depart_obj ->
  well_formed return_date_obj -> midnight return_date_obj ->
  ~ (month return_date_obj = 2 /\ day return_date_obj = 29) ->
  year depart_obj < 9999 ->
  dt_ltb return_date_obj depart_obj = true ->
  exists fixed,
    anchor_return ret return_date_obj depart = (strftime fixed, fixed)
    /\ dt_ltb depart_obj fixed = true
    /\ month fixed = month return_date_obj /\ day fixed = day return_date_obj
    /\ (year fixed = year depart_obj \/ year fixed = year depart_obj + 1).
Proof.
  intros Hd Hw Hm Hn Hy Hlt.
  destruct (strptime_well_formed _ _ Hd) as [Hwd Hmd].
  pose proof (valid_date_bounds _ _ _ Hwd) as (Hyd & _).
  unfold anchor_return.
  replace (truthy depart) with true
    by (destruct depart; [discriminate Hd | reflexivity]).
  rewrite Hd, Hlt.
  assert (H1 : valid_date (year depart_obj) (month return_date_obj)
                 (day return_date_obj) = true)
    by (eapply valid_date_other_year; [exact Hw | exact Hn | lia]).
  assert (H2 : valid_date (year depart_obj + 1) (month return_date_obj)
                 (day return_date_obj) = true)
    by (eapply valid_date_other_year; [exact Hw | exact Hn | lia]).
  unfold replace_year. rewrite H1, H2.
  match goal with |- context [dt_leb ?f depart_obj] => destruct (dt_leb f depart_obj) eqn:E end.
  - eexists. split; [reflexivity |]. cbn.
    split; [apply dt_ltb_year; cbn; lia | tauto].
  - eexists. split; [reflexivity |]. cbn.
    rewrite dt_leb_ltb in E. apply negb_false_iff in E. tauto.
Qed.

Lemma dt_ltb_leb (a b : datetime) : dt_ltb a b = true -> dt_leb a b = true.
Proof.
  intros H. rewrite dt_leb_ltb. apply negb_true_iff.
  destruct (dt_ltb b a) eqn:E; [| reflexivity].
  pose proof (dt_ltb_trans _ _ _ H E) as Hc.
  rewrite dt_ltb_irrefl in Hc. discriminate Hc.
Qed.

(** Away from 29 February the whole return-date block does what C2
    says, for every clock and every departure that parses: the return
    date that comes back is on or after the departure. *)
Lemma normalize_return_not_before_depart (now : datetime)
    (ret depart out : string) (return_date_obj depart_obj out_obj : datetime) :
  strptime ret = Some return_date_obj ->
  strptime depart = Some depart_obj ->
  ~ (month return_date_obj = 2 /\ day return_date_obj = 29) ->
  year depart_obj < 9999 ->
  normalize_return now (Some ret) depart = Some out ->
  strptime out = Some out_obj ->
  dt_leb depart_obj out_obj = true.
Proof.
  intros Hr Hd Hn Hy Hres Hout.
  destruct (strptime_well_formed _ _ Hr) as [Hwr Hmr].
  unfold normalize_return in Hres.
  destruct (truthy ret); [| discriminate Hres].
  destruct (str_in ret [""; "null"; "None"]); [discriminate Hres |].
  rewrite Hr in Hres.
  assert (Hanchor : exists s1 obj1,
            anchor_return ret return_date_obj depart = (s1, obj1)
            /\ strptime s1 = Some obj1 /\ dt_leb depart_obj obj1 = true
            /\ midnight obj1).
  { destruct (dt_ltb return_date_obj depart_obj) eqn:Elt.
    - destruct (anchor_return_after_depart ret depart _ _ Hd Hwr Hmr Hn Hy Elt)
        as (fixed & Ea & Hgt & Hmo & Hda & Hyr).
      exists (strftime fixed), fixed. split; [exact Ea |].
      assert (Hfm : well_formed fixed /\ midnight fixed).
      { unfold anchor_return in Ea.
        replace (truthy depart) with true in Ea
          by (destruct depart; [discriminate Hd | reflexivity]).
        rewrite Hd, Elt in Ea.
        destruct (replace_year return_date_obj (year depart_obj)) as [f1 |] eqn:E1;
          [| injection Ea as _ Eo; subst fixed;
             pose proof (dt_ltb_trans _ _ _ Elt Hgt) as Hc;
             rewrite dt_ltb_irrefl in Hc; discriminate Hc ].
        destruct (replace_year_midnight _ _ _ E1 Hmr) as (W1 & M1 & _).
        destruct (dt_leb f1 depart_obj).
        - destruct (replace_year return_date_obj (year depart_obj + 1))
            as [f2 |] eqn:E2.
          + destruct (replace_year_midnight _ _ _ E2 Hmr) as (W2 & M2 & _).
            injection Ea as _ <-. tauto.
          + injection Ea as _ Eo. subst fixed.
            pose proof (dt_ltb_trans _ _ _ Elt Hgt) as Hc.
            rewrite dt_ltb_irrefl in Hc. discriminate Hc.
        - injection Ea as _ <-. tauto. }
      destruct Hfm as [Hwf Hmf].
      split; [apply strptime_strftime; assumption |].
      split; [apply dt_ltb_leb; exact Hgt | exact Hmf].
    - exists ret, return_date_obj. split.
      + unfold anchor_return.
        replace (truthy depart) with true
          by (destruct depart; [discriminate Hd | reflexivity]).
        rewrite Hd, Elt. reflexivity.
      + split; [exact Hr |]. split; [| exact Hmr].
        rewrite dt_leb_ltb, Elt. reflexivity. }
  destruct Hanchor as (s1 & obj1 & Ea & Hp1 & Hle1 & Hm1).
  rewrite Ea in Hres.
  destruct (dt_ltb obj1 now) eqn:Epast.
  - destruct (replace_year obj1 (year now + 1)) as [fixed |] eqn:Ef;
      [| discriminate Hres].
    destruct (replace_year_midnight _ _ _ Ef Hm1) as (Wf & Mf & Yf & _).
    assert (Hgt : dt_gtb fixed now = true)
      by (unfold dt_gtb; apply dt_ltb_year; lia).
    rewrite Hgt in Hres. injection Hres as <-.
    rewrite strptime_strftime in Hout by assumption. injection Hout as <-.
    unfold dt_gtb in Hgt. rewrite dt_leb_ltb. apply negb_true_iff.
    destruct (dt_ltb fixed depart_obj) eqn:Ec; [| reflexivity].
    exfalso.
    pose proof (dt_ltb_trans _ _ _ Hgt Ec) as H1.
    rewrite dt_leb_ltb in Hle1. apply negb_true_iff in Hle1.
    pose proof (dt_ltb_trans _ _ _ Epast H1) as H2. congruence.
  - injection Hres as <-. rewrite Hp1 in Hout. injection Hout as <-.
    exact Hle1.
Qed.

(** C7 fails as stated: a well-formed [YYYY-MM-DD] departure whose
    year is not the one the rule picks is rewritten. With the clock at
    1 January 2025, "2026-03-10" becomes "2025-03-10". *)
Lemma C7_counterexample :
  canonical "2026-03-10" = true
  /\ Normalizer.depart_date
       (_validate_and_normalize_intent new_year_2025
          (mk_intent_dates (Some "2026-03-10") None)) = Some "2025-03-10"
  /\ Some "2025-03-10" <> Some "2026-03-10".
Proof.
  split; [reflexivity |]. split; [vm_compute; reflexivity | discriminate].
Qed.

(** Away from today's own day and month, the comparison of midnight
    with the clock that [normalize_depart] makes picks the year of the
    documented rule. *)
Lemma code_year_is_documented_year (now date_obj cyd : datetime) :
  time_in_range now -> midnight date_obj ->
  ~ (month date_obj = month now /\ day date_obj = day now) ->
  replace_year date_obj (year now) = Some cyd ->
  documented_year now date_obj
  = Some (if dt_ltb cyd now then year now + 1 else year now).
Proof.
  intros Hr Hm Hnot Hc.
  destruct (replace_year_midnight _ _ _ Hc Hm) as (_ & Hmc & Hyc & Hmoc & Hdc).
  apply replace_year_inv in Hc as [_ Hv].
  unfold documented_year. rewrite Hv. f_equal.
  pose proof (midnight_ltb_now cyd now Hmc Hr Hyc) as Hlt.
  rewrite Hmoc, Hdc in Hlt.
  destruct (dt_ltb cyd now).
  - destruct (proj1 Hlt eq_refl) as [H | [[H1 H2] | [H1 [H2 _]]]].
    + replace (month date_obj <? month now) with true
        by (symmetry; apply Z.ltb_lt; exact H). reflexivity.
    + replace (month date_obj =? month now) with true
        by (symmetry; apply Z.eqb_eq; exact H1).
      replace (day date_obj <? day now) with true
        by (symmetry; apply Z.ltb_lt; exact H2).
      rewrite orb_true_r. reflexivity.
    + tauto.
  - destruct (month date_obj <? month now) eqn:E1.
    + apply Z.ltb_lt in E1. assert (false = true) by (apply Hlt; tauto).
      discriminate.
    + destruct (month date_obj =? month now) eqn:E2; [| reflexivity].
      destruct (day date_obj <? day now) eqn:E3; [| reflexivity].
      apply Z.eqb_eq in E2. apply Z.ltb_lt in E3.
      assert (false = true) by (apply Hlt; tauto). discriminate.
Qed.

(** C7, amended. For a string in [YYYY-MM-DD] form that denotes a real
    date: the date extractor returns it as it is. When its day and month
    are not today's, the intent normaliser returns it unchanged exactly
    when its year is the year the documented rule picks for its day and
    month; what it returns is the same day and month in the year the rule
    picks, or the empty string when that year has no such day (29
    February), and the empty string also when the rule picks nothing
    because the current year has no such day. *)
Theorem C7_canonical_date_kept_iff_year_is_the_documented_year
    (natural_dates : string -> list string)
    (now : datetime) (s : string) (date_obj : datetime) :
  time_in_range now ->
  canonical s = true -> strptime s = Some date_obj ->
  ~ (month date_obj = month now /\ day date_obj = day now) ->
  _extract_dates natural_dates s = [s]
  /\ (normalize_depart now (Some s) = s
      <-> documented_year now date_obj = Some (year date_obj))
  /\ match documented_year now date_obj with
     | Some y =>
         (exists out,
             strptime (normalize_depart now (Some s)) = Some out
             /\ year out = y
             /\ month out = month date_obj /\ day out = day date_obj)
         \/ (normalize_depart now (Some s) = ""
             /\ valid_date y (month date_obj) (day date_obj) = false)
     | None => normalize_depart now (Some s) = ""
     end.
Proof.
  intros Hr Hc Hp Hnot.
  destruct (strptime_well_formed _ _ Hp) as [Hw Hm].
  pose proof (canonical_truthy _ Hc) as Ht.
  split; [unfold _extract_dates; rewrite findall_iso_canonical by assumption;
          reflexivity |].
  unfold normalize_depart. rewrite Ht, Hp.
  destruct (replace_year date_obj (year now)) as [cyd |] eqn:Ecyd.
  2:{ assert (Hd : documented_year now date_obj = None).
      { unfold documented_year. unfold replace_year in Ecyd.
        destruct (valid_date _ _ _); [discriminate Ecyd | reflexivity]. }
      rewrite Hd. split; [| reflexivity].
      split; [intros <-; discriminate Ht | discriminate]. }
  rewrite (code_year_is_documented_year _ _ _ Hr Hm Hnot Ecyd).
  destruct (replace_year_midnight _ _ _ Ecyd Hm) as (Hwc & Hmc & Hyc & Hmoc & Hdc).
  destruct (dt_ltb cyd now).
  - destruct (replace_year date_obj (year now + 1)) as [fixed |] eqn:Efix.
    + destruct (replace_year_midnight _ _ _ Efix Hm) as (Hwf & Hmf & Hyf & Hmof & Hdf).
      pose proof (strptime_strftime _ Hwf Hmf) as Hrt.
      split; [split |].
      * intros E. rewrite E, Hp in Hrt. injection Hrt as ->. congruence.
      * intros [= E]. rewrite E in Efix.
        rewrite replace_year_same in Efix by assumption.
        injection Efix as <-. apply strftime_strptime; assumption.
      * left. exists fixed. tauto.
    + split; [split |].
      * intros <-. discriminate Ht.
      * intros [= E]. rewrite E in Efix.
        rewrite replace_year_same in Efix by assumption. discriminate Efix.
      * right. split; [reflexivity |]. unfold replace_year in Efix.
        destruct (valid_date _ _ _); [discriminate Efix | reflexivity].
  - destruct (year date_obj =? year now) eqn:Ey.
    + apply Z.eqb_eq in Ey. split; [split; [congruence | reflexivity] |].
      left. exists date_obj. rewrite Hp. tauto.
    + apply Z.eqb_neq in Ey.
      pose proof (strptime_strftime _ Hwc Hmc) as Hrt.
      split; [split |].
      * intros E. rewrite E, Hp in Hrt. injection Hrt as ->. congruence.
      * intros [= E]. congruence.
      * left. exists cyd. tauto.
Qed.

Lemma C7_canonical_date_kept_iff_year_is_the_documented_year_witness :
  normalize_depart new_year_2025 (Some "2025-03-10") = "2025-03-10".
Proof.
  refine (proj2 (proj1 (proj2
            (C7_canonical_date_kept_iff_year_is_the_documented_year
               (fun _ => []) new_year_2025 "2025-03-10"
               (mk_datetime 2025 3 10 0 0 0 0) _ _ _ _))) _).
  - vm_compute. repeat split; congruence.
  - reflexivity.
  - reflexivity.
  - cbn. lia.
  - reflexivity.
Defined.

(** 29 February under a clock in a common year: the rule has no date
    to place in the current year and the normaliser empties the field. *)
Lemma leap_day_in_a_common_year :
  documented_year new_year_2025 (mk_datetime 2028 2 29 0 0 0 0) = None
  /\ normalize_depart new_year_2025 (Some "2028-02-29") = "".
Proof. split; reflexivity. Qed.

End NormalizerFacts.

(** ** The missing-field check (C8) *)

Section MissingFacts.
Import Py Plan Missing.

Lemma str_in_In (x : string) (l : list string) : str_in x l = true <-> In x l.
Proof.
  unfold str_in. rewrite existsb_exists. split.
  - intros (y & Hy & E). apply String.eqb_eq in E. subst. exact Hy.
  - intros H. exists x. split; [exact H | apply String.eqb_refl].
Qed.

Lemma In_snoc (x f : string) (m : list string) :
  In x (m ++ [f]) <-> In x m \/ x = f.
Proof. rewrite in_app_iff. simpl. intuition. Qed.

Lemma In_append_new (x f : string) (m : list string) :
  In x (append_new m f) <-> In x m \/ x = f.
Proof.
  unfold append_new. destruct (str_in f m) eqn:E.
  - apply str_in_In in E. split; [tauto | intros [H | ->]; assumption].
  - apply In_snoc.
Qed.

Lemma NoDup_snoc (f : string) (m : list string) :
  List.NoDup m -> ~ In f m -> List.NoDup (m ++ [f]).
Proof.
  induction 1 as [| a l Ha Hl IH]; simpl; intros Hf.
  - constructor; [simpl; tauto | constructor].
  - constructor.
    + rewrite In_snoc. intros [H | ->]; [tauto | apply Hf; left; reflexivity].
    + apply IH. tauto.
Qed.

Lemma NoDup_append_new (f : string) (m : list string) :
  List.NoDup m -> List.NoDup (append_new m f).
Proof.
  intros H. unfold append_new. destruct (str_in f m) eqn:E; [exact H |].
  apply NoDup_snoc; [exact H |]. rewrite <- str_in_In, E. discriminate.
Qed.

(** What each block adds to the list. *)
Lemma In_flights_block (x : string) (intent : TripRequest) (m : list string) :
  In x (flights_block intent m) <->
    In x m
    \/ (x = "destination" /\ blank (destination intent) = true)
    \/ (x = "depart_date" /\ blank (depart_date intent) = true)
    \/ (x = "origin" /\ blank (origin intent) = true).
Proof.
  unfold flights_block.
  destruct (blank (destination intent)), (blank (depart_date intent)),
    (blank (origin intent)); rewrite ?In_snoc; intuition discriminate.
Qed.

Lemma In_hotels_block (x : string) (intent : TripRequest) (m : list string) :
  In x (hotels_block intent m) <->
    In x m
    \/ (x = "destination" /\ blank (destination intent) = true)
    \/ (x = "depart_date" /\ truthy (destination intent) = true
        /\ blank (depart_date intent) = true).
Proof.
  unfold hotels_block.
  destruct (blank (destination intent)), (blank (depart_date intent)),
    (truthy (destination intent)); cbn [andb]; rewrite ?In_append_new;
    intuition discriminate.
Qed.

Lemma In_itinerary_block (x : string) (intent : TripRequest) (m : list string) :
  In x (itinerary_block intent m) <->
    In x m
    \/ (x = "destination" /\ blank (destination intent) = true)
    \/ (x = "depart_date" /\ truthy (destination intent) = true
        /\ blank (depart_date intent) = true)
    \/ (x = "trip_length" /\ truthy (destination intent) = true
        /\ truthy (depart_date intent) = true
        /\ has_return intent = false /\ has_trip_length intent = false).
Proof.
  unfold itinerary_block.
  destruct (blank (destination intent)), (blank (depart_date intent)),
    (truthy (destination intent)), (truthy (depart_date intent)),
    (has_return intent), (has_trip_length intent); cbn [andb negb];
    rewrite ?In_snoc, ?In_append_new; intuition discriminate.
Qed.

Lemma NoDup_flights_block (intent : TripRequest) :
  List.NoDup (flights_block intent []).
Proof.
  unfold flights_block.
  destruct (blank (destination intent)), (blank (depart_date intent)),
    (blank (origin intent)); cbn;
    repeat (constructor; [cbn; intuition discriminate |]); constructor.
Qed.

Lemma NoDup_hotels_block (intent : TripRequest) (m : list string) :
  List.NoDup m -> List.NoDup (hotels_block intent m).
Proof.
  intros H. unfold hotels_block.
  repeat match goal with
         | |- context [if ?b then _ else _] => destruct b
         end; repeat apply NoDup_append_new; exact H.
Qed.

Lemma NoDup_itinerary_block (intent : TripRequest) (m : list string) :
  List.NoDup m -> ~ In "trip_length" m -> List.NoDup (itinerary_block intent m).
Proof.
  intros H Hn. unfold itinerary_block.
  repeat match goal with
         | |- context [if ?b then _ else _] => destruct b
         end;
    try (apply NoDup_snoc; [| rewrite ?In_append_new; intuition discriminate]);
    repeat apply NoDup_append_new; exact H.
Qed.

(** Membership in the result, component by component. *)
Lemma In_missing (x : string) (intent : TripRequest)
    (requested_components : list string) :
  In x (_check_missing_information intent requested_components) <->
    (str_in "FLIGHTS" requested_components = true
     /\ In x (flights_block intent []))
    \/ (str_in "HOTELS" requested_components = true
        /\ In x (hotels_block intent []))
    \/ (str_in "ITINERARY" requested_components = true
        /\ In x (itinerary_block intent [])).
Proof.
  unfold _check_missing_information.
  destruct (str_in "FLIGHTS" requested_components),
    (str_in "HOTELS" requested_components),
    (str_in "ITINERARY" requested_components);
    rewrite ?In_itinerary_block, ?In_hotels_block, ?In_flights_block;
    cbn [In]; intuition discriminate.
Qed.

Lemma NoDup_missing (intent : TripRequest) (requested_components : list string) :
  List.NoDup (_check_missing_information intent requested_components).
Proof.
  unfold _check_missing_information.
  assert (Hf : ~ In "trip_length" (flights_block intent []))
    by (rewrite In_flights_block; cbn [In]; intuition discriminate).
  assert (Hh : forall m, ~ In "trip_length" m ->
                         ~ In "trip_length" (hotels_block intent m))
    by (intros m Hm; rewrite In_hotels_block; intuition discriminate).
  destruct (str_in "FLIGHTS" requested_components),
    (str_in "HOTELS" requested_components),
    (str_in "ITINERARY" requested_components);
    repeat first [ apply NoDup_itinerary_block
                 | apply NoDup_hotels_block
                 | apply NoDup_flights_block
                 | apply Hh | exact Hf
                 | apply List.NoDup_nil
                 | (intros []; fail) ].
Qed.

(** C8. For every request and every list of requested components the
    missing-field list is exactly this: [destination] when some
    requested component needs it and it is blank; [depart_date] when it
    is blank and either flights are requested or hotels or an itinerary
    are requested with a destination given; [origin] when flights are
    requested and it is blank; [trip_length] when an itinerary is
    requested, destination and departure date are given, and neither a
    return date nor a trip-length preference is. Nothing else is
    reported and nothing is reported twice. A field is blank when it is
    empty or white space only, and given when it is not empty. *)
Theorem C8_missing_fields_are_exactly_the_required_ones
    (intent : TripRequest) (requested_components : list string) :
  let missing := _check_missing_information intent requested_components in
  let flights := str_in "FLIGHTS" requested_components in
  let hotels := str_in "HOTELS" requested_components in
  let itinerary := str_in "ITINERARY" requested_components in
  (In "destination" missing <->
     (flights || hotels || itinerary) = true
     /\ blank (destination intent) = true)
  /\ (In "depart_date" missing <->
        blank (depart_date intent) = true
        /\ (flights = true
            \/ ((hotels || itinerary) = true
                /\ truthy (destination intent) = true)))
  /\ (In "origin" missing <->
        flights = true /\ blank (origin intent) = true)
  /\ (In "trip_length" missing <->
        itinerary = true
        /\ truthy (destination intent) = true
        /\ truthy (depart_date intent) = true
        /\ has_return intent = false /\ has_trip_length intent = false)
  /\ (forall f, In f missing ->
        In f ["destination"; "depart_date"; "origin"; "trip_length"])
  /\ List.NoDup missing.
Proof.
  cbv zeta.
  repeat match goal with
         | |- _ /\ _ => split
         end;
    [ rewrite In_missing, In_flights_block, In_hotels_block, In_itinerary_block ..
    | intros f; rewrite In_missing, In_flights_block, In_hotels_block,
        In_itinerary_block
    | apply NoDup_missing ];
    destruct (str_in "FLIGHTS" requested_components),
      (str_in "HOTELS" requested_components),
      (str_in "ITINERARY" requested_components);
    cbn [In orb]; intuition (try discriminate; auto).
Qed.

End MissingFacts.

(** ** The plan editor (C3, C4, C5) *)

Section EditorFacts.
Import Py Dates Plan Sse Editor Scenario Examples.

(** C3. The editor is meant to hand back the pre-edit plan when the
    mutation raises. [updated_plan = existing_plan] makes no copy, so
    the handler returns the object the branch has already written to:
    in a date change whose hotel search raises, the returned plan
    carries the new dates and the new flights next to the old hotels. *)
Theorem C3_failed_edit_returns_partly_mutated_plan :
  let r := _handle_incremental_edit hotels_down "move the trip to august"
             change_dates stored_plan in
  raised r = Some "hotel search timed out"
  /\ depart_date (request (returned r)) = "2025-08-01"
  /\ depart_date (request stored_plan) = "2025-07-01"
  /\ flights (returned r) = [new_flight]
  /\ flights stored_plan = [old_flight]
  /\ hotels (returned r) = hotels stored_plan
  /\ returned r <> stored_plan.
Proof.
  cbv zeta. repeat split; try (vm_compute; reflexivity).
  intros E. apply (f_equal flights) in E. vm_compute in E. discriminate E.
Qed.

(** A raise before the first assignment does leave the plan as it was:
    here the intent extraction of a flights edit fails. *)
Lemma edit_flights_raise_first (c : collaborators) (user_message e : string)
    (edit_intent : EditIntent) (existing_plan : ChatPlan) :
  edit_type edit_intent = "flights" ->
  understand_intent c user_message = Raises e ->
  let r := _handle_incremental_edit c user_message edit_intent existing_plan in
  raised r = Some e /\ returned r = existing_plan.
Proof.
  intros Ht He. unfold _handle_incremental_edit, edit_body. rewrite Ht.
  cbn [String.eqb Ascii.eqb Bool.eqb]. unfold edit_flights, bind, call.
  rewrite He. split; reflexivity.
Qed.

(** *** Removing a day *)

Lemma run_edit_itinerary_remove (c : collaborators) (user_message : string)
    (edit_intent : EditIntent) (h : heap) :
  edit_itinerary_remove c user_message edit_intent h =
    match day_to_remove (itinerary_days (plan h))
            (effective_target (target_date edit_intent)
               (fix_extracted (depart_date (request (plan h)))
                  (Normalizer._extract_dates (natural_dates c) user_message)))
            (day_number edit_intent) with
    | Some idx =>
        (Returns true,
         mk_heap (set_days (plan h) (delete idx (itinerary_days (plan h))))
           (sent h ++ [TextChunk "Removing day from itinerary..." 1]))
    | None =>
        (Returns true, mk_heap (plan h) (sent h ++ [TextChunk not_found_text 1]))
    end.
Proof.
  unfold edit_itinerary_remove, bind, get_plan.
  destruct (day_to_remove _ _ _); reflexivity.
Qed.

(** Regenerating the summary and saving touch neither the days nor
    what was streamed before. *)
Lemma finish_edit_keeps_days (c : collaborators) (user_message : string)
    (h : heap) :
  itinerary_days (plan (snd (finish_edit c user_message h)))
  = itinerary_days (plan h)
  /\ exists more, sent (snd (finish_edit c user_message h)) = sent h ++ more.
Proof.
  unfold finish_edit, bind, get_plan, call, modify_plan, segment_callback.
  cbn. destruct (generate_summary c (plan h)) as [sd | m]; cbn.
  - split; [reflexivity | eexists; reflexivity].
  - split; [reflexivity | exists []; symmetry; apply app_nil_r].
Qed.

Lemma run_edit_body_remove (c : collaborators) (user_message : string)
    (edit_intent : EditIntent) (h : heap) :
  edit_type edit_intent = "itinerary_remove" ->
  edit_body c user_message edit_intent h
  = finish_edit c user_message
      (snd (edit_itinerary_remove c user_message edit_intent h)).
Proof.
  intros Ht. unfold edit_body. rewrite Ht.
  cbn [String.eqb Ascii.eqb Bool.eqb]. unfold bind.
  rewrite run_edit_itinerary_remove.
  destruct (day_to_remove _ _ _); reflexivity.
Qed.

Lemma result_of_finish (c : collaborators) (user_message : string) (h : heap) :
  let r := match finish_edit c user_message h with
           | (Returns _, h') => mk_edit_result None (plan h') (sent h')
           | (Raises m, h') => mk_edit_result (Some m) (plan h') (sent h')
           end in
  itinerary_days (returned r) = itinerary_days (plan h)
  /\ forall s, In s (sent h) -> In s (streamed r).
Proof.
  cbv zeta.
  destruct (finish_edit_keeps_days c user_message h) as [Hd [more Hs]].
  destruct (finish_edit c user_message h) as [[[] | m] h'];
    cbn [snd plan sent returned streamed] in *;
    (split; [exact Hd |]); intros s Hin; rewrite Hs; apply in_or_app; tauto.
Qed.

(** What the editor returns for an [itinerary_remove] edit. *)
Lemma handle_itinerary_remove (c : collaborators) (user_message : string)
    (edit_intent : EditIntent) (existing_plan : ChatPlan) :
  edit_type edit_intent = "itinerary_remove" ->
  let days := itinerary_days existing_plan in
  let r := _handle_incremental_edit c user_message edit_intent existing_plan in
  match day_to_remove days
          (effective_target (target_date edit_intent)
             (fix_extracted (depart_date (request existing_plan))
                (Normalizer._extract_dates (natural_dates c) user_message)))
          (day_number edit_intent) with
  | Some idx =>
      itinerary_days (returned r) = delete idx days
      /\ In (TextChunk "Removing day from itinerary..." 1) (streamed r)
  | None =>
      itinerary_days (returned r) = days
      /\ In (TextChunk not_found_text 1) (streamed r)
  end.
Proof.
  intros Ht. cbv zeta.
  unfold _handle_incremental_edit.
  rewrite run_edit_body_remove by exact Ht.
  rewrite run_edit_itinerary_remove. cbn [plan sent].
  destruct (day_to_remove _ _ _) as [idx |]; cbn [snd];
    match goal with
    | |- context [finish_edit c user_message ?h] =>
        destruct (result_of_finish c user_message h) as [Hd Hs]
    end; cbv zeta in Hd, Hs; cbn [plan sent] in Hd, Hs;
    (split; [exact Hd | apply Hs; apply in_or_app; right; left; reflexivity]).
Qed.

Lemma iso_prefix_truthy (t : string) : iso_prefix t = true -> truthy t = true.
Proof. destruct t; [discriminate | reflexivity]. Qed.

(** The index found is that of the first day with the date. *)
Lemma find_day_first (days : list ItineraryDay) (t : string) (i : nat) :
  find_day days t = Some i <->
  exists day, days !! i = Some day /\ date day = t
              /\ forall j day', (j < i)%nat -> days !! j = Some day' ->
                                date day' <> t.
Proof.
  unfold find_day. split.
  - intros H. apply fmap_Some in H as ([j day] & Hf & ->).
    apply list_find_Some in Hf as (Hl & Hp & Hn).
    exists day. repeat split; [exact Hl | exact Hp |].
    intros k day' Hk Hl'. exact (Hn k day' Hl' Hk).
  - intros (day & Hl & Hp & Hn). apply fmap_Some. exists (i, day).
    split; [| reflexivity]. apply list_find_Some.
    repeat split; [exact Hl | exact Hp |].
    intros k day' Hl' Hk. exact (Hn k day' Hk Hl').
Qed.

Lemma find_day_none (days : list ItineraryDay) (t : string) :
  find_day days t = None <-> forall day, In day days -> date day <> t.
Proof.
  unfold find_day. rewrite fmap_None, list_find_None, Forall_forall.
  split; intros H day Hd; apply H; apply list_elem_of_In; exact Hd.
Qed.

(** With exactly one day on the date, that day is found and no day of
    what remains carries the date. *)
Lemma find_day_single (days : list ItineraryDay) (t : string) :
  length (List.filter (fun d => String.eqb (date d) t) days) = 1%nat ->
  exists i day,
    find_day days t = Some i /\ days !! i = Some day /\ date day = t
    /\ forall d, In d (delete i days) -> date d <> t.
Proof.
  induction days as [| a l IH]; [discriminate |].
  cbn [List.filter]. destruct (String.eqb (date a) t) eqn:E.
  - apply String.eqb_eq in E. cbn [length]. intros [= Hl].
    exists 0%nat, a. split; [| split; [reflexivity | split; [exact E |]]].
    + apply find_day_first. exists a. repeat split; [exact E |]. lia.
    + cbn. intros d Hd Ed.
      assert (Hin : In d (List.filter (fun d => String.eqb (date d) t) l))
        by (apply filter_In; split; [exact Hd | apply String.eqb_eq, Ed]).
      destruct (List.filter _ l); [exact Hin | discriminate Hl].
  - apply String.eqb_neq in E. intros Hl.
    destruct (IH Hl) as (i & day & Hf & Hi & Hd & Hr).
    exists (S i), day. split; [| split; [exact Hi | split; [exact Hd |]]].
    + apply find_day_first. apply find_day_first in Hf as (day0 & H0 & H1 & H2).
      exists day0. repeat split; [exact H0 | exact H1 |].
      intros [| j] day' Hj Hl'; cbn in Hl'.
      * injection Hl' as <-. exact E.
      * apply (H2 j day'); [lia | exact Hl'].
    + cbn. intros d [<- | Hin]; [exact E | exact (Hr d Hin)].
Qed.




(** When several days carry the date (the data model rules it out), the
    first of them is the one removed: still N-1 days in their original
    order. *)
Lemma remove_first_matching_day
    (c : collaborators) (user_message : string) (edit_intent : EditIntent)
    (existing_plan : ChatPlan) (t : string) :
  edit_type edit_intent = "itinerary_remove" ->
  effective_target (target_date edit_intent)
    (fix_extracted (depart_date (request existing_plan))
       (Normalizer._extract_dates (natural_dates c) user_message)) = Some t ->
  iso_prefix t = true ->
  (exists day, In day (itinerary_days existing_plan) /\ date day = t) ->
  let days := itinerary_days existing_plan in
  let days' :=
    itinerary_days
      (returned (_handle_incremental_edit c user_message edit_intent
                   existing_plan)) in
  exists i day,
    days !! i = Some day /\ date day = t
    /\ (forall j day', (j < i)%nat -> days !! j = Some day' -> date day' <> t)
    /\ days' = take i days ++ drop (S i) days
    /\ length days' = (length days - 1)%nat.
Proof.
  intros Ht Htarget Hiso (day0 & Hin & Hd0). cbv zeta.
  pose proof (handle_itinerary_remove c user_message edit_intent
                existing_plan Ht) as H.
  cbv zeta in H. rewrite Htarget in H.
  unfold day_to_remove, truthy_opt in H.
  rewrite (iso_prefix_truthy _ Hiso) in H.
  unfold normalize_target in H. rewrite Hiso in H.
  destruct (find_day (itinerary_days existing_plan) t) as [i |] eqn:Hf.
  - pose proof Hf as Hf'. apply find_day_first in Hf' as (day & Hi & Hd & Hn).
    destruct H as [-> _]. exists i, day.
    split; [exact Hi |]. split; [exact Hd |]. split; [exact Hn |].
    split; [apply delete_take_drop | apply length_delete; eauto].
  - exfalso. exact (proj1 (find_day_none _ _) Hf day0 Hin Hd0).
Qed.

(** Scenario B, computed. *)
Lemma scenario_B :
  itinerary_days
    (returned (_handle_incremental_edit all_up "block 2024-12-22"
                 remove_22_december december_plan))
  = [day_on "2024-12-20"; day_on "2024-12-21"; day_on "2024-12-23";
     day_on "2024-12-24"].
Proof. vm_compute. reflexivity. Qed.




End EditorFacts.

(** ** The agent supervisor and the plan assembler (C6, C9, C10) *)

Section SupervisorFacts.
Import Py Plan Sse Supervisor Scenario.

(** *** Outcome and trace of composed coroutines *)

Lemma result_bind {A B : Type} (c : coro A) (k : A -> coro B) :
  result (bind c k)
  = match result c with
    | Returns a => result (k a)
    | Raises m => Raises m
    end.
Proof. induction c as [a | m | e c IH]; cbn; auto. Qed.

Lemma result_try_except {A : Type} (c : coro A) (h : string -> coro A) :
  result (try_except c h)
  = match result c with
    | Returns a => Returns a
    | Raises m => result (h m)
    end.
Proof. induction c as [a | m | e c IH]; cbn; auto. Qed.

Lemma trace_bind {A B : Type} (c : coro A) (k : A -> coro B) :
  trace (bind c k)
  = trace c ++ match result c with
               | Returns a => trace (k a)
               | Raises _ => []
               end.
Proof. induction c as [a | m | e c IH]; cbn; [reflexivity .. | now f_equal]. Qed.

Lemma trace_try_except {A : Type} (c : coro A) (h : string -> coro A) :
  trace (try_except c h)
  = trace c ++ match result c with
               | Returns _ => []
               | Raises m => trace (h m)
               end.
Proof. induction c as [a | m | e c IH]; cbn; [reflexivity .. | now f_equal]. Qed.

Lemma result_lift {A : Type} (o : outcome A) : result (lift o) = o.
Proof. destruct o; reflexivity. Qed.

(** One turn of the loop: the task is run to its end, and its entry is
    stored whether it answered or raised. *)
Lemma await_one (agent_name : string) (task : coro dict)
    (results : list (string * dict)) :
  let turn :=
    try_except
      (res <- task ;; Done (dict_set results agent_name res))
      (fun e => Done (dict_set results agent_name (error_wrapper agent_name e))) in
  result turn
  = Returns (dict_set results agent_name (recorded agent_name (result task)))
  /\ trace turn = trace task.
Proof.
  cbv zeta. rewrite result_try_except, trace_try_except, result_bind, trace_bind.
  destruct (result task); cbn; rewrite ?app_nil_r; split; reflexivity.
Qed.

(** The supervisor never raises: it returns one entry per task. *)
Lemma result_await_each (tasks : list (string * coro dict))
    (results : list (string * dict)) :
  result (await_each tasks results)
  = Returns
      (fold_left
         (fun acc t => dict_set acc (fst t) (recorded (fst t) (result (snd t))))
         tasks results).
Proof.
  revert results. induction tasks as [| [agent_name task] rest IH];
    intros results; [reflexivity |].
  cbn [await_each fold_left fst snd]. rewrite result_bind.
  destruct (await_one agent_name task results) as [-> _]. apply IH.
Qed.

Lemma trace_await_each (tasks : list (string * coro dict))
    (results : list (string * dict)) :
  trace (await_each tasks results)
  = concat (map (fun t => trace (snd t)) tasks).
Proof.
  revert results. induction tasks as [| [agent_name task] rest IH];
    intros results; [reflexivity |].
  cbn [await_each map concat snd]. rewrite trace_bind.
  destruct (await_one agent_name task results) as [-> ->].
  rewrite IH. reflexivity.
Qed.

(** C9. The selected agents are meant to run as concurrent tasks that
    interleave at their suspension points. The code keeps coroutine
    objects and awaits them in a loop, so for every environment, request
    and selection what the event loop observes of the supervisor is the
    whole run of the first task, then the whole run of the second, then
    the third: no step of a later agent happens before an earlier agent
    has finished. With three agents up, the two suspensions of the
    flight search and its streamed segment all come before the hotel
    search first runs. *)
Theorem C9_agents_run_one_after_the_other :
  (forall (env : environment) (intent : TripRequest)
          (agents_needed : list string),
      trace (_run_agents_parallel env intent agents_needed)
      = concat (map (fun t => trace (snd t))
                  (tasks_for env intent agents_needed)))
  /\ trace (_run_agents_parallel all_agents_up paris_request default_components)
     = [Suspend "FLIGHTS"; Suspend "FLIGHTS";
        Send (FlightsSegment (PList [PDict new_flight]) 0 false);
        Suspend "HOTELS";
        Send (HotelsSegment (PList [PDict old_hotel]) 0 false);
        Suspend "ITINERARY";
        Send (ItinerarySegment
                (PList [PDict [("date", PStr "2025-07-01"); ("blocks", PList [])]])
                0 false)].
Proof.
  split; [| vm_compute; reflexivity].
  intros env intent agents_needed. apply trace_await_each.
Qed.

(** The result mapping: one entry per selected agent, in the order
    flights, hotels, itinerary, each the agent's answer or its error
    wrapper. *)
Lemma results_of_supervisor (env : environment) (intent : TripRequest)
    (agents_needed : list string) :
  result (_run_agents_parallel env intent agents_needed)
  = Returns
      ((if str_in "FLIGHTS" agents_needed
        then [("FLIGHTS", recorded "FLIGHTS" (result (_run_flight_agent env intent)))]
        else [])
       ++ (if str_in "HOTELS" agents_needed
           then [("HOTELS", recorded "HOTELS" (result (_run_hotel_agent env intent)))]
           else [])
       ++ (if str_in "ITINERARY" agents_needed
           then [("ITINERARY",
                  recorded "ITINERARY" (result (_run_itinerary_agent env intent)))]
           else [])).
Proof.
  unfold _run_agents_parallel, tasks_for. rewrite result_await_each.
  destruct (str_in "FLIGHTS" agents_needed), (str_in "HOTELS" agents_needed),
    (str_in "ITINERARY" agents_needed); reflexivity.
Qed.

(** *** The error list of an assembled plan *)

Lemma collect_errors_sound (results : list (string * dict))
    (es : list ErrorItem) (item : ErrorItem) :
  collect_errors results = Returns es -> In item es ->
  exists res, In (agent item, res) results
              /\ dict_get res "error" = Some (PStr (message item)).
Proof.
  revert es. induction results as [| [name res] rest IH]; intros es H Hin.
  - injection H as <-. destruct Hin.
  - cbn [collect_errors] in H.
    destruct (dict_get res "error") as [[| | | m | |] |] eqn:E; try discriminate H.
    + destruct (collect_errors rest) as [es' | x]; [| discriminate H].
      injection H as <-. destruct Hin as [<- | Hin].
      * exists res. split; [left; reflexivity | exact E].
      * destruct (IH es' eq_refl Hin) as (res' & H1 & H2).
        exists res'. split; [right; exact H1 | exact H2].
    + destruct (IH es H Hin) as (res' & H1 & H2).
      exists res'. split; [right; exact H1 | exact H2].
Qed.

Lemma collect_errors_complete (results : list (string * dict))
    (es : list ErrorItem) (name m : string) (res : dict) :
  collect_errors results = Returns es -> In (name, res) results ->
  dict_get res "error" = Some (PStr m) -> In (mk_ErrorItem name m) es.
Proof.
  revert es. induction results as [| [name' res'] rest IH]; intros es H Hin E.
  - destruct Hin.
  - cbn [collect_errors] in H. destruct Hin as [[= -> ->] | Hin].
    + rewrite E in H. destruct (collect_errors rest); [| discriminate H].
      injection H as <-. left. reflexivity.
    + destruct (dict_get res' "error") as [[| | | m' | |] |]; try discriminate H.
      * destruct (collect_errors rest) as [es' |]; [| discriminate H].
        injection H as <-. right. exact (IH es' eq_refl Hin E).
      * exact (IH es H Hin E).
Qed.

Lemma build_plan_errors (env : environment) (intent : TripRequest)
    (results : list (string * dict)) (summary : list (string * string))
    (requested_components : list string) (p : ChatPlan) :
  _build_plan env intent results summary requested_components = Returns p ->
  collect_errors results = Returns (errors p).
Proof.
  unfold _build_plan, obind. intros H.
  repeat match type of H with
         | match ?o with _ => _ end = _ =>
             let E := fresh "E" in destruct o eqn:E; try discriminate H
         end.
  injection H as <-. reflexivity.
Qed.

(** *** One failing agent *)

(** C6. A failing agent is meant to leave its siblings' data in the
    final plan next to one [ErrorItem] naming it. The supervisor does
    record the siblings' results and an error wrapper for the agent that
    raised. For the itinerary agent the wrapper stores a list under
    [itinerary], where the log loop and [_build_plan] call [get] on a
    dictionary: assembly raises [AttributeError], and the plan returned
    is the orchestrator's failure plan, without the flights and hotels
    that were found and with the one error attributed to ORCHESTRATOR. *)
Theorem C6_failed_itinerary_agent_breaks_plan_assembly :
  let results :=
    [("FLIGHTS", flights_answer); ("HOTELS", hotels_answer);
     ("ITINERARY", error_wrapper "ITINERARY" "model overloaded")] in
  let failure := "'list' object has no attribute 'get'" in
  result (_run_agents_parallel itinerary_agent_down paris_request
            default_components) = Returns results
  /\ error_wrapper "ITINERARY" "model overloaded"
     = [("error", PStr "model overloaded"); ("itinerary", PList [])]
  /\ log_results results = Raises failure
  /\ _build_plan itinerary_agent_down paris_request results fixed_summary
       default_components = Raises failure
  /\ result (run_and_assemble itinerary_agent_down paris_request
               default_components default_components)
     = Returns (orchestrator_failure failure)
  /\ flights (orchestrator_failure failure) = []
  /\ hotels (orchestrator_failure failure) = []
  /\ errors (orchestrator_failure failure)
     = [mk_ErrorItem "ORCHESTRATOR"
          "Error processing request: 'list' object has no attribute 'get'"].
Proof. cbv zeta. repeat split; vm_compute; reflexivity. Qed.

(** Scenario E, computed: with the hotel search down the plan keeps
    the flight and the itinerary day and lists one error, for HOTELS. *)
Lemma scenario_E :
  exists p,
    result (run_and_assemble hotel_agent_down paris_request
              default_components default_components) = Returns p
    /\ flights p = [new_flight]
    /\ hotels p = []
    /\ itinerary_days p = [mk_ItineraryDay "2025-07-01" (PList [])]
    /\ errors p = [mk_ErrorItem "HOTELS" "hotel search timed out"].
Proof. eexists. repeat split; vm_compute; reflexivity. Qed.

Lemma models_of_sized (data : option pyval) (ms : list dict) :
  models_of data = Returns ms ->
  exists n, py_len (or_empty_list data) = Returns n.
Proof.
  destruct data as [[| | | [|] | l | [|]] |]; cbn; intros H;
    try discriminate H; eexists; reflexivity.
Qed.

(** The same for every environment: when only the hotel runner raises
    and the two answers are well-formed, the assembled plan holds the
    siblings' data and exactly one error item, naming HOTELS. *)
Lemma hotel_failure_is_isolated (env : environment) (intent : TripRequest)
    (e : string) (rf ri : dict) (fs : list Flight) (ds : list ItineraryDay)
    (summary : list (string * string)) :
  result (_run_flight_agent env intent) = Returns rf ->
  result (_run_hotel_agent env intent) = Raises e ->
  result (_run_itinerary_agent env intent) = Returns ri ->
  dict_get rf "error" = None -> dict_get ri "error" = None ->
  models_of (dict_get rf "flights") = Returns fs ->
  obind (itinerary_days_data ri) days_of = Returns ds ->
  exists results p,
    result (_run_agents_parallel env intent default_components) = Returns results
    /\ dict_get results "FLIGHTS" = Some rf
    /\ dict_get results "HOTELS" = Some (error_wrapper "HOTELS" e)
    /\ dict_get results "ITINERARY" = Some ri
    /\ _build_plan env intent results summary default_components = Returns p
    /\ flights p = fs /\ hotels p = [] /\ itinerary_days p = ds
    /\ errors p = [mk_ErrorItem "HOTELS" e].
Proof.
  intros Hf Hh Hi Ef Ei Hfs Hds.
  rewrite results_of_supervisor, Hf, Hh, Hi.
  change (str_in "FLIGHTS" default_components) with true.
  change (str_in "HOTELS" default_components) with true.
  change (str_in "ITINERARY" default_components) with true.
  cbn [app recorded].
  destruct (models_of_sized _ _ Hfs) as [n Hn].
  eexists _, _. split; [reflexivity |].
  split; [reflexivity |]. split; [reflexivity |]. split; [reflexivity |].
  unfold _build_plan.
  change (str_in "FLIGHTS" default_components) with true.
  change (str_in "HOTELS" default_components) with true.
  change (str_in "ITINERARY" default_components) with true.
  cbv iota.
  change (result_for _ "FLIGHTS") with rf.
  change (result_for _ "HOTELS") with (error_wrapper "HOTELS" e).
  change (result_for _ "ITINERARY") with ri.
  rewrite Hn. cbn [obind]. rewrite Hfs. cbn [obind].
  change (models_of (dict_get (error_wrapper "HOTELS" e) "hotels"))
    with (@Returns (list dict) []).
  cbn [obind]. rewrite Hds. cbn [obind collect_errors].
  rewrite Ef, Ei.
  change (dict_get (error_wrapper "HOTELS" e) "error") with (Some (PStr e)).
  cbn [obind]. split; [reflexivity |]. repeat split.
Qed.

Lemma flight_agent_swallows (env : environment) (intent : TripRequest)
    (e : string) :
  result (search_flights_agent env intent) = Raises e ->
  result (_run_flight_agent env intent) = Returns (flight_fallback e).
Proof.
  intros H. unfold _run_flight_agent.
  rewrite result_bind, result_try_except, H. reflexivity.
Qed.

Lemma in_results_of_supervisor (env : environment) (intent : TripRequest)
    (agents_needed : list string) (results : list (string * dict))
    (name : string) (res : dict) :
  result (_run_agents_parallel env intent agents_needed) = Returns results ->
  In (name, res) results ->
  (name = "FLIGHTS" /\ str_in "FLIGHTS" agents_needed = true
   /\ res = recorded "FLIGHTS" (result (_run_flight_agent env intent)))
  \/ (name = "HOTELS" /\ str_in "HOTELS" agents_needed = true
      /\ res = recorded "HOTELS" (result (_run_hotel_agent env intent)))
  \/ (name = "ITINERARY" /\ str_in "ITINERARY" agents_needed = true
      /\ res = recorded "ITINERARY" (result (_run_itinerary_agent env intent))).
Proof.
  rewrite results_of_supervisor. intros [= <-] Hin.
  rewrite !in_app_iff in Hin.
  destruct (str_in "FLIGHTS" agents_needed), (str_in "HOTELS" agents_needed),
    (str_in "ITINERARY" agents_needed); cbn [In] in Hin;
    repeat match goal with
           | H : _ \/ _ |- _ => destruct H
           | H : False |- _ => destruct H
           | H : (_, _) = (_, _) |- _ => injection H as <- <-
           end; tauto.
Qed.

Lemma results_entry (env : environment) (intent : TripRequest)
    (agents_needed : list string) (results : list (string * dict))
    (name : string) (run : coro dict) :
  (name = "FLIGHTS" /\ run = _run_flight_agent env intent
   \/ name = "HOTELS" /\ run = _run_hotel_agent env intent
   \/ name = "ITINERARY" /\ run = _run_itinerary_agent env intent) ->
  str_in name agents_needed = true ->
  result (_run_agents_parallel env intent agents_needed) = Returns results ->
  dict_get results name = Some (recorded name (result run))
  /\ In (name, recorded name (result run)) results.
Proof.
  rewrite results_of_supervisor.
  intros [[-> ->] | [[-> ->] | [-> ->]]] Hn [= <-]; rewrite Hn;
    destruct (str_in "FLIGHTS" agents_needed), (str_in "HOTELS" agents_needed),
      (str_in "ITINERARY" agents_needed); try discriminate Hn;
    (split; [reflexivity | cbn; tauto]).
Qed.

(** What holds of the three runners in every environment. When the
    flight search raises, the flight runner catches the exception and
    returns an empty flight list with an explanatory reasoning text and
    no [error] key, so no plan assembled from the supervisor's results
    holds an [ErrorItem] for FLIGHTS. An exception of the hotel search or
    of the itinerary planner propagates out of its runner and is recorded
    by the supervisor as an error wrapper with the message; for HOTELS
    every plan assembled from the results then holds the [ErrorItem] with
    that message. *)
Lemma flight_failure_leaves_no_error_item
    (env : environment) (intent : TripRequest) (e : string) :
  result (search_flights_agent env intent) = Raises e ->
  result (_run_flight_agent env intent)
  = Returns [("flights", PList []);
             ("reasoning", PStr ("Error searching flights: " +:+ e))]
  /\ (forall agents_needed results summary requested_components p item,
        result (_run_agents_parallel env intent agents_needed) = Returns results ->
        _build_plan env intent results summary requested_components = Returns p ->
        In item (errors p) -> agent item <> "FLIGHTS")
  /\ (forall e' agents_needed results,
        result (search_hotels_agent env intent) = Raises e' ->
        str_in "HOTELS" agents_needed = true ->
        result (_run_agents_parallel env intent agents_needed) = Returns results ->
        result (_run_hotel_agent env intent) = Raises e'
        /\ dict_get results "HOTELS"
           = Some [("error", PStr e'); ("hotels", PList [])]
        /\ forall summary requested_components p,
             _build_plan env intent results summary requested_components
             = Returns p ->
             In (mk_ErrorItem "HOTELS" e') (errors p))
  /\ (forall e' agents_needed results,
        result (plan_itinerary_agent env intent) = Raises e' ->
        str_in "ITINERARY" agents_needed = true ->
        result (_run_agents_parallel env intent agents_needed) = Returns results ->
        result (_run_itinerary_agent env intent) = Raises e'
        /\ dict_get results "ITINERARY"
           = Some [("error", PStr e'); ("itinerary", PList [])]).
Proof.
  intros Hf. pose proof (flight_agent_swallows env intent e Hf) as Hrun.
  split; [exact Hrun |]. split; [| split].
  - intros agents_needed results summary requested_components p item Hres Hb Hin.
    apply build_plan_errors in Hb.
    destruct (collect_errors_sound _ _ _ Hb Hin) as (res & Hr & He).
    intros Ea. rewrite Ea in Hr.
    destruct (in_results_of_supervisor _ _ _ _ _ _ Hres Hr)
      as [(_ & _ & ->) | [(E & _) | (E & _)]]; try discriminate E.
    rewrite Hrun in He. discriminate He.
  - intros e' agents_needed results Hh Hn Hres.
    assert (Hrunh : result (_run_hotel_agent env intent) = Raises e')
      by (unfold _run_hotel_agent; rewrite result_bind, Hh; reflexivity).
    split; [exact Hrunh |].
    destruct (results_entry env intent agents_needed results "HOTELS"
                (_run_hotel_agent env intent)) as [Hg Hi];
      [tauto | exact Hn | exact Hres |].
    rewrite Hrunh in Hg, Hi. split; [exact Hg |].
    intros summary requested_components p Hb. apply build_plan_errors in Hb.
    eapply collect_errors_complete; [exact Hb | exact Hi | reflexivity].
  - intros e' agents_needed results Hi Hn Hres.
    assert (Hruni : result (_run_itinerary_agent env intent) = Raises e')
      by (unfold _run_itinerary_agent; rewrite result_bind, Hi; reflexivity).
    split; [exact Hruni |].
    destruct (results_entry env intent agents_needed results "ITINERARY"
                (_run_itinerary_agent env intent)) as [Hg _];
      [tauto | exact Hn | exact Hres |].
    rewrite Hruni in Hg. exact Hg.
Qed.

Lemma flight_failure_leaves_no_error_item_example :
  result (_run_flight_agent flight_agent_down paris_request)
  = Returns [("flights", PList []);
             ("reasoning", PStr "Error searching flights: SerpAPI unreachable")].
Proof.
  apply (flight_failure_leaves_no_error_item flight_agent_down
           paris_request "SerpAPI unreachable" eq_refl).
Qed.

(** The log statements that follow the supervisor call [get] on what
    the itinerary entry stores under [itinerary]; on the error wrapper
    that is a list, so the loop raises, whatever the other entries are. *)
Lemma log_results_app_raises (l1 l2 : list (string * dict)) (m : string) :
  log_results l2 = Raises m -> exists m', log_results (l1 ++ l2) = Raises m'.
Proof.
  intros H. induction l1 as [| [name res] l1 IH]; [exists m; exact H |].
  cbn [app log_results]. unfold obind at 1.
  match goal with
  | |- exists m', match ?o with _ => _ end = _ => destruct o as [[] | x]
  end; [exact IH | exists x; reflexivity].
Qed.

Lemma itinerary_failure_stops_the_log (env : environment)
    (intent : TripRequest) (agents_needed : list string)
    (results : list (string * dict)) (e : string) :
  str_in "ITINERARY" agents_needed = true ->
  result (_run_itinerary_agent env intent) = Raises e ->
  result (_run_agents_parallel env intent agents_needed) = Returns results ->
  exists m, log_results results = Raises m.
Proof.
  intros Hn He. rewrite results_of_supervisor, Hn, He. intros [= <-].
  rewrite app_assoc. eapply log_results_app_raises. reflexivity.
Qed.

Lemma itinerary_failure_breaks_assembly (env : environment)
    (intent : TripRequest) (requested_components agents_needed : list string)
    (e : string) :
  str_in "ITINERARY" agents_needed = true ->
  result (_run_itinerary_agent env intent) = Raises e ->
  exists m,
    result (run_and_assemble env intent requested_components agents_needed)
    = Returns (orchestrator_failure m).
Proof.
  intros Hn He. unfold run_and_assemble.
  rewrite result_try_except, result_bind.
  destruct (result (_run_agents_parallel env intent agents_needed))
    as [results | x] eqn:Hres.
  - destruct (itinerary_failure_stops_the_log _ _ _ _ _ Hn He Hres) as [m Hm].
    rewrite result_bind, result_lift, Hm. exists m. reflexivity.
  - exists x. reflexivity.
Qed.

(** C10. An exception of the itinerary planner is meant to become an
    [ErrorItem] naming ITINERARY, as one of the hotel search becomes an
    [ErrorItem] naming HOTELS. It does not: the planner's exception is
    wrapped by the supervisor, the log statement of line 181 raises on the
    wrapper, and the plan that comes back is the failure plan of the
    handler, with one error attributed to ORCHESTRATOR and without the
    flights and hotels found. With the planner raising "model overloaded"
    this is computed; with the hotel search raising instead, the plan
    holds the [ErrorItem] for HOTELS; and the failure plan is what every
    environment gets when the itinerary runner raises. *)
Theorem C10_itinerary_failure_becomes_no_error_item :
  (result (plan_itinerary_agent itinerary_agent_down paris_request)
   = Raises "model overloaded"
   /\ exists p,
        result (run_and_assemble itinerary_agent_down paris_request
                  default_components default_components) = Returns p
        /\ map agent (errors p) = ["ORCHESTRATOR"]
        /\ (forall item, In item (errors p) -> agent item <> "ITINERARY")
        /\ flights p = [] /\ hotels p = [])
  /\ (result (search_hotels_agent hotel_agent_down paris_request)
      = Raises "hotel search timed out"
      /\ exists p,
           result (run_and_assemble hotel_agent_down paris_request
                     default_components default_components) = Returns p
           /\ errors p = [mk_ErrorItem "HOTELS" "hotel search timed out"])
  /\ (forall env intent requested_components agents_needed e,
        str_in "ITINERARY" agents_needed = true ->
        result (_run_itinerary_agent env intent) = Raises e ->
        exists m,
          result (run_and_assemble env intent requested_components
                    agents_needed)
          = Returns (orchestrator_failure m)
          /\ map agent (errors (orchestrator_failure m)) = ["ORCHESTRATOR"]).
Proof.
  split; [| split].
  - split; [reflexivity |]. eexists. split; [vm_compute; reflexivity |].
    split; [reflexivity |]. split; [| split; reflexivity].
    intros item [<- | []]. discriminate.
  - split; [reflexivity |]. eexists. split; vm_compute; reflexivity.
  - intros env intent requested_components agents_needed e Hn He.
    destruct (itinerary_failure_breaks_assembly env intent
                requested_components agents_needed e Hn He) as [m Hm].
    exists m. split; [exact Hm | reflexivity].
Qed.

End SupervisorFacts.

(** ** Component selection *)

Section ComponentFacts.
Import Py Plan Sse Missing Text Components Scenario.

Lemma read_component_answer_single (content : string) (cs : list string) :
  read_component_answer content = Some cs ->
  cs = ["FLIGHTS"] \/ cs = ["HOTELS"] \/ cs = ["ITINERARY"].
Proof.
  unfold read_component_answer.
  repeat match goal with
         | |- context [if ?b then _ else _] => destruct b
         end; intros [= <-]; tauto.
Qed.

Lemma by_keywords_selection (f h i : bool) : In (by_keywords f h i) seven_selections.
Proof. destruct f, h, i; cbn; tauto. Qed.

Lemma detect_selection
    (classify : string -> outcome string) (user_message : string) :
  In (_detect_requested_components classify user_message) seven_selections.
Proof.
  unfold _detect_requested_components.
  destruct (any_in full_plan_keywords _); [cbn; tauto |].
  set (f := any_in flight_keywords _). set (h := any_in hotel_keywords _).
  set (i := any_in itinerary_keywords _).
  destruct (contains "only" _ || contains "just" _);
    [| apply by_keywords_selection].
  destruct f, h, i; cbn [andb orb negb]; try (cbn; tauto);
    (destruct (classify user_message) as [content | e];
     [destruct (read_component_answer content) as [cs |] eqn:E;
      [destruct (read_component_answer_single _ _ E) as [-> | [-> | ->]];
       cbn; tauto
      | cbn; tauto]
     | cbn; tauto]).
Qed.

(** X1. Whatever the message and whatever the model answers or raises,
    the requested components are one of the seven non-empty selections of
    FLIGHTS, HOTELS, ITINERARY, listed in that order and without
    repetition. *)
Theorem X1_requested_components_are_a_selection
    (classify : string -> outcome string) (user_message : string) :
  In (_detect_requested_components classify user_message) seven_selections.
Proof. apply detect_selection. Qed.

(** X2. The model is consulted only for a message that says "only" or
    "just", names two or more keyword groups and has no full-plan phrase.
    In every other case the answer does not depend on the model: a
    full-plan phrase gives all three components, and otherwise the result
    is exactly the groups mentioned, or all three when none is. *)
Theorem X2_keywords_decide_without_the_model
    (classify classify' : string -> outcome string) (user_message : string) :
  let message_lower := lower user_message in
  any_in full_plan_keywords message_lower = true
  \/ (contains "only" message_lower || contains "just" message_lower) = false
  \/ (length (mentioned user_message) <= 1)%nat ->
  _detect_requested_components classify user_message
  = _detect_requested_components classify' user_message
  /\ _detect_requested_components classify user_message
     = if any_in full_plan_keywords message_lower then all_components
       else match mentioned user_message with
            | [] => all_components
            | groups => groups
            end.
Proof.
  cbv zeta. unfold _detect_requested_components, mentioned.
  destruct (any_in full_plan_keywords _); [intros _; split; reflexivity |].
  destruct (any_in flight_keywords _), (any_in hotel_keywords _),
    (any_in itinerary_keywords _),
    (contains "only" _ || contains "just" _);
    cbn; intros [H | [H | H]]; try discriminate H; try lia;
    split; reflexivity.
Qed.

Lemma X2_keywords_decide_without_the_model_witness :
  _detect_requested_components (fun _ => Raises "model down")
    "Please show me flights and hotels for Rome"
  = ["FLIGHTS"; "HOTELS"].
Proof.
  refine (eq_trans
            (proj2 (X2_keywords_decide_without_the_model
                      (fun _ => Raises "model down") (fun _ => Raises "model down")
                      "Please show me flights and hotels for Rome" _)) _).
  - right. left. vm_compute. reflexivity.
  - vm_compute. reflexivity.
Defined.

(** X3. The agents to run are always an ordered selection of FLIGHTS,
    HOTELS, ITINERARY without repetition, and when the user requested
    anything, every agent that runs was requested. *)
Theorem X3_agents_are_requested_and_ordered
    (intent : TripRequest) (requested_components : list string) :
  (exists f h i : bool,
     _determine_agents_needed intent requested_components
     = (if f then ["FLIGHTS"] else []) ++ (if h then ["HOTELS"] else [])
       ++ (if i then ["ITINERARY"] else []))
  /\ (requested_components <> [] ->
      forall a, In a (_determine_agents_needed intent requested_components) ->
                In a requested_components).
Proof.
  unfold _determine_agents_needed. split.
  - destruct (str_in "FLIGHTS" requested_components),
      (str_in "HOTELS" requested_components),
      (str_in "ITINERARY" requested_components),
      (truthy (origin intent)), (truthy (destination intent)),
      (truthy (depart_date intent)), (has_return intent || has_trip_length intent),
      (has_return intent), requested_components;
      cbn;
      first [ exists true, true, true; reflexivity
            | exists true, true, false; reflexivity
            | exists true, false, true; reflexivity
            | exists true, false, false; reflexivity
            | exists false, true, true; reflexivity
            | exists false, true, false; reflexivity
            | exists false, false, true; reflexivity
            | exists false, false, false; reflexivity ].
  - intros Hne a.
    destruct requested_components as [| r rs]; [contradiction |].
    set (rc := r :: rs).
    destruct (str_in "FLIGHTS" rc) eqn:Ef, (str_in "HOTELS" rc) eqn:Eh,
      (str_in "ITINERARY" rc) eqn:Ei;
      apply str_in_In in Ef || clear Ef;
      apply str_in_In in Eh || clear Eh;
      apply str_in_In in Ei || clear Ei;
      destruct (truthy (destination intent)), (truthy (depart_date intent)),
        (has_return intent || has_trip_length intent);
      cbn; intros Ha;
      repeat match goal with
             | H : _ \/ _ |- _ => destruct H
             | H : False |- _ => destruct H
             end; subst; assumption.
Qed.

(** X4. No agent runs without what it needs: the flight agent only with
    a destination and a departure date, the hotel agent only with a
    destination, the itinerary agent only with a destination and either a
    departure date or, when nothing was requested explicitly, a return
    date. *)
Theorem X4_scheduled_agents_have_their_inputs
    (intent : TripRequest) (requested_components : list string) :
  let agents := _determine_agents_needed intent requested_components in
  (In "FLIGHTS" agents ->
     destination intent <> "" /\ depart_date intent <> "")
  /\ (In "HOTELS" agents -> destination intent <> "")
  /\ (In "ITINERARY" agents ->
        destination intent <> ""
        /\ (depart_date intent <> ""
            \/ (requested_components = [] /\ has_return intent = true))).
Proof.
  cbv zeta. unfold _determine_agents_needed.
  assert (T : forall s, truthy s = true -> s <> "")
    by (intros [|] H; [discriminate H | discriminate]).
  pose proof (T (destination intent)) as Td.
  pose proof (T (depart_date intent)) as Tp.
  destruct (str_in "FLIGHTS" requested_components),
    (str_in "HOTELS" requested_components),
    (str_in "ITINERARY" requested_components),
    (truthy (origin intent)), (truthy (destination intent)),
    (truthy (depart_date intent)), (has_return intent || has_trip_length intent),
    (has_return intent), requested_components;
    cbn; (split; [| split]); intros Hin;
    repeat match goal with
           | H : _ \/ _ |- _ => destruct H
           | H : False |- _ => destruct H
           | H : @eq string _ _ |- _ => discriminate H
           end; auto.
Qed.

Lemma blank_false_truthy (s : string) : blank s = false -> truthy s = true.
Proof.
  unfold blank. intros H. apply orb_false_iff in H as [H _].
  apply negb_false_iff in H. exact H.
Qed.

Lemma nothing_missing_all_scheduled
    (intent : TripRequest) (requested_components : list string) :
  requested_components <> [] ->
  _check_missing_information intent requested_components = [] ->
  _determine_agents_needed intent requested_components
  = List.filter (fun a => str_in a requested_components) all_components.
Proof.
  intros Hne. destruct requested_components as [| r rs]; [contradiction |].
  set (rc := r :: rs).
  unfold _check_missing_information, _determine_agents_needed,
    flights_block, hotels_block, itinerary_block, append_new, all_components.
  cbn [List.filter].
  destruct (blank (destination intent)) eqn:E1.
  - destruct (str_in "FLIGHTS" rc), (str_in "HOTELS" rc), (str_in "ITINERARY" rc);
      cbn; try reflexivity; intros Hm; exfalso;
      repeat match type of Hm with
             | context [if ?b then _ else _] => destruct b; cbn in Hm
             end; discriminate Hm.
  - rewrite (blank_false_truthy _ E1).
    destruct (blank (depart_date intent)) eqn:E2.
    + destruct (str_in "FLIGHTS" rc), (str_in "HOTELS" rc),
        (str_in "ITINERARY" rc);
        cbn; try reflexivity; intros Hm; exfalso;
        repeat match type of Hm with
               | context [if ?b then _ else _] => destruct b; cbn in Hm
               end; discriminate Hm.
    + rewrite (blank_false_truthy _ E2).
      destruct (str_in "FLIGHTS" rc), (str_in "HOTELS" rc),
        (str_in "ITINERARY" rc);
        cbn; try reflexivity;
        destruct (has_return intent), (has_trip_length intent); cbn;
        try reflexivity; intros Hm;
        repeat match type of Hm with
               | context [if ?b then _ else _] => destruct b; cbn in Hm
               end; first [reflexivity | discriminate Hm].
Qed.

(** X5. Once the missing-field check reports nothing for a non-empty
    request, every requested component gets its agent: the agents to run
    are exactly the requested components among FLIGHTS, HOTELS,
    ITINERARY. *)
Theorem X5_nothing_missing_schedules_every_requested_agent
    (intent : TripRequest) (requested_components : list string) :
  requested_components <> [] ->
  _check_missing_information intent requested_components = [] ->
  _determine_agents_needed intent requested_components
  = List.filter (fun a => str_in a requested_components) all_components.
Proof. apply nothing_missing_all_scheduled. Qed.

Lemma X5_nothing_missing_schedules_every_requested_agent_witness :
  _determine_agents_needed paris_request ["FLIGHTS"; "HOTELS"]
  = ["FLIGHTS"; "HOTELS"].
Proof.
  refine (eq_trans
            (X5_nothing_missing_schedules_every_requested_agent
               paris_request ["FLIGHTS"; "HOTELS"] _ _) _).
  - discriminate.
  - vm_compute. reflexivity.
  - vm_compute. reflexivity.
Defined.

(** X6. From message to schedule: with the components read from the
    message, a request in which nothing is missing runs exactly the
    requested agents, in the requested order. *)
Theorem X6_requested_components_all_run
    (classify : string -> outcome string) (user_message : string)
    (intent : TripRequest) :
  let requested := _detect_requested_components classify user_message in
  _check_missing_information intent requested = [] ->
  _determine_agents_needed intent requested = requested.
Proof.
  cbv zeta. intros H.
  pose proof (detect_selection classify user_message) as Hs.
  rewrite nothing_missing_all_scheduled.
  - unfold seven_selections in Hs. cbn [In] in Hs.
    repeat (destruct Hs as [<- | Hs]; [reflexivity |]). destruct Hs.
  - intros E. rewrite E in Hs. cbn in Hs.
    repeat (destruct Hs as [Hs | Hs]; [discriminate Hs |]). destruct Hs.
  - exact H.
Qed.

Lemma X6_requested_components_all_run_witness :
  _determine_agents_needed paris_request
    (_detect_requested_components (fun _ => Raises "model down")
       "Please show me flights and hotels for Rome")
  = ["FLIGHTS"; "HOTELS"].
Proof.
  refine (eq_trans
            (X6_requested_components_all_run (fun _ => Raises "model down")
               "Please show me flights and hotels for Rome" paris_request _) _).
  - vm_compute. reflexivity.
  - vm_compute. reflexivity.
Defined.

End ComponentFacts.

(** ** Substring search under stripping *)

Section TextFacts.
Import Py Sse Text Classifier.

Lemma prefix_cons (a b : ascii) (k s : string) :
  String.prefix (String a k) (String b s) = true <-> a = b /\ String.prefix k s = true.
Proof.
  cbn. destruct (ascii_dec a b) as [-> | Hn]; split.
  - tauto.
  - tauto.
  - discriminate.
  - intros [E _]. contradiction.
Qed.

Lemma contains_of_prefix (k s : string) :
  String.prefix k s = true -> contains k s = true.
Proof. intros H. destruct s; cbn [contains]; rewrite H; reflexivity. Qed.

Lemma contains_cons (k : string) (a : ascii) (s : string) :
  contains k (String a s) = String.prefix k (String a s) || contains k s.
Proof. reflexivity. Qed.

Lemma contains_empty (k : string) :
  contains k EmptyString = true -> k = EmptyString.
Proof. destruct k; [reflexivity | discriminate]. Qed.

Lemma last_not_space_nonempty (k : string) :
  last_not_space k = true -> k <> EmptyString.
Proof. destruct k; [discriminate | discriminate]. Qed.

Lemma prefix_rstrip (k s : string) :
  last_not_space k = true -> String.prefix k s = true ->
  String.prefix k (rstrip s) = true.
Proof.
  revert s. induction k as [| c k' IH]; intros s Hl Hp; [discriminate Hl |].
  destruct s as [| a r]; [discriminate Hp |].
  apply prefix_cons in Hp as [<- Hp]. cbn [rstrip].
  destruct k' as [| c' k''].
  - cbn in Hl. apply negb_true_iff in Hl.
    destruct (rstrip r); [rewrite Hl |]; apply prefix_cons; split; reflexivity.
  - assert (Hl' : last_not_space (String c' k'') = true) by exact Hl.
    specialize (IH r Hl' Hp).
    destruct (rstrip r) as [| b r']; [discriminate IH |].
    apply prefix_cons. split; [reflexivity | exact IH].
Qed.

Lemma contains_rstrip (k s : string) :
  last_not_space k = true -> contains k s = true -> contains k (rstrip s) = true.
Proof.
  intros Hl. induction s as [| a r IH]; intros H.
  - apply contains_empty in H. subst. discriminate Hl.
  - rewrite contains_cons in H. apply orb_true_iff in H as [H | H].
    + apply contains_of_prefix, prefix_rstrip; assumption.
    + specialize (IH H). cbn [rstrip].
      destruct (rstrip r) as [| b r'].
      * apply contains_empty in IH. subst. discriminate Hl.
      * rewrite contains_cons, IH. apply orb_true_r.
Qed.

Lemma contains_lstrip (k s : string) (c : ascii) (k' : string) :
  k = String c k' -> is_space c = false ->
  contains k s = true -> contains k (lstrip s) = true.
Proof.
  intros -> Hc. induction s as [| a r IH]; intros H; [exact H |].
  cbn [lstrip]. destruct (is_space a) eqn:Ea; [| exact H].
  rewrite contains_cons in H. apply orb_true_iff in H as [H | H].
  - apply prefix_cons in H as [<- _]. congruence.
  - exact (IH H).
Qed.

(** Stripping a text keeps every occurrence of a solid keyword. *)
Lemma contains_strip (k s : string) :
  solid k = true -> contains k s = true -> contains k (strip s) = true.
Proof.
  intros Hs H. destruct k as [| c k']; [discriminate Hs |].
  cbn [solid] in Hs. apply andb_true_iff in Hs as [Hc Hl].
  apply negb_true_iff in Hc. unfold strip.
  apply contains_rstrip; [exact Hl |].
  eapply contains_lstrip; [reflexivity | exact Hc | exact H].
Qed.

Lemma any_in_intro (keywords : list string) (k s : string) :
  In k keywords -> contains k s = true -> any_in keywords s = true.
Proof.
  intros Hin H. unfold any_in. apply existsb_exists. exists k. tauto.
Qed.

Lemma any_in_subset (small large : list string) (s : string) :
  (forall k, In k small -> In k large) ->
  any_in small s = true -> any_in large s = true.
Proof.
  unfold any_in. rewrite !existsb_exists.
  intros Hsub (k & Hk & H). exists k. split; [apply Hsub, Hk | exact H].
Qed.

End TextFacts.

(** ** Travel relevance and edit detection *)

Section ClassifierFacts.
Import Py Dates Plan Sse Text Classifier Editor Scenario Examples.

(** X7. A message that contains one of the travel keywords, in any
    letter case and with anything around it, is travel-related whatever
    the model would answer; and the model alone can make a message
    travel-related only by an answer that contains "yes" and nowhere
    "no": an exception from the model never does. *)
Theorem X7_travel_keywords_gate
    (classify : string -> outcome string) (user_message : string) :
  (forall keyword,
      In keyword strong_travel_keywords ->
      contains keyword (lower user_message) = true ->
      _is_travel_related classify user_message = true)
  /\ (_is_travel_related classify user_message = true ->
      any_in strong_travel_keywords (strip (lower user_message)) = true
      \/ exists content,
           classify user_message = Returns content
           /\ contains "yes" (lower (strip content)) = true
           /\ contains "no" (lower (strip content)) = false).
Proof.
  unfold _is_travel_related. split.
  - intros keyword Hin Hc.
    assert (Hs : solid keyword = true).
    { assert (Hall : forallb solid strong_travel_keywords = true)
        by (vm_compute; reflexivity).
      rewrite forallb_forall in Hall. exact (Hall keyword Hin). }
    rewrite (any_in_intro _ keyword _ Hin (contains_strip _ _ Hs Hc)).
    reflexivity.
  - destruct (any_in strong_travel_keywords _); [left; reflexivity |].
    destruct (classify user_message) as [content | e]; [| discriminate].
    intros H. apply andb_true_iff in H as [Hy Hn].
    apply negb_true_iff in Hn. right. exists content. tauto.
Qed.

(** X8. The edit detector answers nothing without a stored plan or
    without an edit word in the message, whatever the model and the JSON
    decoder would do; and every intent it returns comes from a message
    with an edit word and carries a true [is_edit] and a non-empty
    [edit_type]. *)
Theorem X8_edit_detection_is_gated
    (analyse : string -> string -> outcome string)
    (json_loads : string -> outcome pyval)
    (user_message : string) (existing_plan : option ChatPlan) :
  (existing_plan = None \/ any_in edit_keywords (lower user_message) = false ->
   _detect_edit_intent analyse json_loads user_message existing_plan = None)
  /\ (forall edit_intent,
        _detect_edit_intent analyse json_loads user_message existing_plan
        = Some edit_intent ->
        existing_plan <> None
        /\ any_in edit_keywords (lower user_message) = true
        /\ truthy_entry edit_intent "is_edit" = true
        /\ truthy_entry edit_intent "edit_type" = true).
Proof.
  unfold _detect_edit_intent. split.
  - intros [-> | H]; [reflexivity |].
    destruct existing_plan; [rewrite H |]; reflexivity.
  - intros edit_intent H.
    destruct existing_plan as [p |]; [| discriminate H].
    destruct (any_in edit_keywords _); [| discriminate H].
    destruct (analyse _ _) as [content | e]; [| discriminate H].
    destruct (json_span _) as [json_str |]; [| discriminate H].
    destruct (json_loads json_str) as [[| | | | | d] | e]; try discriminate H.
    destruct (truthy_entry d "is_edit" && truthy_entry d "edit_type") eqn:E;
      [| discriminate H].
    injection H as <-. apply andb_true_iff in E.
    split; [discriminate | tauto].
Qed.

Lemma find_char_prefix (c : ascii) (s : string) (n m : nat) :
  find_char c s = Some n -> (0 < m)%nat ->
  String.prefix (String c EmptyString) (String.substring n m s) = true.
Proof.
  revert n. induction s as [| a r IH]; intros n H Hm; [discriminate H |].
  cbn [find_char] in H. destruct (Ascii.eqb a c) eqn:E.
  - injection H as <-. apply Ascii.eqb_eq in E. subst.
    destruct m; [lia |]. cbn [String.substring]. apply prefix_cons.
    split; [reflexivity |]. destruct (String.substring 0 m r); reflexivity.
  - destruct (find_char c r) as [k |]; [| discriminate H].
    injection H as <-. cbn [String.substring]. apply (IH k eq_refl Hm).
Qed.

Lemma find_char_none (c : ascii) (s : string) :
  find_char c s = None <-> contains (String c EmptyString) s = false.
Proof.
  induction s as [| a r IH]; [cbn; tauto |].
  rewrite contains_cons.
  destruct (Ascii.eqb a c) eqn:E.
  - assert (Hf : find_char c (String a r) = Some O)
      by (cbn [find_char]; rewrite E; reflexivity).
    assert (Hp : String.prefix (String c EmptyString) (String a r) = true).
    { apply Ascii.eqb_eq in E. subst. apply prefix_cons.
      split; [reflexivity |]. destruct r; reflexivity. }
    rewrite Hf, Hp. split; discriminate.
  - assert (Hf : find_char c (String a r)
                 = match find_char c r with Some n => Some (S n) | None => None end)
      by (cbn [find_char]; rewrite E; reflexivity).
    assert (Hp : String.prefix (String c EmptyString) (String a r) = false).
    { apply Ascii.eqb_neq in E. destruct (String.prefix _ _) eqn:P; [| reflexivity].
      apply prefix_cons in P as [-> _]. contradiction. }
    rewrite Hf, Hp. cbn [orb]. rewrite <- IH.
    destruct (find_char c r); split; intros H; congruence.
Qed.

(** X9. The text handed to the JSON decoder: there is none exactly when
    the model's answer has no opening brace, and otherwise it is empty
    (the last closing brace does not come after the first opening one) or
    starts with the opening brace. *)
Theorem X9_json_span_starts_at_the_first_brace (response_text : string) :
  (json_span response_text = None
   <-> contains "{" response_text = false)
  /\ (forall json_str,
        json_span response_text = Some json_str ->
        json_str = "" \/ String.prefix "{" json_str = true).
Proof.
  unfold json_span. split.
  - rewrite <- find_char_none.
    destruct (find_char "{" response_text); split; intros H; congruence.
  - intros json_str H.
    destruct (find_char "{" response_text) as [n |] eqn:E; [| discriminate H].
    injection H as <-. unfold slice.
    destruct (rfind_end "}" response_text - n)%nat eqn:Em.
    + left. clear. revert n. induction response_text; intros [|]; cbn; auto.
    + right. apply (find_char_prefix _ _ _ _ E). lia.
Qed.

Lemma removal_words_are_edit_words (s : string) :
  any_in removal_keywords s = true -> any_in edit_keywords s = true.
Proof.
  apply any_in_subset. intros k Hk. cbn in Hk |- *.
  repeat (destruct Hk as [<- | Hk]; [tauto |]). destruct Hk.
Qed.

(** X10. The removal fallback fires only for messages that passed the
    edit-word gate of the detector; the intent it builds is an
    [itinerary_remove] without a day number whose target date is the
    first date of the message in the trip's year, and the editor, which
    reads the message again, looks for that same date. *)
Theorem X10_removal_fallback_agrees_with_the_editor
    (natural_dates : string -> list string) (user_message : string)
    (existing_plan : ChatPlan) (edit_intent : EditIntent) :
  removal_fallback natural_dates user_message existing_plan = Some edit_intent ->
  any_in edit_keywords (lower user_message) = true
  /\ edit_type edit_intent = "itinerary_remove"
  /\ day_number edit_intent = None
  /\ exists first rest,
       fix_extracted (depart_date (request existing_plan))
         (Normalizer._extract_dates natural_dates user_message) = first :: rest
       /\ target_date edit_intent = Some first
       /\ effective_target (target_date edit_intent) (first :: rest) = Some first.
Proof.
  unfold removal_fallback. intros H.
  destruct (any_in removal_keywords _ && any_in date_keywords _) eqn:E;
    [| discriminate H].
  apply andb_true_iff in E as [Er _].
  destruct (fix_extracted _ _) as [| first rest] eqn:Ef; [discriminate H |].
  injection H as <-. cbn [edit_type day_number target_date].
  split; [apply removal_words_are_edit_words, Er |].
  split; [reflexivity |]. split; [reflexivity |].
  exists first, rest. split; [reflexivity |]. split; [reflexivity |].
  unfold effective_target, truthy_opt.
  destruct (truthy first), (iso_prefix first); reflexivity.
Qed.

Lemma X10_removal_fallback_agrees_with_the_editor_witness :
  any_in edit_keywords (lower block_message) = true.
Proof.
  refine (proj1 (X10_removal_fallback_agrees_with_the_editor (fun _ => [])
                   block_message december_plan
                   (mk_EditIntent "itinerary_remove" None (Some "2024-12-22")) _)).
  vm_compute. reflexivity.
Defined.

(** X11. From message to edited plan: when the fallback builds the
    intent and its target date, in [YYYY-MM-DD] form, is the date of
    exactly one stored day, the editor returns the plan with that day
    taken out and the others in order. *)
Theorem X11_removal_fallback_removes_the_day
    (c : collaborators) (user_message : string) (existing_plan : ChatPlan)
    (edit_intent : EditIntent) (t : string) :
  removal_fallback (natural_dates c) user_message existing_plan
  = Some edit_intent ->
  target_date edit_intent = Some t ->
  iso_prefix t = true ->
  length (List.filter (fun d => String.eqb (date d) t)
            (itinerary_days existing_plan)) = 1%nat ->
  let days := itinerary_days existing_plan in
  let days' :=
    itinerary_days
      (returned (_handle_incremental_edit c user_message edit_intent
                   existing_plan)) in
  (forall d, In d days' -> date d <> t)
  /\ exists i, days' = take i days ++ drop (S i) days
               /\ (length days' = length days - 1)%nat.
Proof.
  intros Hf Ht Hiso Hone. cbv zeta.
  unfold removal_fallback in Hf.
  destruct (any_in removal_keywords _ && any_in date_keywords _);
    [| discriminate Hf].
  destruct (fix_extracted _ _) as [| first rest] eqn:Ef; [discriminate Hf |].
  injection Hf as <-. cbn [target_date] in Ht. injection Ht as ->.
  pose proof (handle_itinerary_remove c user_message
                (mk_EditIntent "itinerary_remove" None (Some t))
                existing_plan eq_refl) as H.
  cbv zeta in H. cbn [target_date day_number] in H. rewrite Ef in H.
  destruct (find_day_single _ _ Hone) as (i & day & Hfd & Hi & Hd & Hr).
  unfold effective_target, day_to_remove, truthy_opt in H.
  rewrite (iso_prefix_truthy _ Hiso), Hiso in H. cbn [andb] in H.
  rewrite (iso_prefix_truthy _ Hiso) in H.
  unfold normalize_target in H. rewrite Hiso, Hfd in H.
  destruct H as [-> _].
  split; [exact Hr |].
  exists i. split; [apply delete_take_drop | apply length_delete; eauto].
Qed.

Lemma X11_removal_fallback_removes_the_day_witness :
  (forall d,
      In d (itinerary_days
              (returned (_handle_incremental_edit all_up block_message
                           (mk_EditIntent "itinerary_remove" None
                              (Some "2024-12-22"))
                           december_plan))) ->
      date d <> "2024-12-22")
  /\ exists i,
       itinerary_days
         (returned (_handle_incremental_edit all_up block_message
                      (mk_EditIntent "itinerary_remove" None (Some "2024-12-22"))
                      december_plan))
       = take i (itinerary_days december_plan)
         ++ drop (S i) (itinerary_days december_plan)
       /\ (length
             (itinerary_days
                (returned (_handle_incremental_edit all_up block_message
                             (mk_EditIntent "itinerary_remove" None
                                (Some "2024-12-22"))
                             december_plan)))
           = length (itinerary_days december_plan) - 1)%nat.
Proof.
  refine (X11_removal_fallback_removes_the_day all_up block_message
            december_plan
            (mk_EditIntent "itinerary_remove" None (Some "2024-12-22"))
            "2024-12-22" _ _ _ _); vm_compute; reflexivity.
Defined.

End ClassifierFacts.

(** ** Gemini keys *)

Section KeyFacts.
Import Py Plan Sse Text Keys.

Lemma truthy_nonempty (s : string) : truthy s = true <-> s <> EmptyString.
Proof. destruct s; cbn; split; congruence. Qed.

Lemma keep_first_spec (keys seen : list string) :
  List.NoDup (keep_first seen keys)
  /\ (forall k, In k (keep_first seen keys)
                <-> In k keys /\ truthy k = true /\ ~ In k seen)
  /\ sublist (keep_first seen keys) keys.
Proof.
  revert seen. induction keys as [| key rest IH]; intros seen.
  - cbn. split; [constructor | split; [tauto | constructor]].
  - cbn [keep_first]. destruct (truthy key && negb (str_in key seen)) eqn:E.
    + apply andb_true_iff in E as [Et En]. apply negb_true_iff in En.
      assert (Hns : ~ In key seen) by (rewrite <- str_in_In; congruence).
      destruct (IH (key :: seen)) as (Hn & Hi & Hs).
      split; [| split].
      * constructor; [| exact Hn]. rewrite Hi. cbn [In]. tauto.
      * intros k. cbn [In]. rewrite Hi. cbn [In]. split.
        -- intros [<- | H]; tauto.
        -- intros ([<- | H1] & H2 & H3); [tauto |].
           destruct (String.eqb_spec key k); tauto.
      * apply sublist_skip. exact Hs.
    + destruct (IH seen) as (Hn & Hi & Hs). split; [exact Hn | split].
      * intros k. rewrite Hi. cbn [In]. split; [tauto |].
        intros ([<- | H1] & H2 & H3); [| tauto]. exfalso.
        apply andb_false_iff in E as [E | E]; [congruence |].
        apply negb_false_iff, str_in_In in E. contradiction.
      * apply sublist_cons. exact Hs.
Qed.

Lemma collected_truthy (gemini_keys_env : string) (numbered : list string)
    (k : string) :
  In k (collected_keys gemini_keys_env numbered) -> truthy k = true.
Proof.
  unfold collected_keys. rewrite in_app_iff. intros [H | H].
  - destruct (truthy gemini_keys_env); [| destruct H].
    apply filter_In in H. tauto.
  - apply filter_In in H. tauto.
Qed.

Lemma str_in_same (x : string) (l1 l2 : list string) :
  (forall k, In k l1 <-> In k l2) -> str_in x l1 = str_in x l2.
Proof.
  intros H. destruct (str_in x l1) eqn:E1, (str_in x l2) eqn:E2;
    try reflexivity.
  - apply str_in_In, H, str_in_In in E1. congruence.
  - apply str_in_In, H, str_in_In in E2. congruence.
Qed.

Lemma keep_first_positions (l pre seen : list string) :
  (forall k, In k seen <-> In k pre) ->
  (forall k, In k l -> truthy k = true) ->
  keep_first seen l
  = map snd
      (List.filter
         (fun p => negb (str_in (snd p) (take (fst p) (pre ++ l))))
         (enumerate_from (length pre) l)).
Proof.
  revert pre seen. induction l as [| key rest IH]; intros pre seen Hs Ht;
    [reflexivity |].
  cbn [keep_first enumerate_from List.filter fst snd].
  rewrite take_app_length.
  rewrite (Ht key) by (left; reflexivity). cbn [andb].
  rewrite (str_in_same key seen pre Hs).
  assert (Hshift : pre ++ key :: rest = (pre ++ [key]) ++ rest)
    by (rewrite <- app_assoc; reflexivity).
  assert (Hlen : S (length pre) = length (pre ++ [key]))
    by (rewrite length_app; cbn; lia).
  assert (Hrest : forall k, In k rest -> truthy k = true)
    by (intros k Hk; apply Ht; right; exact Hk).
  destruct (str_in key pre) eqn:E; cbn [negb map snd].
  - rewrite Hshift, Hlen. apply IH; [| exact Hrest].
    intros k. rewrite in_app_iff. cbn [In]. rewrite Hs.
    apply str_in_In in E. split; [tauto |].
    intros [H | [<- | []]]; assumption.
  - f_equal. rewrite Hshift, Hlen. apply IH; [| exact Hrest].
    intros k. rewrite in_app_iff. cbn [In]. rewrite Hs. tauto.
Qed.

(** X12. The keys the manager loads are the collected keys without
    repetition, each at the place of its first occurrence: they are the
    collected keys at the positions where the key has not occurred
    before, in that order. Loading fails exactly when nothing was
    collected. *)
Theorem X12_loaded_keys_are_the_distinct_collected_keys
    (gemini_keys_env : string) (numbered : list string) :
  match _load_keys gemini_keys_env numbered with
  | Returns keys =>
      keys <> [] /\ List.NoDup keys
      /\ sublist keys (collected_keys gemini_keys_env numbered)
      /\ (forall k, In k keys <-> In k (collected_keys gemini_keys_env numbered))
      /\ keys
         = map snd
             (List.filter
                (fun p =>
                   negb (str_in (snd p)
                           (take (fst p)
                              (collected_keys gemini_keys_env numbered))))
                (enumerate_from 0 (collected_keys gemini_keys_env numbered)))
  | Raises _ => collected_keys gemini_keys_env numbered = []
  end.
Proof.
  unfold _load_keys.
  destruct (keep_first_spec (collected_keys gemini_keys_env numbered) [])
    as (Hn & Hi & Hs).
  assert (Hall : forall k,
             In k (keep_first [] (collected_keys gemini_keys_env numbered))
             <-> In k (collected_keys gemini_keys_env numbered)).
  { intros k. rewrite Hi. cbn [In]. split; [tauto |].
    intros H. pose proof (collected_truthy _ _ _ H). tauto. }
  pose proof (keep_first_positions (collected_keys gemini_keys_env numbered)
                [] [] (fun k => conj (fun H => H) (fun H => H))
                (collected_truthy gemini_keys_env numbered)) as Hpos.
  cbn [app length] in Hpos.
  destruct (keep_first [] _) as [| k0 ks] eqn:E.
  - destruct (collected_keys gemini_keys_env numbered) as [| c cs];
      [reflexivity |].
    exfalso. apply (proj2 (Hall c)). left. reflexivity.
  - split; [discriminate |]. split; [exact Hn |]. split; [exact Hs |].
    split; [exact Hall | exact Hpos].
Qed.

Lemma key_at_lt (keys : list string) (start j : nat) :
  keys <> [] -> ((start + j) mod length keys < length keys)%nat.
Proof.
  intros H. apply Nat.mod_upper_bound. destruct keys; [congruence | discriminate].
Qed.

Lemma key_at_In (keys : list string) (start j : nat) :
  keys <> [] -> In (key_at keys start j) keys.
Proof. intros H. unfold key_at. apply nth_In, key_at_lt, H. Qed.

Lemma assigned_keys (first : string) (rest : list string) :
  _assign_roles (first :: rest)
  = Returns
      (map (fun '(i, role) =>
              (role, nth (i mod length (first :: rest)) (first :: rest) first))
         (enumerate_from 0 roles)).
Proof. reflexivity. Qed.

Lemma key_at_default (keys : list string) (start j : nat) (d : string) :
  keys <> [] ->
  nth ((start + j) mod length keys) keys d = key_at keys start j.
Proof. intros H. unfold key_at. apply nth_indep, key_at_lt, H. Qed.

(** X13. A manager that could be built has distinct keys, a pool equal
    to them, and gives every role a key of its own list: the role at
    position [i] of the five gets the key at position [i] modulo the
    number of keys, so that with five keys or more no two roles share
    one, and a name that is no role gets the first key. *)
Theorem X13_every_role_gets_a_loaded_key
    (gemini_keys_env : string) (numbered : list string) (km : KeyManager) :
  __init__ gemini_keys_env numbered = Returns km ->
  _keys km <> [] /\ List.NoDup (_keys km) /\ _key_pool km = _keys km
  /\ (forall i role,
        roles !! i = Some role ->
        get_key_for_role km role = Returns (key_at (_keys km) 0 i))
  /\ (forall name,
        ~ In name roles ->
        get_key_for_role km name = Returns (key_at (_keys km) 0 0))
  /\ ((length roles <= length (_keys km))%nat ->
      forall i j role_i role_j key,
        roles !! i = Some role_i -> roles !! j = Some role_j ->
        get_key_for_role km role_i = Returns key ->
        get_key_for_role km role_j = Returns key -> i = j).
Proof.
  unfold __init__. intros H.
  pose proof (X := keep_first_spec (collected_keys gemini_keys_env numbered) []).
  unfold _load_keys in H.
  destruct (keep_first [] _) as [| first rest] eqn:E; [discriminate H |].
  destruct X as (Hn & _ & _).
  destruct (_assign_roles (first :: rest)) as [assignments |] eqn:Ea;
    [| discriminate H].
  injection H as <-. cbn [_keys _key_pool].
  rewrite assigned_keys in Ea. injection Ea as <-.
  assert (Hne : first :: rest <> []) by discriminate.
  assert (Hrole : forall i role,
             roles !! i = Some role ->
             get_key_for_role
               (mk_KeyManager (first :: rest) (first :: rest)
                  (map (fun '(i, role) =>
                          (role, nth (i mod length (first :: rest))
                                   (first :: rest) first))
                     (enumerate_from 0 roles))) role
             = Returns (key_at (first :: rest) 0 i)).
  { intros i role Hr. unfold get_key_for_role. cbn [_keys _assignments].
    do 5 (destruct i as [| i];
          [injection Hr as <-; f_equal;
           exact (key_at_default (first :: rest) 0 _ first Hne) |]).
    discriminate Hr. }
  split; [discriminate |]. split; [exact Hn |]. split; [reflexivity |].
  split; [exact Hrole |]. split.
  - intros name Hname. unfold get_key_for_role. cbn [_keys _assignments].
    cbn [map enumerate_from roles dict_get].
    repeat match goal with
           | |- context [String.eqb ?r name] =>
               destruct (String.eqb_spec r name) as [<- | _];
               [exfalso; apply Hname; cbn; tauto |]
           end.
    unfold key_at. cbn [Nat.add]. rewrite Nat.Div0.mod_0_l. reflexivity.
  - intros Hlen i j role_i role_j key Hi Hj Gi Gj.
    assert (Ki : @Returns string (key_at (first :: rest) 0 i) = Returns key)
      by (etransitivity; [symmetry; exact (Hrole _ _ Hi) | exact Gi]).
    assert (Kj : @Returns string (key_at (first :: rest) 0 j) = Returns key)
      by (etransitivity; [symmetry; exact (Hrole _ _ Hj) | exact Gj]).
    clear Gi Gj. injection Ki as Gi. injection Kj as Gj.
    assert (Hli : (i < 5)%nat) by (apply lookup_lt_Some in Hi; exact Hi).
    assert (Hlj : (j < 5)%nat) by (apply lookup_lt_Some in Hj; exact Hj).
    cbn [roles length] in Hlen.
    unfold key_at in Gi, Gj. rewrite <- Gj in Gi.
    apply (proj1 (NoDup_nth (first :: rest) EmptyString) Hn) in Gi.
    + cbn [length] in *. rewrite !Nat.mod_small in Gi; lia.
    + apply Nat.mod_upper_bound. discriminate.
    + apply Nat.mod_upper_bound. discriminate.
Qed.

Lemma X13_every_role_gets_a_loaded_key_witness :
  get_key_for_role (mk_KeyManager ["k1"; "k2"; "k3"] ["k1"; "k2"; "k3"]
                      [("ORCHESTRATOR", "k1"); ("FLIGHTS", "k2"); ("HOTELS", "k3");
                       ("ITINERARY", "k1"); ("SUMMARY", "k2")]) "ITINERARY"
  = Returns (key_at ["k1"; "k2"; "k3"] 0 3).
Proof.
  refine (proj1 (proj2 (proj2 (proj2
            (X13_every_role_gets_a_loaded_key "k1, k2 ,,k1" ["k3"; " "; "k2"]
               _ _)))) 3%nat "ITINERARY" _).
  - vm_compute. reflexivity.
  - reflexivity.
Defined.

Lemma succ_mod (j n : nat) :
  (0 < n)%nat ->
  (S j mod n)%nat
  = if decide (S (j mod n) = n) then 0%nat else S (j mod n).
Proof.
  intros Hn. pose proof (Nat.div_mod_eq j n) as E.
  pose proof (Nat.mod_upper_bound j n ltac:(lia)) as Hr.
  destruct (decide (S (j mod n) = n)) as [Hlast | Hmore].
  - symmetry. apply (Nat.mod_unique (S j) n (S (j / n))); [lia |].
    rewrite Nat.mul_succ_r. lia.
  - symmetry. apply (Nat.mod_unique (S j) n (j / n)); lia.
Qed.

Lemma mod_add_inj (s i j n : nat) :
  (i < j)%nat -> (j < n)%nat -> ((s + i) mod n <> (s + j) mod n)%nat.
Proof.
  intros Hij Hj E.
  pose proof (Nat.div_mod_eq (s + i) n) as Ei.
  pose proof (Nat.div_mod_eq (s + j) n) as Ej.
  rewrite E in Ei.
  assert (Hq : ((s + i) / n <= (s + j) / n)%nat)
    by (apply Nat.Div0.div_le_mono; lia).
  destruct (decide ((s + i) / n = (s + j) / n)%nat) as [Q | Q].
  - rewrite Q in Ei. lia.
  - assert (Hs : (S ((s + i) / n) <= (s + j) / n)%nat) by lia.
    apply (Nat.mul_le_mono_l _ _ n) in Hs. rewrite Nat.mul_succ_r in Hs. lia.
Qed.

Lemma next_keys_from (keys : list string) (assignments : list (string * string))
    (count j : nat) :
  keys <> [] ->
  let r := (j mod length keys)%nat in
  fst (next_keys count
         (mk_KeyManager keys (drop r keys ++ take r keys) assignments))
  = map (fun i => Returns (key_at keys 0 i)) (seq j count).
Proof.
  intros Hne. revert j. induction count as [| count IH]; intros j r;
    [reflexivity |].
  assert (Hlen : (0 < length keys)%nat)
    by (destruct keys; [congruence | cbn; lia]).
  assert (Hr : (r < length keys)%nat) by (apply Nat.mod_upper_bound; lia).
  destruct (lookup_lt_is_Some_2 keys r Hr) as [x Hx].
  assert (Hk : key_at keys 0 j = x).
  { unfold key_at. cbn [Nat.add]. apply nth_lookup_Some. exact Hx. }
  cbn [next_keys]. unfold next_key. cbn [_key_pool _keys _assignments].
  rewrite (drop_S _ _ _ Hx). cbn [app].
  assert (Hpool : drop (S r) keys ++ take r keys ++ [x]
                  = drop (S j mod length keys) keys
                    ++ take (S j mod length keys) keys).
  { rewrite <- (take_S_r _ _ _ Hx).
    rewrite (succ_mod j _ Hlen). fold r.
    destruct (decide (S r = length keys)) as [Hlast | Hmore].
    - rewrite Hlast, drop_all, firstn_all. cbn. rewrite app_nil_r.
      reflexivity.
    - reflexivity. }
  rewrite <- app_assoc, Hpool.
  specialize (IH (S j)). cbv zeta in IH.
  destruct (next_keys count _) as [answers km'] eqn:En.
  cbn [fst] in IH |- *. cbn [seq map]. rewrite Hk, IH. reflexivity.
Qed.

(** X14. Round robin: called again and again on a manager whose pool is
    its list of keys, [next_key] gives the keys in their order and starts
    over after the last one. *)
Theorem X14_next_key_goes_round
    (keys : list string) (assignments : list (string * string)) (count : nat) :
  keys <> [] ->
  fst (next_keys count (mk_KeyManager keys keys assignments))
  = map (fun i => Returns (key_at keys 0 i)) (seq 0 count).
Proof.
  intros Hne. pose proof (next_keys_from keys assignments count 0 Hne) as H.
  cbv zeta in H. rewrite Nat.Div0.mod_0_l in H. cbn [drop take] in H.
  rewrite app_nil_r in H. exact H.
Qed.

Lemma X14_next_key_goes_round_witness :
  fst (next_keys 4 (mk_KeyManager ["k1"; "k2"; "k3"] ["k1"; "k2"; "k3"] []))
  = [Returns "k1"; Returns "k2"; Returns "k3"; Returns "k1"].
Proof.
  apply (X14_next_key_goes_round ["k1"; "k2"; "k3"] [] 4). discriminate.
Defined.

Section RotationFacts.
Context {A : Type}.
Variable llm_call : nat -> string -> outcome A.
Variable agent_name : string.
Variable all_keys : list string.
Variable current_key_index : nat.
Variable max_keys_to_try : Z.

Lemma next_untried_some (start : nat) (keys_tried : list string)
    (i : nat) (key : string) :
  next_untried all_keys start keys_tried = Some (i, key) ->
  In key all_keys /\ ~ In key keys_tried.
Proof.
  unfold next_untried. intros H. apply find_some in H as [Hin Hnot].
  cbn [snd] in Hnot. apply negb_true_iff in Hnot.
  split.
  - apply in_map_iff in Hin as (offset & E & Ho). injection E as _ <-.
    apply in_seq in Ho. apply nth_In, Nat.mod_upper_bound. lia.
  - rewrite <- str_in_In. congruence.
Qed.

Lemma attempts_trace (todo : list nat) (keys_tried : list string)
    (last : option string) :
  exists new,
    fst (attempts llm_call agent_name all_keys current_key_index
           max_keys_to_try todo keys_tried last) = keys_tried ++ new
    /\ (List.NoDup keys_tried -> List.NoDup (keys_tried ++ new))
    /\ (forall k, In k new -> In k all_keys)
    /\ (length new <= length todo)%nat.
Proof.
  revert keys_tried last. induction todo as [| attempt rest IH];
    intros keys_tried last.
  - exists []. cbn. rewrite app_nil_r. repeat split; [tauto | tauto | lia].
  - cbn [attempts].
    destruct (next_untried all_keys _ keys_tried) as [[i key] |] eqn:E.
    + apply next_untried_some in E as [Hk Hn].
      assert (Hnd : List.NoDup keys_tried -> List.NoDup (keys_tried ++ [key])).
      { intros H. apply NoDup_app_remove_l with (l := []) || idtac.
        apply List.NoDup_rev in H. rewrite <- (rev_involutive (keys_tried ++ [key])).
        apply List.NoDup_rev. rewrite rev_app_distr. cbn.
        constructor; [rewrite <- in_rev; exact Hn | exact H]. }
      destruct (llm_call attempt key) as [result | e].
      * exists [key]. cbn. repeat split;
          [exact Hnd | intros k [<- | []]; exact Hk | lia].
      * destruct (is_rate_limit_error e).
        -- destruct (IH (keys_tried ++ [key]) (Some e)) as (new & H1 & H2 & H3 & H4).
           exists (key :: new). rewrite H1, <- app_assoc. cbn.
           split; [reflexivity |]. split; [| split].
           ++ intros H. specialize (H2 (Hnd H)).
              rewrite <- app_assoc in H2. exact H2.
           ++ intros k [<- | H]; [exact Hk | exact (H3 k H)].
           ++ lia.
        -- exists [key]. cbn. repeat split;
             [exact Hnd | intros k [<- | []]; exact Hk | lia].
    + exists []. cbn. rewrite app_nil_r. repeat split; [tauto | tauto | lia].
Qed.

Hypothesis keys_distinct : List.NoDup all_keys.

Lemma key_at_distinct (i j : nat) :
  (i < j)%nat -> (j < length all_keys)%nat ->
  key_at all_keys current_key_index i <> key_at all_keys current_key_index j.
Proof.
  intros Hij Hj E. unfold key_at in E.
  apply (proj1 (NoDup_nth all_keys EmptyString) keys_distinct) in E;
    [| apply Nat.mod_upper_bound; lia | apply Nat.mod_upper_bound; lia].
  exact (mod_add_inj _ _ _ _ Hij Hj E).
Qed.

Lemma next_untried_round (j : nat) :
  (j < length all_keys)%nat ->
  next_untried all_keys (current_key_index + j)
    (map (key_at all_keys current_key_index) (seq 0 j))
  = Some (((current_key_index + j) mod length all_keys)%nat,
          key_at all_keys current_key_index j).
Proof.
  intros Hj. unfold next_untried.
  destruct (length all_keys) as [| n] eqn:En; [lia |].
  cbn [seq map List.find snd]. rewrite Nat.add_0_r.
  replace (nth ((current_key_index + j) mod S n) all_keys EmptyString)
    with (key_at all_keys current_key_index j)
    by (unfold key_at; rewrite En; reflexivity).
  destruct (str_in _ _) eqn:Es; [| reflexivity].
  exfalso. apply str_in_In, in_map_iff in Es as (i & E & Hi).
  apply in_seq in Hi. apply (key_at_distinct i j); [lia | lia | exact E].
Qed.

Lemma tried_snoc (j : nat) :
  map (key_at all_keys current_key_index) (seq 0 j)
  ++ [key_at all_keys current_key_index j]
  = map (key_at all_keys current_key_index) (seq 0 (S j)).
Proof. rewrite seq_S, map_app. reflexivity. Qed.

Lemma attempts_decisive (c j t : nat) (last : option string) :
  (j + c <= length all_keys)%nat -> (j <= t < j + c)%nat ->
  (forall i, (j <= i < t)%nat ->
             rate_limited (llm_call i (key_at all_keys current_key_index i))
             = true) ->
  rate_limited (llm_call t (key_at all_keys current_key_index t)) = false ->
  attempts llm_call agent_name all_keys current_key_index max_keys_to_try
    (seq j c) (map (key_at all_keys current_key_index) (seq 0 j)) last
  = (map (key_at all_keys current_key_index) (seq 0 (S t)),
     llm_call t (key_at all_keys current_key_index t)).
Proof.
  revert j last. induction c as [| c IH]; intros j last Hc Ht Hbefore Hat;
    [lia |].
  cbn [seq attempts]. rewrite next_untried_round by lia. rewrite tried_snoc.
  destruct (decide (t = j)) as [-> | Hne].
  - unfold rate_limited in Hat.
    destruct (llm_call j _) as [result | e]; [reflexivity |].
    rewrite Hat. reflexivity.
  - pose proof (Hbefore j ltac:(lia)) as Hj. unfold rate_limited in Hj.
    destruct (llm_call j _) as [result | e]; [discriminate Hj |].
    rewrite Hj. apply IH; [lia | lia | | exact Hat].
    intros i Hi. apply Hbefore. lia.
Qed.

Lemma attempts_exhausted (c j : nat) (last : option string) :
  (j + c <= length all_keys)%nat ->
  (forall i, (j <= i < j + c)%nat ->
             rate_limited (llm_call i (key_at all_keys current_key_index i))
             = true) ->
  attempts llm_call agent_name all_keys current_key_index max_keys_to_try
    (seq j c) (map (key_at all_keys current_key_index) (seq 0 j)) last
  = (map (key_at all_keys current_key_index) (seq 0 (j + c)),
     match c with
     | O => exhausted agent_name max_keys_to_try last
     | S c' => llm_call (j + c')%nat (key_at all_keys current_key_index (j + c'))
     end).
Proof.
  revert j last. induction c as [| c IH]; intros j last Hc Hall.
  - cbn [seq attempts]. rewrite Nat.add_0_r. reflexivity.
  - cbn [seq attempts]. rewrite next_untried_round by lia. rewrite tried_snoc.
    pose proof (Hall j ltac:(lia)) as Hj. unfold rate_limited in Hj.
    destruct (llm_call j _) as [result | e] eqn:Ej; [discriminate Hj |].
    rewrite Hj, IH; [| lia | intros i Hi; apply Hall; lia].
    rewrite Nat.add_succ_r. cbn [Nat.add]. f_equal.
    destruct c as [| c'].
    + rewrite Nat.add_0_r, Ej. reflexivity.
    + rewrite Nat.add_succ_r. reflexivity.
Qed.

End RotationFacts.

(** X15. Whatever the calls answer, the rotating call uses no key
    twice, uses only keys of the manager, and makes no more calls than
    there are keys nor than the bound it was given. *)
Theorem X15_no_key_is_tried_twice {A : Type} (key_manager : KeyManager)
    (agent_name : string) (llm_call : nat -> string -> outcome A)
    (max_keys_to_try : option Z) :
  let keys_tried :=
    fst (call_with_key_rotation key_manager agent_name llm_call
           max_keys_to_try) in
  List.NoDup keys_tried
  /\ (forall key, In key keys_tried -> In key (_keys key_manager))
  /\ (length keys_tried <= length (_keys key_manager))%nat
  /\ (forall m, max_keys_to_try = Some m ->
                Z.of_nat (length keys_tried) <= Z.max 0 m).
Proof.
  cbv zeta. unfold call_with_key_rotation, get_all_keys.
  destruct (get_key_for_role key_manager agent_name) as [assigned | e].
  - match goal with
    | |- context [attempts ?f ?a ?ks ?ci ?mx ?todo [] None] =>
        destruct (attempts_trace f a ks ci mx todo [] None)
          as (new & H1 & H2 & H3 & H4)
    end.
    rewrite H1. cbn [app]. cbn [app] in H2.
    rewrite length_seq in H4.
    assert (Hnd : List.NoDup new) by (apply H2; constructor).
    split; [exact Hnd |]. split; [exact H3 |]. split.
    + apply NoDup_incl_length; [exact Hnd | exact H3].
    + intros m ->. lia.
  - cbn. split; [constructor |]. split; [tauto |]. split; [lia |].
    intros m _. lia.
Qed.

(** X16. With distinct keys, the keys are used in the order of the list
    starting from the key assigned to the agent and going round, and the
    first answer that is not a rate-limit error ends the call: it is the
    result, be it a value or another error, and no further key is used. *)
Theorem X16_first_answer_that_is_no_rate_limit_decides {A : Type}
    (key_manager : KeyManager) (agent_name : string)
    (llm_call : nat -> string -> outcome A) (max_keys_to_try : option Z)
    (assigned_key : string) (t : nat) :
  List.NoDup (_keys key_manager) ->
  get_key_for_role key_manager agent_name = Returns assigned_key ->
  let all_keys := _keys key_manager in
  let start := match index assigned_key all_keys with
               | Some assigned_index => assigned_index
               | None => O
               end in
  let count :=
    Z.to_nat (match max_keys_to_try with
              | None => Z.of_nat (length all_keys)
              | Some m => Z.min m (Z.of_nat (length all_keys))
              end) in
  (t < count)%nat ->
  (forall i, (i < t)%nat ->
             rate_limited (llm_call i (key_at all_keys start i)) = true) ->
  rate_limited (llm_call t (key_at all_keys start t)) = false ->
  call_with_key_rotation key_manager agent_name llm_call max_keys_to_try
  = (map (key_at all_keys start) (seq 0 (S t)),
     llm_call t (key_at all_keys start t)).
Proof.
  intros Hnd Hrole all_keys start count Ht Hbefore Hat.
  unfold call_with_key_rotation, get_all_keys. rewrite Hrole.
  fold all_keys. fold start. fold count.
  apply (attempts_decisive llm_call agent_name all_keys start _ Hnd count 0 t
           None).
  - subst count. destruct max_keys_to_try; lia.
  - lia.
  - intros i Hi. apply Hbefore. lia.
  - exact Hat.
Qed.

(** X17. With distinct keys, when every key in turn answers with a
    rate-limit error, each of the allowed keys is used once, in the order
    of the round, and the error raised is the one of the last key used. *)
Theorem X17_rate_limits_everywhere_raise_the_last_one {A : Type}
    (key_manager : KeyManager) (agent_name : string)
    (llm_call : nat -> string -> outcome A) (max_keys_to_try : option Z)
    (assigned_key : string) :
  List.NoDup (_keys key_manager) ->
  get_key_for_role key_manager agent_name = Returns assigned_key ->
  let all_keys := _keys key_manager in
  let start := match index assigned_key all_keys with
               | Some assigned_index => assigned_index
               | None => O
               end in
  let count :=
    Z.to_nat (match max_keys_to_try with
              | None => Z.of_nat (length all_keys)
              | Some m => Z.min m (Z.of_nat (length all_keys))
              end) in
  (0 < count)%nat ->
  (forall i, (i < count)%nat ->
             rate_limited (llm_call i (key_at all_keys start i)) = true) ->
  call_with_key_rotation key_manager agent_name llm_call max_keys_to_try
  = (map (key_at all_keys start) (seq 0 count),
     llm_call (count - 1)%nat (key_at all_keys start (count - 1)))
  /\ exists e,
       llm_call (count - 1)%nat (key_at all_keys start (count - 1)) = Raises e
       /\ is_rate_limit_error e = true.
Proof.
  intros Hnd Hrole all_keys start count Hpos Hall. split.
  - unfold call_with_key_rotation, get_all_keys. rewrite Hrole.
    fold all_keys. fold start. fold count.
    rewrite (attempts_exhausted llm_call agent_name all_keys start _ Hnd
               count 0 None).
    + destruct count as [| c]; [lia |]. cbn [Nat.add].
      replace (S c - 1)%nat with c by lia. reflexivity.
    + subst count. destruct max_keys_to_try; lia.
    + intros i Hi. apply Hall. lia.
  - specialize (Hall (count - 1)%nat ltac:(lia)). unfold rate_limited in Hall.
    destruct (llm_call _ _) as [r | e]; [discriminate Hall |].
    exists e. split; [reflexivity | exact Hall].
Qed.

End KeyFacts.

Section KeyExamples.
Import Py Plan Sse Text Keys Examples.

Lemma X16_first_answer_that_is_no_rate_limit_decides_witness :
  call_with_key_rotation three_keys "HOTELS" second_call_answers None
  = (["k3"; "k1"], Returns 1%nat).
Proof.
  refine (X16_first_answer_that_is_no_rate_limit_decides three_keys "HOTELS"
            second_call_answers None "k3" 1 _ _ _ _ _).
  - vm_compute. repeat constructor; intros H; cbn in H;
      repeat (destruct H as [H | H]; [discriminate H |]); exact H.
  - reflexivity.
  - vm_compute. lia.
  - intros i Hi. assert (i = 0%nat) as -> by lia. vm_compute. reflexivity.
  - vm_compute. reflexivity.
Defined.

Lemma X17_rate_limits_everywhere_raise_the_last_one_witness :
  call_with_key_rotation three_keys "HOTELS" always_over_quota (Some 2)
  = (["k3"; "k1"], Raises "429 quota exceeded").
Proof.
  refine (proj1 (X17_rate_limits_everywhere_raise_the_last_one three_keys
                   "HOTELS" always_over_quota (Some 2) "k3" _ _ _ _)).
  - vm_compute. repeat constructor; intros H; cbn in H;
      repeat (destruct H as [H | H]; [discriminate H |]); exact H.
  - reflexivity.
  - vm_compute. lia.
  - intros i _. vm_compute. reflexivity.
Defined.

End KeyExamples.

(** ** Plan summary *)

Section SummaryFacts.
Import Py Plan Sse Text Supervisor Summary Scenario Examples.

Lemma generate_summary_returns {L : Type}
    (make_ollama : string -> outcome L) (py_str : pyval -> string)
    (intent : TripRequest) (results : list (string * dict))
    (requested_components : option (list string))
    (summary : list (string * string)) :
  Summary._generate_summary make_ollama py_str intent results
    requested_components = Returns summary ->
  let requested :=
    match requested_components with
    | Some (c :: r) => c :: r
    | _ => default_components
    end in
  exists parts,
    summary_parts py_str results requested = Returns parts
    /\ summary
       = [("summary", fallback_summary intent requested parts);
          ("notes", "Summary generated without AI enhancement.")].
Proof.
  intros H requested.
  unfold Summary._generate_summary, obind, call_ollama in H.
  fold requested in H.
  destruct (summary_parts py_str results requested) as [parts | e];
    [| discriminate H].
  exists parts. split; [reflexivity |].
  destruct (make_ollama "SUMMARY"); injection H as <-; reflexivity.
Qed.

(** X18. The summary never comes from the model: for every behaviour
    of the client factory, whenever [_generate_summary] returns, the text
    is the one assembled from the parts of the results and the note says
    that no model was used. *)
Theorem X18_summary_never_comes_from_the_model {L : Type}
    (make_ollama : string -> outcome L) (py_str : pyval -> string)
    (intent : TripRequest) (results : list (string * dict))
    (requested_components : option (list string))
    (summary : list (string * string)) :
  Summary._generate_summary make_ollama py_str intent results
    requested_components = Returns summary ->
  let requested :=
    match requested_components with
    | Some (c :: r) => c :: r
    | _ => default_components
    end in
  exists parts,
    summary_parts py_str results requested = Returns parts
    /\ summary
       = [("summary", fallback_summary intent requested parts);
          ("notes", "Summary generated without AI enhancement.")].
Proof. exact (generate_summary_returns make_ollama py_str intent results
                requested_components summary). Qed.

Lemma X18_summary_never_comes_from_the_model_witness :
  exists parts,
    summary_parts (fun _ => EmptyString)
      [("FLIGHTS", [("flights", PList [PDict old_flight; PDict new_flight]);
                    ("reasoning", PStr "ok")])] ["FLIGHTS"]
    = Returns parts
    /\ [("summary", "Flight search results for New York to Paris: Found 2 flight options");
        ("notes", "Summary generated without AI enhancement.")]
       = [("summary", fallback_summary paris_request ["FLIGHTS"] parts);
          ("notes", "Summary generated without AI enhancement.")].
Proof.
  apply (X18_summary_never_comes_from_the_model (fun _ => Returns tt)
           (fun _ => EmptyString) paris_request _ (Some ["FLIGHTS"])).
  vm_compute. reflexivity.
Defined.


Lemma lookup_recorded (env : environment) (intent : TripRequest)
    (agents_needed : list string) (results : list (string * dict)) :
  result (_run_agents_parallel env intent agents_needed) = Returns results ->
  (str_in "FLIGHTS" agents_needed = true ->
   result_for results "FLIGHTS"
   = recorded "FLIGHTS" (result (_run_flight_agent env intent)))
  /\ (str_in "HOTELS" agents_needed = true ->
      result_for results "HOTELS"
      = recorded "HOTELS" (result (_run_hotel_agent env intent)))
  /\ (str_in "ITINERARY" agents_needed = true ->
      result_for results "ITINERARY"
      = recorded "ITINERARY" (result (_run_itinerary_agent env intent))).
Proof.
  rewrite results_of_supervisor. intros [= <-]. unfold result_for.
  destruct (str_in "FLIGHTS" agents_needed),
           (str_in "HOTELS" agents_needed),
           (str_in "ITINERARY" agents_needed);
    (split; [| split]); intros H; try discriminate H; reflexivity.
Qed.

Lemma mentions_error (e : string) :
  has_error_word ("Error searching flights: " +:+ e) = true.
Proof. reflexivity. Qed.

(** X19. How a failed agent reads in the summary of a fresh plan. A
    flight search that raised is reported with its message; a hotel
    search that raised is summarised as [Hotels: No hotel information.],
    without the message; a planner that raised is never summarised: the
    log statement that comes before the summary raises on its entry. *)
Theorem X19_failed_agents_in_the_summary
    (env : environment) (intent : TripRequest) (agents_needed : list string)
    (results : list (string * dict)) (e : string) :
  result (_run_agents_parallel env intent agents_needed) = Returns results ->
  (str_in "FLIGHTS" agents_needed = true ->
   result (search_flights_agent env intent) = Raises e ->
   flights_part (result_for results "FLIGHTS")
   = Returns ("Flights: I encountered an error. (Error searching flights: "
              +:+ e +:+ ")"))
  /\ (str_in "HOTELS" agents_needed = true ->
      result (_run_hotel_agent env intent) = Raises e ->
      hotels_part (result_for results "HOTELS")
      = Returns "Hotels: No hotel information.")
  /\ (str_in "ITINERARY" agents_needed = true ->
      result (_run_itinerary_agent env intent) = Raises e ->
      exists m, log_results results = Raises m).
Proof.
  intros Hr. destruct (lookup_recorded _ _ _ _ Hr) as (Hf & Hh & _).
  split; [| split]; intros Hin He.
  - rewrite (Hf Hin), (flight_agent_swallows _ _ _ He).
    unfold flights_part, recorded, flight_fallback, reasoning_of, obind.
    cbn [dict_get String.eqb Ascii.eqb Bool.eqb].
    rewrite mentions_error. reflexivity.
  - rewrite (Hh Hin), He. reflexivity.
  - exact (itinerary_failure_stops_the_log _ _ _ _ _ Hin He Hr).
Qed.

Lemma X19_failed_agents_in_the_summary_witness :
  hotels_part
    (result_for
       (match result (_run_agents_parallel hotel_agent_down paris_request
                        default_components) with
        | Returns results => results
        | Raises _ => []
        end) "HOTELS")
  = Returns "Hotels: No hotel information.".
Proof.
  refine (proj1 (proj2 (X19_failed_agents_in_the_summary hotel_agent_down
                          paris_request default_components _
                          "hotel search timed out" _))
            _ _); vm_compute; reflexivity.
Defined.



End SummaryFacts.

(** ** Clarification question *)

Section ClarifyFacts.
Import Py Plan Sse Text Missing Clarify Scenario.

Lemma not_blank_truthy (s : string) : blank s = false -> truthy s = true.
Proof.
  unfold blank. intros H. apply orb_false_iff in H as [H _].
  apply negb_false_iff in H. exact H.
Qed.

Lemma in_missing_destination (intent : TripRequest)
    (requested_components : list string) (x : string) :
  In x (_check_missing_information intent requested_components) ->
  ~ In "destination" (_check_missing_information intent requested_components) ->
  truthy (destination intent) = true.
Proof.
  intros Hx Hd. destruct (blank (destination intent)) eqn:E;
    [| apply not_blank_truthy, E].
  exfalso. apply Hd. rewrite In_missing in Hx |- *.
  rewrite In_flights_block, In_hotels_block, In_itinerary_block in *.
  cbn [In] in *. tauto.
Qed.

Lemma in_missing_late_fields (intent : TripRequest)
    (requested_components : list string) (x : string) :
  x = "origin" \/ x = "trip_length" ->
  In x (_check_missing_information intent requested_components) ->
  ~ In "depart_date" (_check_missing_information intent requested_components) ->
  truthy (depart_date intent) = true.
Proof.
  intros Hx Hin Hd. destruct (blank (depart_date intent)) eqn:E;
    [| apply not_blank_truthy, E].
  rewrite !In_missing in *.
  rewrite !In_flights_block, !In_hotels_block, !In_itinerary_block in *.
  cbn [In] in *.
  destruct Hx as [-> | ->].
  - destruct Hin as [(Hf & _) | [(_ & [[] | [(H & _) | (H & _)]])
                                | (_ & [[] | [(H & _) | [(H & _) | (H & _)]]])]];
      try discriminate H.
    exfalso. apply Hd. left. split; [exact Hf |]. right. right. left. tauto.
  - destruct Hin as [(_ & [[] | [(H & _) | [(H & _) | (H & _)]]])
                    | [(_ & [[] | [(H & _) | (H & _)]])
                      | (_ & [[] | [(H & _) | [(H & _) | (_ & _ & H & _)]]])]];
      try discriminate H.
    exact H.
Qed.

(** X21. When the model is not available, the clarification asks for
    one field of the list the checker produced, in the order destination,
    departure date, origin, trip length; the general sentence that lists
    all the fields is never reached with a list of the checker. *)
Theorem X21_fallback_question_asks_for_a_missing_field
    (ask : string -> string -> string -> outcome string)
    (intent : TripRequest) (requested_components : list string) (e : string) :
  let missing_fields := _check_missing_information intent requested_components in
  missing_fields <> [] ->
  ask (requested_str requested_components) (context_str intent)
    (String.concat ", " missing_fields) = Raises e ->
  let question :=
    _format_clarification_question ask missing_fields intent
      requested_components in
  if str_in "destination" missing_fields then
    question
    = "I'd be happy to help! To get started, which city or destination would you like to visit?"
  else if str_in "depart_date" missing_fields then
    question
    = (if truthy (destination intent)
       then "Great! I can help you plan a trip to " +:+ destination intent
            +:+ ". When would you like to travel? Please provide a departure date."
       else "When would you like to travel? Please provide a departure date.")
  else if str_in "origin" missing_fields then
    question
    = "Perfect! I'll help you plan a trip to " +:+ destination intent
      +:+ " starting " +:+ depart_date intent
      +:+ ". From which city or airport are you departing?"
  else
    In "trip_length" missing_fields
    /\ question
       = "Great! I can create an itinerary for " +:+ destination intent
         +:+ " starting " +:+ depart_date intent
         +:+ ". How many days will your trip be? (e.g., 5 days, a week, 10 days)".
Proof.
  intros missing_fields Hne Hask question. subst question.
  unfold _format_clarification_question. rewrite Hask.
  unfold fallback_question.
  destruct (str_in "destination" missing_fields) eqn:Ed; [reflexivity |].
  destruct (str_in "depart_date" missing_fields) eqn:Et; [reflexivity |].
  assert (Hd : ~ In "destination" missing_fields)
    by (rewrite <- str_in_In; congruence).
  assert (Ht : ~ In "depart_date" missing_fields)
    by (rewrite <- str_in_In; congruence).
  destruct (str_in "origin" missing_fields) eqn:Eo.
  - apply str_in_In in Eo.
    rewrite (in_missing_destination _ _ _ Eo Hd).
    rewrite (in_missing_late_fields _ _ _ (or_introl eq_refl) Eo Ht).
    reflexivity.
  - assert (Hl : In "trip_length" missing_fields).
    { destruct missing_fields as [| x rest] eqn:E; [congruence |].
      assert (Hx : In x (_check_missing_information intent requested_components))
        by (fold missing_fields; rewrite E; left; reflexivity).
      pose proof Hx as Hx'. rewrite In_missing in Hx'.
      rewrite In_flights_block, In_hotels_block, In_itinerary_block in Hx'.
      cbn [In] in Hx'.
      assert (Hcases : x = "destination" \/ x = "depart_date" \/ x = "origin"
                       \/ x = "trip_length") by tauto.
      assert (Ho : ~ In "origin" (x :: rest))
        by (rewrite <- str_in_In; congruence).
      destruct Hcases as [-> | [-> | [-> | ->]]].
      - exfalso. apply Hd. left. reflexivity.
      - exfalso. apply Ht. left. reflexivity.
      - exfalso. apply Ho. left. reflexivity.
      - left. reflexivity. }
    split; [exact Hl |].
    rewrite (proj2 (str_in_In _ _) Hl).
    rewrite (in_missing_destination _ _ _ Hl Hd).
    rewrite (in_missing_late_fields _ _ _ (or_intror eq_refl) Hl Ht).
    reflexivity.
Qed.

Lemma X21_fallback_question_asks_for_a_missing_field_witness :
  _format_clarification_question (fun _ _ _ => Raises "connection refused")
    (_check_missing_information
       (mk_TripRequest "" "Paris" "2025-07-01" None 1 0 None []) ["FLIGHTS"])
    (mk_TripRequest "" "Paris" "2025-07-01" None 1 0 None []) ["FLIGHTS"]
  = "Perfect! I'll help you plan a trip to Paris starting 2025-07-01. From which city or airport are you departing?".
Proof.
  refine (X21_fallback_question_asks_for_a_missing_field
            (fun _ _ _ => Raises "connection refused")
            (mk_TripRequest "" "Paris" "2025-07-01" None 1 0 None [])
            ["FLIGHTS"] "connection refused" _ _).
  - vm_compute. discriminate.
  - reflexivity.
Defined.

End ClarifyFacts.

(** ** Questions that are not about travel *)

Section NonTravelFacts.
Import Py Plan Sse Text Supervisor NonTravel.

(** X22. A question that is not about travel never raises and always
    ends in a plan without results. When saving the exchange works, the
    client gets the answer once, as a text chunk and as the final summary,
    and the plan carries it. When saving raises, the answer has already
    been sent: the client then gets a second text chunk and a second final
    summary with the stock message, and the plan carries the stock
    message, not the answer. *)
Theorem X22_failed_save_sends_a_second_final_summary
    (answer : string -> outcome string)
    (save : string -> string -> outcome unit) (user_message : string) :
  let c := _handle_non_travel_query answer save user_message in
  let m := response_message answer user_message in
  match save user_message m with
  | Returns _ =>
      trace c = [Send (TextChunk m 0); Send (SummarySegment m EmptyString true)]
      /\ result c = Returns (new_plan empty_request m EmptyString)
  | Raises _ =>
      trace c
      = [Send (TextChunk m 0); Send (SummarySegment m EmptyString true);
         Send (TextChunk fallback_message 0);
         Send (SummarySegment fallback_message EmptyString true)]
      /\ result c = Returns (new_plan empty_request fallback_message EmptyString)
  end.
Proof.
  unfold _handle_non_travel_query. cbv zeta.
  destruct (save user_message (response_message answer user_message));
    split; reflexivity.
Qed.

End NonTravelFacts.

(** ** The retry loop of the flight search *)

Section FlightSearchFacts.
Import Py Plan FlightSearch Examples.

Lemma retry_loop_cases (attempt_body : Z -> attempt_outcome) :
  retry_loop attempt_body [0; 1; 2] []
  = match attempt_body 0 with
    | Returned d => ([], d)
    | OtherError e => ([], error_dict ("A critical error occurred: " +:+ e))
    | NetworkError _ =>
        match attempt_body 1 with
        | Returned d => ([1], d)
        | OtherError e => ([1], error_dict ("A critical error occurred: " +:+ e))
        | NetworkError _ =>
            match attempt_body 2 with
            | Returned d => ([1; 2], d)
            | OtherError e =>
                ([1; 2], error_dict ("A critical error occurred: " +:+ e))
            | NetworkError e => ([1; 2], error_dict ("Network error: " +:+ e))
            end
        end
    end.
Proof.
  cbn [retry_loop]. destruct (attempt_body 0); reflexivity.
Qed.

(** X23. The flight search asks at most three times. It asks again
    only after a network error, pausing one second after the first and
    two after the second; the first pass that returns or raises anything
    else decides, and a third network error ends the search with that
    error. The closing [return] after the loop is never reached. *)
Theorem X23_flight_search_asks_at_most_three_times
    (key : string) (attempt_body : Z -> attempt_outcome) :
  key <> EmptyString ->
  exists i : nat,
    (i < 3)%nat
    /\ (forall j : nat, (j < i)%nat ->
                        exists e, attempt_body (Z.of_nat j) = NetworkError e)
    /\ fst (search_flights (Some key) attempt_body)
       = map (fun j : nat => 2 ^ Z.of_nat j) (seq 0 i)
    /\ snd (search_flights (Some key) attempt_body)
       = match attempt_body (Z.of_nat i) with
         | Returned d => d
         | NetworkError e => error_dict ("Network error: " +:+ e)
         | OtherError e => error_dict ("A critical error occurred: " +:+ e)
         end
    /\ forall e, attempt_body (Z.of_nat i) = NetworkError e -> i = 2%nat.
Proof.
  intros Hkey. unfold search_flights.
  destruct key as [| c key']; [congruence |].
  rewrite retry_loop_cases.
  assert (Hfinish : forall i : nat,
             (i < 3)%nat ->
             (forall j : nat, (j < i)%nat ->
                exists e, attempt_body (Z.of_nat j) = NetworkError e) ->
             forall slept answer,
               slept = map (fun j : nat => 2 ^ Z.of_nat j) (seq 0 i) ->
               answer
               = match attempt_body (Z.of_nat i) with
                 | Returned d => d
                 | NetworkError e => error_dict ("Network error: " +:+ e)
                 | OtherError e =>
                     error_dict ("A critical error occurred: " +:+ e)
                 end ->
               (forall e, attempt_body (Z.of_nat i) = NetworkError e ->
                          i = 2%nat) ->
               exists i : nat,
                 (i < 3)%nat
                 /\ (forall j : nat, (j < i)%nat ->
                       exists e, attempt_body (Z.of_nat j) = NetworkError e)
                 /\ fst (slept, answer)
                    = map (fun j : nat => 2 ^ Z.of_nat j) (seq 0 i)
                 /\ snd (slept, answer)
                    = match attempt_body (Z.of_nat i) with
                      | Returned d => d
                      | NetworkError e => error_dict ("Network error: " +:+ e)
                      | OtherError e =>
                          error_dict ("A critical error occurred: " +:+ e)
                      end
                 /\ forall e, attempt_body (Z.of_nat i) = NetworkError e ->
                              i = 2%nat).
  { intros i Hi Hn slept answer Hs Ha Hl. exists i. tauto. }
  assert (H0 : forall j : nat, (j < 0)%nat ->
                 exists e, attempt_body (Z.of_nat j) = NetworkError e)
    by (intros j Hj; lia).
  destruct (attempt_body 0) as [d0 | e0 | e0] eqn:E0.
  - apply (Hfinish 0%nat); [lia | exact H0 | reflexivity | | ].
    + change (Z.of_nat 0) with 0. rewrite E0. reflexivity.
    + change (Z.of_nat 0) with 0. intros e He. congruence.
  - assert (H1 : forall j : nat, (j < 1)%nat ->
                   exists e, attempt_body (Z.of_nat j) = NetworkError e).
    { intros j Hj. assert (j = 0%nat) as -> by lia. exists e0. exact E0. }
    destruct (attempt_body 1) as [d1 | e1 | e1] eqn:E1.
    + apply (Hfinish 1%nat); [lia | exact H1 | reflexivity | | ].
      * change (Z.of_nat 1) with 1. rewrite E1. reflexivity.
      * change (Z.of_nat 1) with 1. intros e He. congruence.
    + assert (H2 : forall j : nat, (j < 2)%nat ->
                     exists e, attempt_body (Z.of_nat j) = NetworkError e).
      { intros j Hj. assert (j = 0%nat \/ j = 1%nat) as [-> | ->] by lia;
          [exists e0; exact E0 | exists e1; exact E1]. }
      apply (Hfinish 2%nat); [lia | exact H2 | | | reflexivity].
      * destruct (attempt_body 2); reflexivity.
      * change (Z.of_nat 2) with 2. destruct (attempt_body 2); reflexivity.
    + apply (Hfinish 1%nat); [lia | exact H1 | reflexivity | | ].
      * change (Z.of_nat 1) with 1. rewrite E1. reflexivity.
      * change (Z.of_nat 1) with 1. intros e He. congruence.
  - apply (Hfinish 0%nat); [lia | exact H0 | reflexivity | | ].
    + change (Z.of_nat 0) with 0. rewrite E0. reflexivity.
    + change (Z.of_nat 0) with 0. intros e He. congruence.
Qed.

Lemma X23_flight_search_asks_at_most_three_times_witness :
  exists i : nat,
    (i < 3)%nat
    /\ (forall j : nat, (j < i)%nat ->
                        exists e, flaky_network (Z.of_nat j) = NetworkError e)
    /\ fst (search_flights (Some "serpapi-key") flaky_network)
       = map (fun j : nat => 2 ^ Z.of_nat j) (seq 0 i)
    /\ snd (search_flights (Some "serpapi-key") flaky_network)
       = match flaky_network (Z.of_nat i) with
         | Returned d => d
         | NetworkError e => error_dict ("Network error: " +:+ e)
         | OtherError e => error_dict ("A critical error occurred: " +:+ e)
         end
    /\ forall e, flaky_network (Z.of_nat i) = NetworkError e -> i = 2%nat.
Proof.
  apply (X23_flight_search_asks_at_most_three_times "serpapi-key" flaky_network).
  discriminate.
Defined.

End FlightSearchFacts.
